(** * ChartDB workspace server: a shallow embedding of [server/index.js]

    The Express handlers, the three SQLite relations they touch and the
    Socket.IO room registry are rendered as functions over an explicit
    server state.  What the handlers read from their surroundings (the
    wall clock, SQLite's [datetime('now')], storage failures, the bcrypt
    salt) is an explicit [env] argument.  The arguments of a statement pass
    through the binder of [better-sqlite3] ([Sqlite.bind]) and take the
    affinity of their column.

    The browser side follows: the storage provider that caches the
    diagrams of a page and persists them through [api], the [fetch]
    wrapper of [server-storage.ts], the socket listener of
    [useDiagramLoader] and the sign-in button; [Wire] connects them to
    the handlers. *)

From Stdlib Require Import ZArith String Ascii List Lia.
From stdpp Require Import gmap strings list fin_maps sorting pretty.

Set Warnings "-register-all".

Local Open Scope Z_scope.
Local Open Scope string_scope.

(** ** JavaScript values as the handlers see them *)

Module JS.

(** A value produced by [express.json()] or sent over a socket.  Number
    literals are the integral ones; a property that is missing reads as
    [undefined], written [None] at type [option json]. *)
Inductive json : Type :=
| JNull
| JBool (b : bool)
| JNum (z : Z)
| JStr (s : string)
| JArr (items : list json)
| JObj (props : list (string * json)).

(** [ToBoolean]: what [!x], [x ? a : b] and [x || y] test. *)
Definition truthy (v : option json) : bool :=
  match v with
  | None | Some JNull => false
  | Some (JBool b) => b
  | Some (JNum z) => negb (z =? 0)%Z
  | Some (JStr s) => negb (String.eqb s "")
  | Some (JArr _) | Some (JObj _) => true
  end.

(** [v ?? d] *)
Definition nullish_or (v : option json) (d : json) : json :=
  match v with
  | None | Some JNull => d
  | Some x => x
  end.

Fixpoint assoc (k : string) (props : list (string * json)) : option json :=
  match props with
  | [] => None
  | (k', v) :: rest => if String.eqb k k' then Some v else assoc k rest
  end.

(** Reading one of the named properties the handlers destructure
    ([email], [password], [id], [name], [diagram], [patch]); only objects
    carry them. *)
Definition prop (k : string) (v : json) : option json :=
  match v with
  | JObj props => assoc k props
  | _ => None
  end.

(** [const { k } = req.body || {}] *)
Definition body_or_empty (body : option json) : json :=
  if truthy body then nullish_or body (JObj []) else JObj [].

(** [String(v)], as a template literal applies it. *)
Fixpoint to_String (v : json) : string :=
  match v with
  | JNull => "null"
  | JBool true => "true"
  | JBool false => "false"
  | JNum z => pretty z
  | JStr s => s
  | JArr items =>
      (fix join (l : list json) : string :=
         match l with
         | [] => ""
         | x :: rest =>
             let sx := match x with JNull => "" | _ => to_String x end in
             match rest with
             | [] => sx
             | _ :: _ => sx +:+ "," +:+ join rest
             end
         end) items
  | JObj _ => "[object Object]"
  end.

Definition template (v : option json) : string :=
  match v with
  | None => "undefined"
  | Some x => to_String x
  end.

(** [s.includes(needle)] *)
Fixpoint includes (needle s : string) : bool :=
  String.prefix needle s ||
  match s with
  | EmptyString => false
  | String _ rest => includes needle rest
  end.

End JS.
Import JS.

(** ** [JSON.stringify] and [JSON.parse] on the values above *)

Module JSON.

Definition dquote : ascii := ascii_of_N 34.

Definition hex_digit (n : N) : ascii :=
  ascii_of_N (if (n <? 10)%N then 48 + n else 87 + n).

(** One character inside a string literal, escaped as [JSON.stringify]
    does: quote, backslash, the five short escapes, [\u00xx] for the other
    control characters. *)
Definition escape_char (c : ascii) : string :=
  let n := N_of_ascii c in
  if (n =? 34)%N then String "\" (String dquote "") else
  if (n =? 92)%N then "\\" else
  if (n =? 8)%N then "\b" else
  if (n =? 9)%N then "\t" else
  if (n =? 10)%N then "\n" else
  if (n =? 12)%N then "\f" else
  if (n =? 13)%N then "\r" else
  if (n <? 32)%N then
    "\u00" +:+ String (hex_digit (n / 16)) (String (hex_digit (n mod 16)) "")
  else String c "".

Fixpoint escape (s : string) : string :=
  match s with
  | EmptyString => ""
  | String c rest => escape_char c +:+ escape rest
  end.

Definition quote (s : string) : string :=
  String dquote (escape s +:+ String dquote "").

Fixpoint stringify (v : json) : string :=
  match v with
  | JNull => "null"
  | JBool true => "true"
  | JBool false => "false"
  | JNum z => pretty z
  | JStr s => quote s
  | JArr items =>
      "[" +:+
      (fix elems (l : list json) : string :=
         match l with
         | [] => "]"
         | x :: rest =>
             stringify x +:+
             match rest with
             | [] => "]"
             | _ :: _ => "," +:+ elems rest
             end
         end) items
  | JObj props =>
      "{" +:+
      (fix members (l : list (string * json)) : string :=
         match l with
         | [] => "}"
         | (k, x) :: rest =>
             quote k +:+ ":" +:+ stringify x +:+
             match rest with
             | [] => "}"
             | _ :: _ => "," +:+ members rest
             end
         end) props
  end.

(** The text after the opening bracket of a non-empty array, and after the
    opening brace of a non-empty object: the local loops of [stringify] by
    name. *)
Fixpoint elems_text (l : list json) : string :=
  match l with
  | [] => "]"
  | x :: rest =>
      stringify x +:+
      match rest with
      | [] => "]"
      | _ :: _ => "," +:+ elems_text rest
      end
  end.

Fixpoint members_text (l : list (string * json)) : string :=
  match l with
  | [] => "}"
  | (k, x) :: rest =>
      quote k +:+ ":" +:+ stringify x +:+
      match rest with
      | [] => "}"
      | _ :: _ => "," +:+ members_text rest
      end
  end.

(** Fuel that suffices to parse the text of a value back. *)
Fixpoint weight (v : json) : nat :=
  match v with
  | JArr items =>
      S ((fix sum (l : list json) : nat :=
            match l with
            | [] => O
            | x :: rest => S (weight x + sum rest)
            end) items)
  | JObj props =>
      S ((fix sum (l : list (string * json)) : nat :=
            match l with
            | [] => O
            | (_, x) :: rest => S (weight x + sum rest)
            end) props)
  | _ => 1%nat
  end.

Fixpoint weight_elems (l : list json) : nat :=
  match l with
  | [] => O
  | x :: rest => S (weight x + weight_elems rest)
  end.

Fixpoint weight_members (l : list (string * json)) : nat :=
  match l with
  | [] => O
  | (_, x) :: rest => S (weight x + weight_members rest)
  end.

(** *** Parsing *)

Definition is_ws (c : ascii) : bool :=
  let n := N_of_ascii c in
  ((n =? 32) || (n =? 9) || (n =? 10) || (n =? 13))%N.

Fixpoint skip_ws (s : string) : string :=
  match s with
  | String c rest => if is_ws c then skip_ws rest else s
  | EmptyString => s
  end.

Fixpoint strip_prefix (p s : string) : option string :=
  match p with
  | EmptyString => Some s
  | String a p' =>
      match s with
      | String b s' => if Ascii.eqb a b then strip_prefix p' s' else None
      | EmptyString => None
      end
  end.

Definition hex_value (c : ascii) : option N :=
  let n := N_of_ascii c in
  if ((48 <=? n) && (n <=? 57))%N then Some (n - 48)%N
  else if ((97 <=? n) && (n <=? 102))%N then Some (n - 87)%N
  else if ((65 <=? n) && (n <=? 70))%N then Some (n - 55)%N
  else None.

(** The character a short escape [\c] stands for. *)
Definition simple_escape (c : ascii) : option ascii :=
  let n := N_of_ascii c in
  if ((n =? 34) || (n =? 92) || (n =? 47))%N then Some c
  else if (n =? 98)%N then Some (ascii_of_N 8)
  else if (n =? 116)%N then Some (ascii_of_N 9)
  else if (n =? 110)%N then Some (ascii_of_N 10)
  else if (n =? 102)%N then Some (ascii_of_N 12)
  else if (n =? 114)%N then Some (ascii_of_N 13)
  else None.

Inductive lex_state : Type :=
| Plain
| Escaped
| Unicode (todo : nat) (acc : N).

Definition push (c : ascii) (r : option (string * string)) :
  option (string * string) :=
  match r with
  | Some (t, out) => Some (String c t, out)
  | None => None
  end.

(** The inside of a string literal, up to and including the closing quote;
    returns the decoded characters and the text after the quote.  Code
    points above 255 have no [ascii] and are refused. *)
Fixpoint parse_chars (st : lex_state) (s : string) : option (string * string) :=
  match s with
  | EmptyString => None
  | String c rest =>
      let n := N_of_ascii c in
      match st with
      | Plain =>
          if (n =? 34)%N then Some (EmptyString, rest)
          else if (n =? 92)%N then parse_chars Escaped rest
          else if (n <? 32)%N then None
          else push c (parse_chars Plain rest)
      | Escaped =>
          if (n =? 117)%N then parse_chars (Unicode 4 0) rest
          else match simple_escape c with
               | Some x => push x (parse_chars Plain rest)
               | None => None
               end
      | Unicode todo acc =>
          match hex_value c with
          | None => None
          | Some h =>
              let acc' := (16 * acc + h)%N in
              match todo with
              | O => None
              | S O =>
                  if (acc' <? 256)%N
                  then push (ascii_of_N acc') (parse_chars Plain rest)
                  else None
              | S todo' => parse_chars (Unicode todo' acc') rest
              end
          end
      end
  end.

Definition digit_value (c : ascii) : option Z :=
  let n := N_of_ascii c in
  if ((48 <=? n) && (n <=? 57))%N then Some (Z.of_N n - 48) else None.

Fixpoint parse_digits (acc : Z) (s : string) : Z * string :=
  match s with
  | String c rest =>
      match digit_value c with
      | Some d => parse_digits (10 * acc + d) rest
      | None => (acc, s)
      end
  | EmptyString => (acc, s)
  end.

Definition head_is (p : ascii -> bool) (s : string) : bool :=
  match s with
  | String c _ => p c
  | EmptyString => false
  end.

Definition is_digit (c : ascii) : bool :=
  match digit_value c with Some _ => true | None => false end.

(** After the digits of an integer: a fraction or an exponent would follow
    with one of these. *)
Definition is_frac_or_exp (c : ascii) : bool :=
  let n := N_of_ascii c in ((n =? 46) || (n =? 101) || (n =? 69))%N.

(** What may follow a value without changing how it is read. *)
Definition follow_ok (s : string) : Prop :=
  head_is is_digit s = false /\ head_is is_frac_or_exp s = false.

(** Integer literals only; a leading zero is refused as JSON refuses it. *)
Definition parse_unsigned (s : string) : option (Z * string) :=
  match s with
  | String c rest =>
      match digit_value c with
      | None => None
      | Some d =>
          if (d =? 0)%Z && head_is is_digit rest then None
          else
            let '(z, out) := parse_digits 0 s in
            if head_is is_frac_or_exp out then None else Some (z, out)
      end
  | EmptyString => None
  end.

Definition parse_number (s : string) : option (Z * string) :=
  match s with
  | String c rest =>
      if (N_of_ascii c =? 45)%N then
        match parse_unsigned rest with
        | Some (z, out) => Some (- z, out)
        | None => None
        end
      else parse_unsigned s
  | EmptyString => None
  end.

Definition literal (lit : string) (v : json) (s : string) :
  option (json * string) :=
  match strip_prefix lit s with
  | Some out => Some (v, out)
  | None => None
  end.

(** Recursive descent, the three productions by mutual recursion on a fuel
    that bounds the number of nested calls. *)
Fixpoint parse_value (fuel : nat) (s : string) : option (json * string) :=
  match fuel with
  | O => None
  | S fuel' =>
      match skip_ws s with
      | EmptyString => None
      | String c rest as s0 =>
          let n := N_of_ascii c in
          if (n =? 110)%N then literal "null" JNull s0
          else if (n =? 116)%N then literal "true" (JBool true) s0
          else if (n =? 102)%N then literal "false" (JBool false) s0
          else if (n =? 34)%N then
            match parse_chars Plain rest with
            | Some (str, out) => Some (JStr str, out)
            | None => None
            end
          else if (n =? 91)%N then
            match skip_ws rest with
            | EmptyString => None
            | String x out0 =>
                if (N_of_ascii x =? 93)%N then Some (JArr [], out0)
                else match parse_elems fuel' rest with
                     | Some (l, out) => Some (JArr l, out)
                     | None => None
                     end
            end
          else if (n =? 123)%N then
            match skip_ws rest with
            | EmptyString => None
            | String x out0 =>
                if (N_of_ascii x =? 125)%N then Some (JObj [], out0)
                else match parse_members fuel' rest with
                     | Some (l, out) => Some (JObj l, out)
                     | None => None
                     end
            end
          else
            match parse_number s0 with
            | Some (z, out) => Some (JNum z, out)
            | None => None
            end
      end
  end
with parse_elems (fuel : nat) (s : string) : option (list json * string) :=
  match fuel with
  | O => None
  | S fuel' =>
      match parse_value fuel' s with
      | None => None
      | Some (v, r) =>
          match skip_ws r with
          | EmptyString => None
          | String c r' =>
              if (N_of_ascii c =? 44)%N then
                match parse_elems fuel' r' with
                | Some (l, out) => Some (v :: l, out)
                | None => None
                end
              else if (N_of_ascii c =? 93)%N then Some ([v], r')
              else None
          end
      end
  end
with parse_members (fuel : nat) (s : string) :
  option (list (string * json) * string) :=
  match fuel with
  | O => None
  | S fuel' =>
      match skip_ws s with
      | EmptyString => None
      | String q r0 =>
          if negb (N_of_ascii q =? 34)%N then None else
          match parse_chars Plain r0 with
          | None => None
          | Some (k, r1) =>
              match skip_ws r1 with
              | EmptyString => None
              | String colon r2 =>
                  if negb (N_of_ascii colon =? 58)%N then None else
                  match parse_value fuel' r2 with
                  | None => None
                  | Some (v, r3) =>
                      match skip_ws r3 with
                      | EmptyString => None
                      | String c r4 =>
                          if (N_of_ascii c =? 44)%N then
                            match parse_members fuel' r4 with
                            | Some (l, out) => Some ((k, v) :: l, out)
                            | None => None
                            end
                          else if (N_of_ascii c =? 125)%N then Some ([(k, v)], r4)
                          else None
                      end
                  end
              end
          end
      end
  end.

(** [JSON.parse]: one value, nothing but white space after it.  [None] is
    the [SyntaxError]. *)
Definition parse (s : string) : option json :=
  match parse_value (S (String.length s)) s with
  | Some (v, out) =>
      match skip_ws out with
      | EmptyString => Some v
      | String _ _ => None
      end
  | None => None
  end.

(** The text of [v] followed by [rest] parses to [v], leaving [rest]. *)
Definition reads_back (v : json) : Prop :=
  forall n rest,
    follow_ok rest -> (weight v <= n)%nat ->
    parse_value n (stringify v +:+ rest) = Some (v, rest).

End JSON.

(** ** The SQLite relations and the prepared statements

    [users], [workspaces] and [workspace_members] of the [CREATE TABLE]
    script, each keyed by its primary key.  ([sessions] is created but no
    handler reads or writes it.) *)

Module Sqlite.

Record users_row : Type := {
  email : string;
  password_hash : string;
  user_created_at : string
}.

Record workspaces_row : Type := {
  name : string;
  owner_id : Z;
  diagram_json : string;
  created_at : string;
  updated_at : string
}.

Record database : Type := {
  users : gmap Z users_row;
  users_seq : Z;                       (* AUTOINCREMENT counter *)
  workspaces : gmap string workspaces_row;
  workspaces_null : list workspaces_row;   (* rows whose [id] is NULL *)
  workspace_members : gmap (Z * string) string   (* (user_id, workspace_id) -> role *)
}.

Definition empty_db : database :=
  {| users := ∅; users_seq := 0; workspaces := ∅; workspaces_null := [];
     workspace_members := ∅ |}.

(** An exception, rendered the way [String(e)] prints it. *)
Definition error : Type := string.

Definition unique_failed (cols : string) : error :=
  "SqliteError: UNIQUE constraint failed: " +:+ cols.
Definition not_null_failed (col : string) : error :=
  "SqliteError: NOT NULL constraint failed: " +:+ col.
Definition foreign_key_failed : error :=
  "SqliteError: FOREIGN KEY constraint failed".
Definition bind_failed : error :=
  "TypeError: SQLite3 can only bind numbers, strings, bigints, buffers, and null".
Definition too_many : error :=
  "RangeError: Too many parameter values were provided".
Definition too_few : error :=
  "RangeError: Too few parameter values were provided".
Definition two_objects : error :=
  "TypeError: You cannot specify named parameters in two different objects".

(** *** Binding the arguments of [run], [get] and [all]

    A value as [better-sqlite3] hands it to SQLite: [null] as NULL, a
    string as TEXT and a number, whatever its value, as a REAL. *)
Inductive bound : Type :=
| BNull
| BReal (z : Z)
| BText (s : string).

(** The values the driver binds; a boolean, and an array or object inside
    an array, are refused. *)
Definition scalar (v : json) : option bound :=
  match v with
  | JNull => Some BNull
  | JNum z => Some (BReal z)
  | JStr s => Some (BText s)
  | JBool _ | JArr _ | JObj _ => None
  end.

(** One value for the next anonymous parameter of a statement that has [n]
    of them; [acc] holds the values bound so far.  The type is checked
    before the index. *)
Definition bind_value (n : nat) (acc : list bound) (v : json) :
  error + list bound :=
  match scalar v with
  | None => inl bind_failed
  | Some b => if (length acc <? n)%nat then inr (acc ++ [b])%list else inl too_many
  end.

(** An array argument is spread: each element takes the next parameter. *)
Fixpoint bind_items (n : nat) (acc : list bound) (items : list json) :
  error + list bound :=
  match items with
  | [] => inr acc
  | v :: rest =>
      match bind_value n acc v with
      | inl err => inl err
      | inr acc' => bind_items n acc' rest
      end
  end.

(** The arguments in turn.  A plain object is read for named parameters, of
    which the statements of this program have none, so it supplies no
    value; a second one is refused.  At the end every parameter must have
    its value. *)
Fixpoint bind_args (n : nat) (named : bool) (acc : list bound) (args : list json) :
  error + list bound :=
  match args with
  | [] => if (length acc <? n)%nat then inl too_few else inr acc
  | JArr items :: rest =>
      match bind_items n acc items with
      | inl err => inl err
      | inr acc' => bind_args n named acc' rest
      end
  | JObj _ :: rest =>
      if named then inl two_objects else bind_args n true acc rest
  | v :: rest =>
      match bind_value n acc v with
      | inl err => inl err
      | inr acc' => bind_args n named acc' rest
      end
  end.

(** [stmt.run(...args)] up to the execution of the statement: the values of
    its [n] parameters, in order. *)
Definition bind (n : nat) (args : list json) : error + list bound :=
  bind_args n false [] args.

(** The values one argument supplies when the driver accepts it: its
    elements for an array, none for an object, itself otherwise. *)
Definition supplied (v : json) : option (list bound) :=
  match v with
  | JArr items => mapM scalar items
  | JObj _ => Some []
  | x => (fun b => [b]) <$> scalar x
  end.

(** *** Column affinity

    The text SQLite makes of a REAL that a TEXT column or a comparison with
    one receives: for an integral value its digits followed by [.0] (the
    model's numbers are integral; magnitudes from [10^15] on, which SQLite
    prints with an exponent, are outside it). *)
Definition real_text (z : Z) : string := pretty z +:+ ".0".

(** What a TEXT column stores for a bound value; [None] is NULL. *)
Definition as_text (b : bound) : option string :=
  match b with
  | BNull => None
  | BReal z => Some (real_text z)
  | BText s => Some s
  end.

(** [COALESCE(?, col)] assigned to a TEXT column *)
Definition coalesce (p : bound) (col : string) : string :=
  match as_text p with
  | Some s => s
  | None => col
  end.

(** [SELECT * FROM users WHERE email = ?], for a parameter that is not
    NULL *)
Definition select_user_by_email (d : database) (e : string) :
  option (Z * users_row) :=
  snd <$> list_find (fun r => email r.2 = e) (map_to_list (users d)).

(** [SELECT id, email FROM users WHERE id = ?] *)
Definition select_user_by_id (d : database) (uid : Z) : option users_row :=
  users d !! uid.

(** [INSERT INTO users (email, password_hash) VALUES (?, ?)]; yields
    [lastInsertRowid].  [email] is [TEXT UNIQUE NOT NULL]. *)
Definition insert_user (em : bound) (hash now : string) (d : database) :
  error + (database * Z) :=
  match as_text em with
  | None => inl (not_null_failed "users.email")
  | Some e =>
      match select_user_by_email d e with
      | Some _ => inl (unique_failed "users.email")
      | None =>
          let uid := users_seq d + 1 in
          inr ({| users := <[uid := {| email := e; password_hash := hash;
                                        user_created_at := now |}]> (users d);
                  users_seq := uid;
                  workspaces := workspaces d;
                  workspaces_null := workspaces_null d;
                  workspace_members := workspace_members d |}, uid)
      end
  end.

(** [INSERT INTO workspaces (id, name, owner_id, diagram_json)
     VALUES (?, ?, ?, ?)]; both timestamps default to [datetime('now')].
    [name] is [NOT NULL]; [id] is [TEXT PRIMARY KEY] without [NOT NULL], so
    SQLite accepts a NULL there, any number of times. *)
Definition insert_workspace (wid nm : bound) (owner : Z) (diagram now : string)
  (d : database) : error + database :=
  match as_text nm with
  | None => inl (not_null_failed "workspaces.name")
  | Some nm' =>
      let row := {| name := nm'; owner_id := owner; diagram_json := diagram;
                    created_at := now; updated_at := now |} in
      match as_text wid with
      | None =>
          match users d !! owner with
          | None => inl foreign_key_failed
          | Some _ =>
              inr {| users := users d;
                     users_seq := users_seq d;
                     workspaces := workspaces d;
                     workspaces_null := row :: workspaces_null d;
                     workspace_members := workspace_members d |}
          end
      | Some wid' =>
          match workspaces d !! wid' with
          | Some _ => inl (unique_failed "workspaces.id")
          | None =>
              match users d !! owner with
              | None => inl foreign_key_failed
              | Some _ =>
                  inr {| users := users d;
                         users_seq := users_seq d;
                         workspaces := <[wid' := row]> (workspaces d);
                         workspaces_null := workspaces_null d;
                         workspace_members := workspace_members d |}
              end
          end
      end
  end.

(** [INSERT INTO workspace_members (user_id, workspace_id, role)
     VALUES (?, ?, ?)]; [workspace_id] is [TEXT NOT NULL]. *)
Definition insert_member (uid : Z) (wid : bound) (role : string) (d : database) :
  error + database :=
  match as_text wid with
  | None => inl (not_null_failed "workspace_members.workspace_id")
  | Some wid' =>
      match workspace_members d !! (uid, wid') with
      | Some _ =>
          inl (unique_failed
                 "workspace_members.user_id, workspace_members.workspace_id")
      | None =>
          match users d !! uid, workspaces d !! wid' with
          | Some _, Some _ =>
              inr {| users := users d;
                     users_seq := users_seq d;
                     workspaces := workspaces d;
                     workspaces_null := workspaces_null d;
                     workspace_members :=
                       <[(uid, wid') := role]> (workspace_members d) |}
          | _, _ => inl foreign_key_failed
          end
      end
  end.

(** [... FROM workspaces w JOIN workspace_members m ON m.workspace_id = w.id
     WHERE w.id = ? AND m.user_id = ?]; a row whose [id] is NULL joins with
    no membership. *)
Definition select_workspace_of_member (d : database) (wid : string) (uid : Z) :
  option workspaces_row :=
  match workspaces d !! wid, workspace_members d !! (uid, wid) with
  | Some w, Some _ => Some w
  | _, _ => None
  end.

(** [ORDER BY w.updated_at DESC]: text columns compare byte by byte. *)
Definition newer_first (a b : string * workspaces_row) : Prop :=
  (updated_at b.2 ≤ updated_at a.2)%string.

#[export] Instance newer_first_dec : RelDecision newer_first.
Proof. intros a b. unfold newer_first. apply _. Defined.

(** [SELECT w.id, w.name, w.updated_at FROM workspaces w
     JOIN workspace_members m ON m.workspace_id = w.id
     WHERE m.user_id = ? ORDER BY w.updated_at DESC] *)
Definition select_workspaces_of (d : database) (uid : Z) :
  list (string * workspaces_row) :=
  merge_sort newer_first
    (filter (fun r => is_Some (workspace_members d !! (uid, r.1)))
            (map_to_list (workspaces d))).

(** [UPDATE workspaces SET name = COALESCE(?, name),
     diagram_json = COALESCE(?, diagram_json), updated_at = ? WHERE id = ?];
    [id = ?] holds of no row whose [id] is NULL. *)
Definition update_workspace (nm diagram : bound) (now wid : string)
  (d : database) : database :=
  match workspaces d !! wid with
  | None => d
  | Some w =>
      {| users := users d;
         users_seq := users_seq d;
         workspaces :=
           <[wid := {| name := coalesce nm (name w);
                       owner_id := owner_id w;
                       diagram_json := coalesce diagram (diagram_json w);
                       created_at := created_at w;
                       updated_at := now |}]> (workspaces d);
         workspaces_null := workspaces_null d;
         workspace_members := workspace_members d |}
  end.

End Sqlite.
Import Sqlite.

(** ** The server: Express handlers and Socket.IO listeners *)

Module Server.

(** A connection, named by its [socket.id]. *)
Definition socket : Type := string.

(** What one request reads from outside the program: the wall clock
    ([new Date().toISOString()]), SQLite's [datetime('now')], whether the
    [k]-th statement the handler executes is hit by a storage failure
    (and with which exception), and the salt bcrypt draws. *)
Record env : Type := {
  now_iso : string;
  sql_datetime : string;
  fault : nat -> option error;
  salt : string
}.

(** Executing the [k]-th statement of a handler. *)
Definition run {A} (e : env) (k : nat) (stmt : error + A) : error + A :=
  match fault e k with
  | Some err => inl err
  | None => stmt
  end.

Record server : Type := {
  db : database;
  rooms : gmap string (gset socket)
}.

(** [req.session.userId], [req.body], [req.params.id]. *)
Record request : Type := {
  session_userId : option Z;
  body : option json;
  params_id : string
}.

(** Either the handler answered with [res.status(s).json(payload)], or an
    exception left it (Express's error handler then answers 500). *)
Inductive outcome : Type :=
| Responded (status : Z) (payload : json)
| Threw (err : error).

Record delivery : Type := {
  dest : socket;
  event : string;
  data : json
}.

Record reply : Type := {
  state : server;
  cookie : option Z;               (* [req.session.userId] afterwards *)
  response : outcome;
  emitted : list delivery
}.

(** An object literal; a property whose value is [undefined] is not
    serialised. *)
Fixpoint object (fields : list (string * option json)) : list (string * json) :=
  match fields with
  | [] => []
  | (k, Some v) :: rest => (k, v) :: object rest
  | (_, None) :: rest => object rest
  end.

Definition error_body (msg : string) : json := JObj [("error", JStr msg)].

Definition respond (st : server) (req : request) (status : Z) (payload : json) :
  reply :=
  {| state := st; cookie := session_userId req;
     response := Responded status payload; emitted := [] |}.

Definition throw (st : server) (req : request) (err : error) : reply :=
  {| state := st; cookie := session_userId req;
     response := Threw err; emitted := [] |}.

Definition with_db (st : server) (d : database) : server :=
  {| db := d; rooms := rooms st |}.

(** [req.session && req.session.userId] *)
Definition requireAuth (req : request) : bool :=
  match session_userId req with
  | Some uid => negb (uid =? 0)%Z
  | None => false
  end.

Definition unauthorized (st : server) (req : request) : reply :=
  respond st req 401 (error_body "Unauthorized").

Definition session_uid (req : request) : Z := default 0 (session_userId req).

(** *** Rooms *)

Definition room_of (id : string) : string := "ws:" +:+ id.

Definition members_of (rs : gmap string (gset socket)) (room : string) :
  gset socket :=
  default ∅ (rs !! room).

(** [io.to(room).emit(ev, payload)] *)
Definition io_to_emit (rs : gmap string (gset socket)) (room ev : string)
  (payload : json) : list delivery :=
  (fun s => {| dest := s; event := ev; data := payload |})
    <$> elements (members_of rs room).

(** [socket.to(room).emit(ev, payload)] *)
Definition socket_to_emit (rs : gmap string (gset socket)) (sender : socket)
  (room ev : string) (payload : json) : list delivery :=
  (fun s => {| dest := s; event := ev; data := payload |})
    <$> elements (members_of rs room ∖ {[sender]}).

(** *** Statements

    A statement that receives a value of the request body runs on the
    values [bind] yields for its parameters.  [bind n] yields [n] values, and
    an argument that is a string or a number is its own value at its own
    place (lemmas [bind_inr], [bind_with_hash], [bind_one], [bind_workspace],
    [bind_member] and [bind_update] below), so the last branch of each
    [match] on these values is never taken.  The other statements receive
    [req.params.id], a string, and the session's user id, a number, and are
    applied to them as they are. *)

(** *** Auth routes *)

Section Auth.

(** [bcrypt.hashSync(password, 10)] with the salt it drew, and
    [bcrypt.compareSync(password, hash)], on strings.  Given anything but a
    string, bcryptjs throws [Illegal arguments]. *)
Variable hashSync : string -> string -> string.
Variable compareSync : string -> string -> bool.

Definition illegal_arguments : error := "Error: Illegal arguments".

(** [app.post('/api/auth/signup', ...)] *)
Definition post_api_auth_signup (e : env) (st : server) (req : request) : reply :=
  let b := body_or_empty (body req) in
  let email := prop "email" b in
  let password := prop "password" b in
  if negb (truthy email) || negb (truthy password) then
    respond st req 400 (error_body "Email and password required")
  else
    match password with
    | Some (JStr pw) =>
        let password_hash := hashSync pw (salt e) in
        let inserted :=
          match bind 2 [nullish_or email JNull; JStr password_hash] with
          | inl err => inl err
          | inr [em; BText hash] =>
              run e 0 (insert_user em hash (sql_datetime e) (db st))
          | inr _ => inl too_few
          end in
        match inserted with
        | inr (d, uid) =>
            {| state := with_db st d; cookie := Some uid;
               response :=
                 Responded 200 (JObj (object [("id", Some (JNum uid)); ("email", email)]));
               emitted := [] |}
        | inl err =>
            if includes "UNIQUE" err
            then respond st req 409 (error_body "Email already exists")
            else respond st req 500 (error_body "Failed to sign up")
        end
    | _ => throw st req illegal_arguments
    end.

(** [app.post('/api/auth/login', ...)] *)
Definition post_api_auth_login (e : env) (st : server) (req : request) : reply :=
  let b := body_or_empty (body req) in
  let email := prop "email" b in
  let password := prop "password" b in
  if negb (truthy email) || negb (truthy password) then
    respond st req 400 (error_body "Email and password required")
  else
    let selected :=
      match bind 1 [nullish_or email JNull] with
      | inl err => inl err
      | inr [em] => run e 0 (inr (as_text em ≫= select_user_by_email (db st)))
      | inr _ => inl too_few
      end in
    match selected with
    | inl err => throw st req err
    | inr None => respond st req 401 (error_body "Invalid credentials")
    | inr (Some (uid, user)) =>
        match password with
        | Some (JStr pw) =>
            if negb (compareSync pw (password_hash user))
            then respond st req 401 (error_body "Invalid credentials")
            else
              {| state := st; cookie := Some uid;
                 response :=
                   Responded 200
                     (JObj [("id", JNum uid); ("email", JStr (Sqlite.email user))]);
                 emitted := [] |}
        | _ => throw st req illegal_arguments
        end
    end.

End Auth.

(** [app.post('/api/auth/logout', ...)] *)
Definition post_api_auth_logout (st : server) (req : request) : reply :=
  {| state := st; cookie := None;
     response := Responded 200 (JObj [("ok", JBool true)]); emitted := [] |}.

(** [app.get('/api/session', ...)] *)
Definition get_api_session (e : env) (st : server) (req : request) : reply :=
  if requireAuth req then
    match run e 0 (inr (select_user_by_id (db st) (session_uid req))) with
    | inl err => throw st req err
    | inr user =>
        let row :=
          (fun u => JObj [("id", JNum (session_uid req)); ("email", JStr (Sqlite.email u))])
            <$> user in
        respond st req 200 (JObj (object [("user", row)]))
    end
  else respond st req 200 (JObj [("user", JNull)]).

(** *** Workspace routes *)

Definition workspace_summary (r : string * workspaces_row) : json :=
  JObj [("id", JStr r.1); ("name", JStr (name r.2));
        ("updated_at", JStr (updated_at r.2))].

(** [app.get('/api/workspaces', requireAuth, ...)] *)
Definition get_api_workspaces (e : env) (st : server) (req : request) : reply :=
  if negb (requireAuth req) then unauthorized st req else
  match run e 0 (inr (select_workspaces_of (db st) (session_uid req))) with
  | inl err => throw st req err
  | inr rows => respond st req 200 (JArr (workspace_summary <$> rows))
  end.

(** [app.post('/api/workspaces', requireAuth, ...)] *)
Definition post_api_workspaces (e : env) (st : server) (req : request) : reply :=
  if negb (requireAuth req) then unauthorized st req else
  let b := body_or_empty (body req) in
  let id := prop "id" b in
  let nm := prop "name" b in
  let diagram := prop "diagram" b in
  if negb (truthy id) || negb (truthy nm) then
    respond st req 400 (error_body "id and name required")
  else
    let failed (st' : server) (err : error) : reply :=
      if includes "UNIQUE" err
      then respond st' req 409 (error_body "Workspace already exists")
      else respond st' req 500 (error_body "Failed to create workspace") in
    let first :=
      match
        bind 4 [nullish_or id JNull; nullish_or nm JNull; JNum (session_uid req);
                JStr (JSON.stringify (nullish_or diagram (JObj [])))]
      with
      | inl err => inl err
      | inr [wid; wname; BReal owner; BText doc] =>
          run e 0 (insert_workspace wid wname owner doc (sql_datetime e) (db st))
      | inr _ => inl too_few
      end in
    match first with
    | inl err => failed st err
    | inr d1 =>
        let second :=
          match bind 3 [JNum (session_uid req); nullish_or id JNull; JStr "owner"] with
          | inl err => inl err
          | inr [BReal user; wid; BText role] =>
              run e 1 (insert_member user wid role d1)
          | inr _ => inl too_few
          end in
        match second with
        | inl err => failed (with_db st d1) err
        | inr d2 =>
            respond (with_db st d2) req 200 (JObj (object [("id", id); ("name", nm)]))
        end
    end.

(** [app.get('/api/workspaces/:id', requireAuth, ...)] *)
Definition get_api_workspaces_id (e : env) (st : server) (req : request) : reply :=
  if negb (requireAuth req) then unauthorized st req else
  match
    run e 0
      (inr (select_workspace_of_member (db st) (params_id req) (session_uid req)))
  with
  | inl err => throw st req err
  | inr None => respond st req 404 (error_body "Not found")
  | inr (Some w) =>
      match JSON.parse (diagram_json w) with
      | None => throw st req "SyntaxError: Unexpected token in JSON"
      | Some diagram =>
          respond st req 200
            (JObj [("id", JStr (params_id req)); ("name", JStr (name w));
                   ("diagram", diagram); ("updatedAt", JStr (updated_at w))])
      end
  end.

(** The payload of the persisted-update event. *)
Definition update_event (id : string) (nm diagram : option json) (now : string) :
  json :=
  JObj (object [("id", Some (JStr id)); ("name", nm); ("diagram", diagram);
                ("updatedAt", Some (JStr now))]).

(** [app.put('/api/workspaces/:id', requireAuth, ...)] *)
Definition put_api_workspaces_id (e : env) (st : server) (req : request) : reply :=
  if negb (requireAuth req) then unauthorized st req else
  let b := body_or_empty (body req) in
  let nm := prop "name" b in
  let diagram := prop "diagram" b in
  match
    run e 0
      (inr (select_workspace_of_member (db st) (params_id req) (session_uid req)))
  with
  | inl err => throw st req err
  | inr None => respond st req 404 (error_body "Not found")
  | inr (Some _) =>
      let now := now_iso e in
      let updated :=
        match
          bind 4 [nullish_or nm JNull;
                  if truthy diagram
                  then JStr (JSON.stringify (nullish_or diagram JNull))
                  else JNull;
                  JStr now; JStr (params_id req)]
        with
        | inl err => inl err
        | inr [bname; bdoc; BText stamp; BText wid] =>
            run e 1 (inr (update_workspace bname bdoc stamp wid (db st)))
        | inr _ => inl too_few
        end in
      match updated with
      | inl err => throw st req err
      | inr d =>
          {| state := with_db st d; cookie := session_userId req;
             response :=
               Responded 200 (JObj [("ok", JBool true); ("updatedAt", JStr now)]);
             emitted :=
               io_to_emit (rooms st) (room_of (params_id req)) "workspace:update"
                 (update_event (params_id req) nm diagram now) |}
      end
  end.

(** *** Socket.IO listeners *)

(** [socket.on('workspace:join', (workspaceId) => ...)] *)
Definition on_workspace_join (st : server) (s : socket) (workspaceId : option json) :
  server :=
  let room := room_of (template workspaceId) in
  {| db := db st;
     rooms := <[room := {[s]} ∪ members_of (rooms st) room]> (rooms st) |}.

(** [socket.on('workspace:leave', (workspaceId) => ...)] *)
Definition on_workspace_leave (st : server) (s : socket) (workspaceId : option json) :
  server :=
  let room := room_of (template workspaceId) in
  {| db := db st;
     rooms := <[room := members_of (rooms st) room ∖ {[s]}]> (rooms st) |}.

(** [socket.on('workspace:update', ({ id, patch }) => ...)]; destructuring
    [undefined] or [null] throws, written [None]. *)
Definition on_workspace_update (st : server) (s : socket) (arg : option json) :
  option (server * list delivery) :=
  match arg with
  | None | Some JNull => None
  | Some a =>
      let id := prop "id" a in
      let patch := prop "patch" a in
      Some (st,
            socket_to_emit (rooms st) s (room_of (template id)) "workspace:patch"
              (JObj (object [("id", id); ("patch", patch)])))
  end.

End Server.
Import Server.

(** ** Runs of the server and the integrity SQLite maintains *)

Module Run.

(** The foreign keys of the schema (enforced by the engine), and every
    stored [diagram_json] being JSON text (every write goes through
    [JSON.stringify]). *)
Definition member_ok (d : database) (r : Z * string * string) : bool :=
  bool_decide (is_Some (users d !! r.1.1)) &&
  bool_decide (is_Some (workspaces d !! r.1.2)).

Definition workspace_ok (d : database) (r : string * workspaces_row) : bool :=
  bool_decide (is_Some (users d !! owner_id r.2)) &&
  bool_decide (is_Some (JSON.parse (diagram_json r.2))).

Definition db_consistent (d : database) : bool :=
  forallb (member_ok d) (map_to_list (workspace_members d)) &&
  forallb (workspace_ok d) (map_to_list (workspaces d)) &&
  forallb (fun w => workspace_ok d (EmptyString, w)) (workspaces_null d).

(** The [id] of the body is neither an array nor an object: both [INSERT]s
    of a create then take it as one value for their [id] parameter, or both
    refuse it. *)
Definition plain_id (req : request) : bool :=
  match prop "id" (body_or_empty (body req)) with
  | Some (JArr _) | Some (JObj _) => false
  | _ => true
  end.

(** No storage failure strikes during the request. *)
Definition calm (e : env) : Prop := forall k, fault e k = None.

Inductive route : Type :=
| AuthSignup
| AuthLogin
| AuthLogout
| SessionGet
| WorkspacesList
| WorkspacesCreate
| WorkspaceGet
| WorkspacePut.

Inductive action : Type :=
| Http (r : route) (req : request)
| Join (s : socket) (workspaceId : option json)
| Leave (s : socket) (workspaceId : option json)
| Relay (s : socket) (arg : option json).

Section Steps.

Variable hashSync : string -> string -> string.
Variable compareSync : string -> string -> bool.

Definition handle (e : env) (st : server) (r : route) (req : request) : reply :=
  match r with
  | AuthSignup => post_api_auth_signup hashSync e st req
  | AuthLogin => post_api_auth_login compareSync e st req
  | AuthLogout => post_api_auth_logout st req
  | SessionGet => get_api_session e st req
  | WorkspacesList => get_api_workspaces e st req
  | WorkspacesCreate => post_api_workspaces e st req
  | WorkspaceGet => get_api_workspaces_id e st req
  | WorkspacePut => put_api_workspaces_id e st req
  end.

Definition step (e : env) (st : server) (a : action) : server :=
  match a with
  | Http r req => state (handle e st r req)
  | Join s w => on_workspace_join st s w
  | Leave s w => on_workspace_leave st s w
  | Relay s arg =>
      match on_workspace_update st s arg with
      | Some (st', _) => st'
      | None => st
      end
  end.

Fixpoint exec (st : server) (trace : list (env * action)) : server :=
  match trace with
  | [] => st
  | (e, a) :: rest => exec (step e st a) rest
  end.

End Steps.

(** A step that, if it is a create, names its workspace by such an [id]. *)
Definition plain_create (a : action) : bool :=
  match a with
  | Http WorkspacesCreate req => plain_id req
  | _ => true
  end.

(** The clock readings of a run never go back, starting from [t]. *)
Fixpoint clock_ordered (t : string) (trace : list (env * action)) : Prop :=
  match trace with
  | [] => True
  | (e, _) :: rest => (t ≤ now_iso e)%string /\ clock_ordered (now_iso e) rest
  end.

Definition initial : server := {| db := empty_db; rooms := ∅ |}.

(** What [UPDATE] may write into [diagram_json]: nothing, or JSON text. *)
Definition json_bound (b : bound) : Prop :=
  match b with
  | BNull => True
  | BReal _ => False
  | BText s => is_Some (JSON.parse s)
  end.

(** Workspace [wid] still exists, with an [updated_at] between the one of
    [row] and the clock reading [now]. *)
Definition stamped_within (now : string) (wid : string) (row : workspaces_row)
  (d : database) : Prop :=
  exists row',
    workspaces d !! wid = Some row' /\
    (updated_at row ≤ updated_at row')%string /\
    (updated_at row' ≤ now)%string.

(** The deliveries a connection receives. *)
Definition received (s : socket) (ds : list delivery) : list delivery :=
  filter (fun d => dest d = s) ds.

End Run.
Import Run.

(** ** Changes of the database and what they keep *)

Module Store.

(** How one request may change the database when a workspace is never
    written without its membership: not at all, by the [INSERT] of a user,
    by the [INSERT]s of a workspace and of its membership (for the same user
    and [id] value, with role [owner]), or by the [UPDATE]. *)
Inductive db_write (e : env) (uid : Z) (d : database) : database -> Prop :=
| write_none : db_write e uid d d
| write_user em hash d' new_id :
    insert_user em hash (sql_datetime e) d = inr (d', new_id) ->
    db_write e uid d d'
| write_workspace_and_member wid nm v d1 d2 :
    insert_workspace wid nm uid (JSON.stringify v) (sql_datetime e) d = inr d1 ->
    insert_member uid wid "owner" d1 = inr d2 ->
    db_write e uid d d2
| write_update nm diagram wid :
    json_bound diagram ->
    db_write e uid d (update_workspace nm diagram (now_iso e) wid d).

(** ... and in general: also by the [INSERT] of a workspace alone. *)
Inductive db_change (e : env) (uid : Z) (d : database) : database -> Prop :=
| change_write d' : db_write e uid d d' -> db_change e uid d d'
| change_workspace wid nm v d1 :
    insert_workspace wid nm uid (JSON.stringify v) (sql_datetime e) d = inr d1 ->
    db_change e uid d d1.

(** Every membership row belongs to the owner of an existing workspace and
    has role [owner]. *)
Definition owner_only (d : database) : Prop :=
  forall uid wid role,
    workspace_members d !! (uid, wid) = Some role ->
    role = "owner" /\
    exists w, workspaces d !! wid = Some w /\ owner_id w = uid.

(** User ids are the values the [AUTOINCREMENT] counter has taken, and no
    two users share an email. *)
Definition users_fresh (d : database) : Prop :=
  0 <= users_seq d /\
  (forall uid u, users d !! uid = Some u -> 1 <= uid <= users_seq d) /\
  (forall uid1 u1 uid2 u2,
     users d !! uid1 = Some u1 -> users d !! uid2 = Some u2 ->
     email u1 = email u2 -> uid1 = uid2).

(** Every workspace has the membership row of its owner. *)
Definition owner_is_member (d : database) : Prop :=
  forall wid w,
    workspaces d !! wid = Some w ->
    workspace_members d !! (owner_id w, wid) = Some "owner".

(** Nothing of [d] is gone in [d']: users and memberships as they were,
    every workspace still there with its owner and creation time (the rows
    without an [id] unchanged, below those added since). *)
Definition extends (d d' : database) : Prop :=
  users d ⊆ users d' /\
  workspace_members d ⊆ workspace_members d' /\
  workspaces_null d `suffix_of` workspaces_null d' /\
  forall wid w,
    workspaces d !! wid = Some w ->
    exists w', workspaces d' !! wid = Some w' /\
               owner_id w' = owner_id w /\ created_at w' = created_at w.

End Store.
Import Store.

(** ** A small deployment used to run the handlers on concrete requests *)

Module Sample.

Definition alice : users_row :=
  {| email := "a@x.com"; password_hash := "pw#s1";
     user_created_at := "2025-06-01 08:00:00" |}.

Definition bob : users_row :=
  {| email := "b@x.com"; password_hash := "hunter2#s2";
     user_created_at := "2025-06-01 08:30:00" |}.

Definition shop : workspaces_row :=
  {| name := "Shop"; owner_id := 1; diagram_json := "{}";
     created_at := "2025-06-01 09:00:00";
     updated_at := "2025-06-01T12:00:00.000Z" |}.

Definition data : database :=
  {| users := <[1 := alice]> (<[2 := bob]> ∅);
     users_seq := 2;
     workspaces := <["w1" := shop]> ∅;
     workspaces_null := [];
     workspace_members := <[(1, "w1") := "owner"]> ∅ |}.

Definition live : server :=
  {| db := data; rooms := <["ws:w1" := {["sockA"; "sockB"]}]> ∅ |}.

(** A request of user [uid] on [/api/workspaces/:id]. *)
Definition request_of (uid : Z) (id : string) (b : json) : request :=
  {| session_userId := Some uid; body := Some b; params_id := id |}.

Definition anonymous (b : json) : request :=
  {| session_userId := None; body := Some b; params_id := EmptyString |}.

Definition no_fault : nat -> option error := fun _ => None.

Definition noon : env :=
  {| now_iso := "2025-06-02T12:00:00.000Z";
     sql_datetime := "2025-06-02 12:00:00";
     fault := no_fault; salt := "s3" |}.

(** The clock has been set back to the day before [shop] was last written. *)
Definition set_back : env :=
  {| now_iso := "2025-05-31T23:59:59.000Z";
     sql_datetime := "2025-05-31 23:59:59";
     fault := no_fault; salt := "s3" |}.

(** The second statement of the request fails (disk full). *)
Definition second_fails : env :=
  {| now_iso := "2025-06-02T12:00:00.000Z";
     sql_datetime := "2025-06-02 12:00:00";
     fault := fun k => match k with
                       | 1%nat => Some "SqliteError: database or disk is full"
                       | _ => None
                       end;
     salt := "s3" |}.

(** A toy stand-in for bcrypt: the hash is the password followed by the
    salt, and comparing checks the password part. *)
Definition toy_hash (pw s : string) : string := pw +:+ "#" +:+ s.
Definition toy_compare (pw hash : string) : bool :=
  String.prefix (pw +:+ "#") hash.

End Sample.

(** ** A short run of the server *)

Module Story.

Definition credentials (em pw : string) : json :=
  JObj [("email", JStr em); ("password", JStr pw)].

Definition draft : json :=
  JObj [("tables", JArr [JObj [("id", JStr "t1"); ("name", JStr "orders")]])].

(** Two sign-ups, a create by the first user, a connection joining. *)
Definition events : list (env * action) :=
  [ (Sample.noon, Http AuthSignup (Sample.anonymous (credentials "a@x.com" "pw")));
    (Sample.noon, Http AuthSignup (Sample.anonymous (credentials "b@x.com" "hunter2")));
    (Sample.noon,
     Http WorkspacesCreate
       (Sample.request_of 1 EmptyString
          (JObj [("id", JStr "w1"); ("name", JStr "Shop"); ("diagram", draft)])));
    (Sample.noon, Join "sockA" (Some (JStr "w1"))) ].

Definition reached : server :=
  exec Sample.toy_hash Sample.toy_compare initial events.

Definition next_day : env :=
  {| now_iso := "2025-06-03T09:00:00.000Z";
     sql_datetime := "2025-06-03 09:00:00";
     fault := Sample.no_fault; salt := "s4" |}.

(** A rename by the owner, then a full save; the clock moves on. *)
Definition edits : list (env * action) :=
  [ (Sample.noon,
     Http WorkspacePut (Sample.request_of 1 "w1" (JObj [("name", JStr "Store")])));
    (next_day,
     Http WorkspacePut (Sample.request_of 1 "w1" (JObj [("diagram", draft)]))) ].

End Story.

(** ** The browser side: values, the diagram cache and the storage provider

    [storage-provider.tsx] keeps the diagrams of the page in a [Map] and
    writes every change through [api] ([lib/api/server-storage.ts]).  Its
    functions are [async]; each is rendered as a function over the state
    of the page that runs to its end before the next one starts.  What
    [api] answers is a parameter: the provider is modelled against every
    behaviour of the network and the server. *)

Module Browser.

(** A JavaScript value of the page: what [JSON.parse] produces, plus
    [undefined] and [Date] objects ([None]: an invalid date). *)
Inductive value : Type :=
| VUndefined
| VNull
| VBool (b : bool)
| VNum (z : Z)
| VStr (s : string)
| VDate (t : option Z)
| VArr (items : list value)
| VObj (props : list (string * value)).

(** The own properties of an object, in insertion order. *)
Definition object : Type := list (string * value).

Definition truthy (v : value) : bool :=
  match v with
  | VUndefined | VNull => false
  | VBool b => b
  | VNum z => negb (z =? 0)%Z
  | VStr s => negb (String.eqb s "")
  | VDate _ | VArr _ | VObj _ => true
  end.

(** [new Error(message)], a [TypeError] of the engine, the [SyntaxError] of
    [JSON.parse]. *)
Inductive exn : Type :=
| Error (message : string)
| TypeError
| SyntaxError.

(** How an evaluation ends.  [Beyond] marks the places where this model
    does not follow the engine: the indexed characters of a string that is
    spread, a [Map] key that is an object (compared by identity), [===]
    between two objects, and a request for a path outside the routes
    below. *)
Inductive result (A : Type) : Type :=
| Ok (a : A)
| Thrown (e : exn)
| Beyond.
Arguments Ok {A} a.
Arguments Thrown {A} e.
Arguments Beyond {A}.

#[global] Instance exn_eq_dec : EqDecision exn.
Proof. solve_decision. Defined.

#[global] Instance result_eq_dec {A} `{EqDecision A} : EqDecision (result A).
Proof. solve_decision. Defined.

#[global] Instance result_ret : MRet result := fun A a => Ok a.
#[global] Instance result_bind : MBind result := fun A B f r =>
  match r with
  | Ok a => f a
  | Thrown e => Thrown e
  | Beyond => Beyond
  end.

#[global] Instance result_fmap : FMap result := fun A B f r =>
  match r with
  | Ok a => Ok (f a)
  | Thrown e => Thrown e
  | Beyond => Beyond
  end.

(** [o.k] on an object. *)
Fixpoint lookup (k : string) (o : object) : value :=
  match o with
  | [] => VUndefined
  | (k', v) :: rest => if String.eqb k k' then v else lookup k rest
  end.

(** [v.k] for the names the code reads ([id], [name], [diagram], [user],
    [createdAt], [updatedAt], the five collections): [undefined] and [null]
    throw, only objects carry such a property. *)
Definition get_prop (k : string) (v : value) : result value :=
  match v with
  | VUndefined | VNull => Thrown TypeError
  | VObj o => Ok (lookup k o)
  | _ => Ok VUndefined
  end.

(** [v?.k] *)
Definition get_prop_opt (k : string) (v : value) : value :=
  match v with
  | VObj o => lookup k o
  | _ => VUndefined
  end.

(** [o.k = v], and [k: v] after a spread in an object literal: the
    property keeps its place when it exists and is appended otherwise. *)
Fixpoint set_prop (k : string) (v : value) (o : object) : object :=
  match o with
  | [] => [(k, v)]
  | (k', v') :: rest =>
      if String.eqb k k' then (k, v) :: rest else (k', v') :: set_prop k v rest
  end.

(** [{ ...a, ...b }] *)
Definition merge (a b : object) : object :=
  fold_left (fun acc p => set_prop p.1 p.2 acc) b a.

(** [{ ...v }]: the own enumerable properties of [v]. *)
Definition own_props (v : value) : result object :=
  match v with
  | VObj o => Ok o
  | VArr items => Ok (imap (fun i x => (pretty i, x)) items)
  | VStr EmptyString => Ok []
  | VStr (String _ _) => Beyond
  | VUndefined | VNull | VBool _ | VNum _ | VDate _ => Ok []
  end.

(** [v || []] *)
Definition or_empty (v : value) : value :=
  if truthy v then v else VArr [].

(** The receiver of [.find], [.some], [.map] and [.filter]: anything but an
    array has no such method. *)
Definition array_of (v : value) : result (list value) :=
  match v with
  | VArr l => Ok l
  | _ => Thrown TypeError
  end.

(** [[...v]] and [for (const w of v)] *)
Definition iterable (v : value) : result (list value) :=
  match v with
  | VArr l => Ok l
  | VStr EmptyString => Ok []
  | VStr (String _ _) => Beyond
  | _ => Thrown TypeError
  end.

(** [a === b] *)
Definition strict_eq (a b : value) : result bool :=
  match a, b with
  | VUndefined, VUndefined | VNull, VNull => Ok true
  | VBool x, VBool y => Ok (Bool.eqb x y)
  | VNum x, VNum y => Ok (x =? y)%Z
  | VStr x, VStr y => Ok (String.eqb x y)
  | (VDate _ | VArr _ | VObj _), (VDate _ | VArr _ | VObj _) => Beyond
  | _, _ => Ok false
  end.

(** [t.id === id] for a string [id] *)
Definition id_is (id : string) (t : value) : result bool :=
  v ← get_prop "id" t;
  Ok (match v with VStr s => String.eqb s id | _ => false end).

(** [t.id === table.id] *)
Definition same_id (table t : value) : result bool :=
  v ← get_prop "id" t;
  w ← get_prop "id" table;
  strict_eq v w.

(** [l.some(p)] *)
Fixpoint some (p : value -> result bool) (l : list value) : result bool :=
  match l with
  | [] => Ok false
  | t :: rest => b ← p t; if b : bool then Ok true else some p rest
  end.

(** [l.find(p)] *)
Fixpoint find (p : value -> result bool) (l : list value) : result value :=
  match l with
  | [] => Ok VUndefined
  | t :: rest => b ← p t; if b : bool then Ok t else find p rest
  end.

(** [l.map((t) => (p(t) ? f(t) : t))] *)
Fixpoint map_where (p : value -> result bool) (f : value -> result value)
  (l : list value) : result (list value) :=
  match l with
  | [] => Ok []
  | t :: rest =>
      b ← p t;
      t' ← (if b : bool then f t else Ok t);
      rest' ← map_where p f rest;
      Ok (t' :: rest')
  end.

(** [l.filter((t) => !p(t))] *)
Fixpoint filter_out (p : value -> result bool) (l : list value) :
  result (list value) :=
  match l with
  | [] => Ok []
  | t :: rest =>
      b ← p t;
      rest' ← filter_out p rest;
      Ok (if b : bool then rest' else t :: rest')
  end.


(** How [updateTable] and its four siblings change an item: one with the
    id has the attributes spread over it, any other stays. *)
Definition updated (id : string) (attributes : object) (t t' : value) : Prop :=
  match id_is id t with
  | Ok true => exists o, t = VObj o /\ t' = VObj (merge o attributes)
  | _ => t' = t
  end.

(** *** The [Map] of cached diagrams *)

(** A key of the [Map]: a primitive value, compared by [SameValueZero]. *)
Inductive key : Type :=
| KUndefined
| KNull
| KBool (b : bool)
| KNum (z : Z)
| KStr (s : string).

#[global] Instance key_eq_dec : EqDecision key.
Proof. solve_decision. Defined.

Definition key_of (v : value) : result key :=
  match v with
  | VUndefined => Ok KUndefined
  | VNull => Ok KNull
  | VBool b => Ok (KBool b)
  | VNum z => Ok (KNum z)
  | VStr s => Ok (KStr s)
  | VDate _ | VArr _ | VObj _ => Beyond
  end.

Fixpoint Map_get (k : key) (m : list (key * object)) : option object :=
  match m with
  | [] => None
  | (k', d) :: rest => if decide (k = k') then Some d else Map_get k rest
  end.

(** [m.set(k, d)]: an existing key keeps its place in the iteration order. *)
Fixpoint Map_set (k : key) (d : object) (m : list (key * object)) :
  list (key * object) :=
  match m with
  | [] => [(k, d)]
  | (k', d') :: rest =>
      if decide (k = k') then (k, d) :: rest else (k', d') :: Map_set k d rest
  end.

Definition Map_delete (k : key) (m : list (key * object)) : list (key * object) :=
  filter (fun p => p.1 <> k) m.

(** [Array.from(m.values())] *)
Definition Map_values (m : list (key * object)) : list object := snd <$> m.

(** *** The calls of [api] *)

Inductive call : Type :=
| signup (email password : string)
| login (email password : string)
| logout
| session
| listWorkspaces
| createWorkspace (id name diagram : value)
| getWorkspace (id : key)
| updateWorkspace (id : key) (body : value).

(** The five collections of a diagram, and the property that holds each. *)
Inductive collection : Type :=
| Tables
| Relationships
| Dependencies
| Areas
| CustomTypes.

Definition property (c : collection) : string :=
  match c with
  | Tables => "tables"
  | Relationships => "relationships"
  | Dependencies => "dependencies"
  | Areas => "areas"
  | CustomTypes => "customTypes"
  end.

(** The collections whose list function returns the stored array as it is;
    [listRelationships] and [listCustomTypes] return a copy sorted with
    [localeCompare], whose order is not modelled. *)
Definition listed_as_stored (c : collection) : bool :=
  match c with
  | Tables | Dependencies | Areas => true
  | Relationships | CustomTypes => false
  end.

Section Provider.

(** The rest of the world [api] talks to, and what a call does to it and
    answers: a value the promise resolves with, or the exception it
    rejects with. *)
Context {W : Type}.
Variable api : call -> W -> result value * W.

(** The time value of [new Date(v)]. *)
Variable new_Date : value -> option Z.

(** The page: [diagramsRef.current], the world behind [api], and the calls
    made so far (oldest first). *)
Record page : Type := {
  diagrams : list (key * object);
  world : W;
  sent : list call
}.

Definition M (A : Type) : Type := page -> result A * page.

#[global] Instance M_ret : MRet M := fun A a s => (Ok a, s).
#[global] Instance M_bind : MBind M := fun A B f m s =>
  match m s with
  | (Ok a, s') => f a s'
  | (Thrown e, s') => (Thrown e, s')
  | (Beyond, s') => (Beyond, s')
  end.

Definition lift {A} (r : result A) : M A := fun s => (r, s).

(** [try { m } catch { h }] *)
Definition try_catch {A} (m h : M A) : M A := fun s =>
  match m s with
  | (Thrown _, s') => h s'
  | other => other
  end.

(** [await api.c(...)] *)
Definition await (c : call) : M value := fun s =>
  let r := api c (world s) in
  (r.1, {| diagrams := diagrams s; world := r.2; sent := (sent s ++ [c])%list |}).

Definition cache_get (k : key) : M (option object) := fun s =>
  (Ok (Map_get k (diagrams s)), s).

Definition cache_set (k : key) (d : object) : M unit := fun s =>
  (Ok tt, {| diagrams := Map_set k d (diagrams s); world := world s; sent := sent s |}).

Definition cache_delete (k : key) : M unit := fun s =>
  (Ok tt, {| diagrams := Map_delete k (diagrams s); world := world s; sent := sent s |}).

Definition cache_values : M (list object) := fun s =>
  (Ok (Map_values (diagrams s)), s).

(** [normalizeDiagramDates(d)] *)
Definition normalizeDiagramDates (d : value) : result object :=
  o ← own_props d;
  c ← get_prop "createdAt" d;
  u ← get_prop "updatedAt" d;
  Ok (set_prop "updatedAt" (VDate (new_Date u))
        (set_prop "createdAt" (VDate (new_Date c)) o)).

(** [getCachedOrFetch(id)]; [None] is [undefined]. *)
Definition getCachedOrFetch (id : string) : M (option object) :=
  cached ← cache_get (KStr id);
  match cached with
  | Some d => mret (Some d)
  | None =>
      try_catch
        (res ← await (getWorkspace (KStr id));
         diagram ← lift (get_prop "diagram" res);
         d ← lift (normalizeDiagramDates diagram);
         cache_set (KStr id) d;;
         mret (Some d))
        (mret None)
  end.

(** The body [{ name: d.name, diagram: d }] *)
Definition document_body (d : object) : value :=
  VObj [("name", lookup "name" d); ("diagram", VObj d)].

(** [persist(id)] *)
Definition persist (id : key) : M unit :=
  d ← cache_get id;
  match d with
  | None => mret tt
  | Some d => await (updateWorkspace id (document_body d));; mret tt
  end.

(** [requireDiagram(diagramId)] *)
Definition requireDiagram (diagramId : string) : M object :=
  d ← getCachedOrFetch diagramId;
  match d with
  | None => lift (Thrown (Error "Diagram not found"))
  | Some d => mret d
  end.

(** [{ ...d, updatedAt: new Date() }] at the clock reading [now] *)
Definition touched (now : Z) (d : object) : object :=
  set_prop "updatedAt" (VDate (Some now)) d.

(** *** Operations on one collection

    The provider repeats the same functions for [tables], [relationships],
    [dependencies], [areas] and [customTypes]; they are written once, over
    the collection. *)

Definition addItem (c : collection) (diagramId : string) (item : value) (now : Z) :
  M unit :=
  d ← requireDiagram diagramId;
  l ← lift (iterable (or_empty (lookup (property c) d)));
  cache_set (KStr diagramId)
    (touched now (set_prop (property c) (VArr (l ++ [item])%list) d));;
  persist (KStr diagramId).

Definition getItem (c : collection) (id diagramId : string) : M value :=
  d ← requireDiagram diagramId;
  l ← lift (array_of (or_empty (lookup (property c) d)));
  lift (find (id_is id) l).

Definition deleteDiagramItems (c : collection) (diagramId : string) (now : Z) :
  M unit :=
  d ← requireDiagram diagramId;
  cache_set (KStr diagramId) (touched now (set_prop (property c) (VArr []) d));;
  persist (KStr diagramId).

(** The first cached diagram, in the order of the [Map], one of whose
    items has the id. *)
Fixpoint holder (c : collection) (id : string) (ds : list object) :
  result (option object) :=
  match ds with
  | [] => Ok None
  | dg :: rest =>
      l ← array_of (or_empty (lookup (property c) dg));
      b ← some (id_is id) l;
      if b : bool then Ok (Some dg) else holder c id rest
  end.

Definition updateItem (c : collection) (id : string) (attributes : object) (now : Z) :
  M unit :=
  ds ← cache_values;
  found ← lift (holder c id ds);
  match found with
  | None => mret tt
  | Some diagram =>
      l ← lift (array_of (or_empty (lookup (property c) diagram)));
      l' ← lift (map_where (id_is id)
                   (fun t => o ← own_props t; Ok (VObj (merge o attributes))) l);
      let d := set_prop (property c) (VArr l') diagram in
      k ← lift (key_of (lookup "id" d));
      cache_set k (touched now d);;
      persist k
  end.

Definition deleteItem (c : collection) (id diagramId : string) (now : Z) : M unit :=
  d ← requireDiagram diagramId;
  l ← lift (array_of (or_empty (lookup (property c) d)));
  l' ← lift (filter_out (id_is id) l);
  cache_set (KStr diagramId) (touched now (set_prop (property c) (VArr l') d));;
  persist (KStr diagramId).

(** [listTables], [listDependencies] and [listAreas] *)
Definition listItems (c : collection) (diagramId : string) : M value :=
  d ← requireDiagram diagramId;
  mret (or_empty (lookup (property c) d)).

(** No item of collection [c] of [dg] has the id. *)
Definition lacks (c : collection) (id : string) (dg : object) : Prop :=
  exists l, or_empty (lookup (property c) dg) = VArr l /\
            Forall (fun t => id_is id t = Ok false) l.

(** Tables *)
Definition addTable := addItem Tables.
Definition getTable := getItem Tables.
Definition deleteDiagramTables := deleteDiagramItems Tables.
Definition updateTable := updateItem Tables.
Definition deleteTable := deleteItem Tables.
Definition listTables := listItems Tables.

Definition putTable (diagramId : string) (table : value) (now : Z) : M unit :=
  d ← requireDiagram diagramId;
  l ← lift (array_of (or_empty (lookup "tables" d)));
  exists_ ← lift (some (same_id table) l);
  l' ← lift (if exists_ : bool
             then map_where (same_id table) (fun _ => Ok table) l
             else (l0 ← iterable (or_empty (lookup "tables" d)); Ok (l0 ++ [table])%list));
  cache_set (KStr diagramId) (touched now (set_prop "tables" (VArr l') d));;
  persist (KStr diagramId).

(** Relationships *)
Definition addRelationship := addItem Relationships.
Definition deleteDiagramRelationships := deleteDiagramItems Relationships.
Definition getRelationship := getItem Relationships.
Definition updateRelationship := updateItem Relationships.
Definition deleteRelationship := deleteItem Relationships.

(** Dependencies *)
Definition addDependency := addItem Dependencies.
Definition getDependency := getItem Dependencies.
Definition updateDependency := updateItem Dependencies.
Definition deleteDependency := deleteItem Dependencies.
Definition listDependencies := listItems Dependencies.
Definition deleteDiagramDependencies := deleteDiagramItems Dependencies.

(** Areas *)
Definition addArea := addItem Areas.
Definition getArea := getItem Areas.
Definition updateArea := updateItem Areas.
Definition deleteArea := deleteItem Areas.
Definition listAreas := listItems Areas.
Definition deleteDiagramAreas := deleteDiagramItems Areas.

(** Custom types *)
Definition addCustomType := addItem CustomTypes.
Definition getCustomType := getItem CustomTypes.
Definition updateCustomType := updateItem CustomTypes.
Definition deleteCustomType := deleteItem CustomTypes.
Definition deleteDiagramCustomTypes := deleteDiagramItems CustomTypes.

(** The edits of one diagram that replace a collection of it. *)
Inductive edit : Type :=
| Add (c : collection) (item : value)
| Put (table : value)
| Delete (c : collection) (id : string)
| Clear (c : collection).

(** The collection an edit replaces. *)
Definition target (ed : edit) : collection :=
  match ed with
  | Add c _ | Delete c _ | Clear c => c
  | Put _ => Tables
  end.

Definition perform (ed : edit) (diagramId : string) (now : Z) : M unit :=
  match ed with
  | Add c item => addItem c diagramId item now
  | Put table => putTable diagramId table now
  | Delete c id => deleteItem c id diagramId now
  | Clear c => deleteDiagramItems c diagramId now
  end.

(** *** Diagrams *)

Definition addDiagram (diagram : value) : M unit :=
  d ← lift (normalizeDiagramDates diagram);
  k ← lift (key_of (lookup "id" d));
  cache_set k d;;
  try_catch
    (await (createWorkspace (lookup "id" d) (lookup "name" d) (VObj d));; mret tt)
    (await (updateWorkspace k (document_body d));; mret tt).

(** One turn of the loop of [listDiagrams] over the rows the server
    listed; [results] are the diagrams pushed so far. *)
Fixpoint listDiagrams_loop (ws : list value) (results : list object) :
  M (list object) :=
  match ws with
  | [] => mret results
  | w :: rest =>
      id ← lift (get_prop "id" w);
      k ← lift (key_of id);
      cached ← cache_get k;
      match cached with
      | Some d => listDiagrams_loop rest (results ++ [d])%list
      | None =>
          fetched ←
            try_catch
              (full ← await (getWorkspace k);
               diagram ← lift (get_prop "diagram" full);
               d ← lift (normalizeDiagramDates diagram);
               cache_set k d;;
               mret (Some d))
              (mret None);
          match fetched with
          | Some d => listDiagrams_loop rest (results ++ [d])%list
          | None => listDiagrams_loop rest results
          end
      end
  end.

Definition listDiagrams : M (list object) :=
  list ← await listWorkspaces;
  ws ← lift (iterable list);
  listDiagrams_loop ws [].

Definition getDiagram (id : string) : M (option object) :=
  getCachedOrFetch id.

Definition updateDiagram (id : string) (attributes : object) (now : Z) : M unit :=
  d0 ← getCachedOrFetch id;
  match d0 with
  | None => mret tt
  | Some d0 =>
      let d := touched now (merge d0 attributes) in
      k ← lift (key_of (lookup "id" d));
      cache_set k d;;
      persist k
  end.

Definition deleteDiagram (id : string) : M unit :=
  cache_delete (KStr id).

Definition applyServerWorkspaceUpdate (id : string) (name diagram updatedAt : value) :
  M unit :=
  current ← getCachedOrFetch id;
  if negb (bool_decide (is_Some current)) && negb (truthy diagram) then mret tt
  else if truthy diagram then
    d ← lift (normalizeDiagramDates diagram);
    cache_set (KStr id) d
  else
    match current with
    | Some current =>
        let d1 :=
          match name with
          | VUndefined => current
          | _ => set_prop "name" name current
          end in
        let d2 :=
          match updatedAt with
          | VUndefined => d1
          | _ => set_prop "updatedAt" (VDate (new_Date updatedAt)) d1
          end in
        cache_set (KStr id) d2
    | None => mret tt
    end.

(** The listener [onUpdate] that [useDiagramLoader] registers for
    [workspace:update] while the page shows [diagramId]. *)
Definition onUpdate (diagramId : string) (payload : value) : M unit :=
  let id := get_prop_opt "id" payload in
  if negb (truthy id) ||
     negb (match id with VStr s => String.eqb s diagramId | _ => false end)
  then mret tt
  else
    applyServerWorkspaceUpdate diagramId
      (get_prop_opt "name" payload) (get_prop_opt "diagram" payload)
      (get_prop_opt "updatedAt" payload).

(** [signIn] of the sign-in button, on what the two prompts returned
    ([None]: cancelled).  The result is the user handed to [setUser], when
    the function gets that far. *)
Definition signIn (email password : option string) : M (option value) :=
  match email with
  | None | Some EmptyString => mret None
  | Some em =>
      match password with
      | None | Some EmptyString => mret None
      | Some pw =>
          try_catch (await (signup em pw);; mret tt) (await (login em pw);; mret tt);;
          res ← await session;
          let user := get_prop_opt "user" res in
          mret (Some (match user with VUndefined => VNull | _ => user end))
      end
  end.

Definition signOut : M unit :=
  await logout;; mret tt.

End Provider.

End Browser.

(** ** From the page to the server: [request], [api] and the Express app

    [api] builds a [fetch] for each call and [request] turns the response
    into the value or the exception of the promise.  Behind it stands the
    Express application: [express.json()], the session cookie, the router
    and the handlers above.  The page is served from the same origin
    ([API_BASE] is empty) and the network delivers every request and
    response. *)

Module Wire.

Import Browser.

Record Request : Type := {
  method : string;
  path : string;
  body_text : option string
}.

Record Response : Type := {
  status : Z;
  statusText : string;
  content_type : string;
  text : string
}.

(** The object [JSON.parse] returned, as a value of the page. *)
Fixpoint of_json (j : json) : value :=
  match j with
  | JNull => VNull
  | JBool b => VBool b
  | JNum z => VNum z
  | JStr s => VStr s
  | JArr items =>
      VArr ((fix elems (l : list json) : list value :=
               match l with
               | [] => []
               | x :: rest => of_json x :: elems rest
               end) items)
  | JObj props =>
      VObj ((fix members (l : list (string * json)) : object :=
               match l with
               | [] => []
               | (k, x) :: rest => (k, of_json x) :: members rest
               end) props)
  end.

(** The two loops of [of_json], by name. *)
Fixpoint of_json_items (l : list json) : list value :=
  match l with
  | [] => []
  | x :: rest => of_json x :: of_json_items rest
  end.

Fixpoint of_json_props (l : list (string * json)) : object :=
  match l with
  | [] => []
  | (k, x) :: rest => (k, of_json x) :: of_json_props rest
  end.

(** A value that is JSON data: no [undefined] and no [Date] inside. *)
Fixpoint plain (v : value) : bool :=
  match v with
  | VUndefined | VDate _ => false
  | VNull | VBool _ | VNum _ | VStr _ => true
  | VArr items =>
      (fix all (l : list value) : bool :=
         match l with
         | [] => true
         | x :: rest => plain x && all rest
         end) items
  | VObj props =>
      (fix all (l : list (string * value)) : bool :=
         match l with
         | [] => true
         | (_, x) :: rest => plain x && all rest
         end) props
  end.

(** The response [request] works on has status 200 to 299. *)
Definition ok (res : Response) : bool :=
  ((200 <=? status res) && (status res <=? 299))%Z.

(** [request(path, options)], once [fetch] has resolved with [res]. *)
Definition request (res : Response) : result value :=
  if negb (ok res) then
    let err :=
      match JSON.parse (text res) with
      | Some j => j
      | None => JObj [("error", JStr (statusText res))]
      end in
    match err with
    | JNull => Thrown TypeError
    | _ =>
        let message := prop "error" err in
        Thrown (Error (if JS.truthy message then template message
                       else "HTTP " +:+ pretty (status res)))
    end
  else if includes "application/json" (content_type res) then
    match JSON.parse (text res) with
    | Some j => Ok (of_json j)
    | None => Thrown SyntaxError
    end
  else Ok (VStr (text res)).

(** [`${id}`] in a path, with [String] as [JS.to_String] writes it. *)
Definition path_id (id : key) : string :=
  match id with
  | KUndefined => "undefined"
  | KNull => "null"
  | KBool true => "true"
  | KBool false => "false"
  | KNum z => pretty z
  | KStr s => s
  end.

Section Api.

(** [Date.prototype.toISOString] on a valid time value. *)
Variable toISOString : Z -> string.

(** [JSON.stringify(v)] up to the text: the data that is serialised.  A
    property that is [undefined] is left out, an array element that is
    [undefined] and an invalid date become [null], a date its ISO string. *)
Fixpoint to_json (v : value) : option json :=
  match v with
  | VUndefined => None
  | VNull => Some JNull
  | VBool b => Some (JBool b)
  | VNum z => Some (JNum z)
  | VStr s => Some (JStr s)
  | VDate None => Some JNull
  | VDate (Some t) => Some (JStr (toISOString t))
  | VArr items =>
      Some (JArr ((fix elems (l : list value) : list json :=
                     match l with
                     | [] => []
                     | x :: rest => default JNull (to_json x) :: elems rest
                     end) items))
  | VObj props =>
      Some (JObj ((fix members (l : list (string * value)) : list (string * json) :=
                     match l with
                     | [] => []
                     | (k, x) :: rest =>
                         match to_json x with
                         | Some j => (k, j) :: members rest
                         | None => members rest
                         end
                     end) props))
  end.

(** The two loops of [to_json], by name. *)
Fixpoint to_json_items (l : list value) : list json :=
  match l with
  | [] => []
  | x :: rest => default JNull (to_json x) :: to_json_items rest
  end.

Fixpoint to_json_props (l : object) : list (string * json) :=
  match l with
  | [] => []
  | (k, x) :: rest =>
      match to_json x with
      | Some j => (k, j) :: to_json_props rest
      | None => to_json_props rest
      end
  end.

(** [body: JSON.stringify(v)] *)
Definition body_of (v : value) : option string :=
  JSON.stringify <$> to_json v.

(** The request each function of [api] hands to [request]. *)
Definition api (c : call) : Request :=
  match c with
  | signup email password =>
      {| method := "POST"; path := "/api/auth/signup";
         body_text :=
           body_of (VObj [("email", VStr email); ("password", VStr password)]) |}
  | login email password =>
      {| method := "POST"; path := "/api/auth/login";
         body_text :=
           body_of (VObj [("email", VStr email); ("password", VStr password)]) |}
  | logout =>
      {| method := "POST"; path := "/api/auth/logout"; body_text := None |}
  | session =>
      {| method := "GET"; path := "/api/session"; body_text := None |}
  | listWorkspaces =>
      {| method := "GET"; path := "/api/workspaces"; body_text := None |}
  | createWorkspace id name diagram =>
      {| method := "POST"; path := "/api/workspaces";
         body_text :=
           body_of (VObj [("id", id); ("name", name); ("diagram", diagram)]) |}
  | getWorkspace id =>
      {| method := "GET"; path := "/api/workspaces/" +:+ path_id id;
         body_text := None |}
  | updateWorkspace id body =>
      {| method := "PUT"; path := "/api/workspaces/" +:+ path_id id;
         body_text := body_of body |}
  end.

(** *** The Express application *)

Definition safe_char (c : ascii) : bool :=
  let n := N_of_ascii c in
  (((48 <=? n) && (n <=? 57)) || ((65 <=? n) && (n <=? 90)) ||
   ((97 <=? n) && (n <=? 122)) || (n =? 45) || (n =? 95))%N.

(** An id that a URL carries unchanged as one path segment. *)
Definition url_safe (id : string) : bool :=
  negb (String.eqb id "") && forallb safe_char (list_ascii_of_string id).

(** The route a request of [api] reaches, with [req.params.id].  Other
    paths, and ids that a URL would escape or split, are left out. *)
Definition route_of (m p : string) : option (route * string) :=
  if String.eqb p "/api/auth/signup" then
    if String.eqb m "POST" then Some (AuthSignup, "") else None
  else if String.eqb p "/api/auth/login" then
    if String.eqb m "POST" then Some (AuthLogin, "") else None
  else if String.eqb p "/api/auth/logout" then
    if String.eqb m "POST" then Some (AuthLogout, "") else None
  else if String.eqb p "/api/session" then
    if String.eqb m "GET" then Some (SessionGet, "") else None
  else if String.eqb p "/api/workspaces" then
    if String.eqb m "GET" then Some (WorkspacesList, "")
    else if String.eqb m "POST" then Some (WorkspacesCreate, "")
    else None
  else
    match JSON.strip_prefix "/api/workspaces/" p with
    | Some id =>
        if url_safe id then
          if String.eqb m "GET" then Some (WorkspaceGet, id)
          else if String.eqb m "PUT" then Some (WorkspacePut, id)
          else None
        else None
    | None => None
    end.

(** [express.json({ limit: '10mb' })]: the parsed body, or the status of
    the error it raises (too large; not the text of an object or array). *)
Definition limit : N := 10485760.

Definition express_json (t : option string) : Z + option json :=
  match t with
  | None => inr None
  | Some t =>
      if (limit <? N.of_nat (String.length t))%N then inl 413
      else
        match JSON.parse t with
        | Some (JObj props) => inr (Some (JObj props))
        | Some (JArr items) => inr (Some (JArr items))
        | _ => inl 400
        end
  end.

Variable hashSync : string -> string -> string.
Variable compareSync : string -> string -> bool.

(** The reason phrase that goes with a status, and what the error page of
    Express says below its first line. *)
Variable reason : Z -> string.
Variable detail : Z -> string.

(** The environment of the [k]-th request the server handles. *)
Variable env_at : nat -> env.

(** The server, the session cookie of this browser, the events the server
    has emitted, and the number of requests it has handled. *)
Record net : Type := {
  app : server;
  jar : option Z;
  outbox : list delivery;
  served : nat
}.

Definition error_page (s : Z) : Response :=
  {| status := s; statusText := reason s;
     content_type := "text/html; charset=utf-8";
     text := "<!DOCTYPE html>" +:+ detail s |}.

(** [res.status(s).json(payload)] *)
Definition json_response (s : Z) (payload : json) : Response :=
  {| status := s; statusText := reason s;
     content_type := "application/json; charset=utf-8";
     text := JSON.stringify payload |}.

(** One request through the middleware and the router. *)
Definition express (rq : Request) (w : net) : result (Response * net) :=
  match route_of (method rq) (path rq) with
  | None => Beyond
  | Some (r, id) =>
      match express_json (body_text rq) with
      | inl s =>
          Ok (error_page s,
              {| app := app w; jar := jar w; outbox := outbox w;
                 served := S (served w) |})
      | inr b =>
          let rep :=
            handle hashSync compareSync (env_at (served w)) (app w) r
              {| session_userId := jar w; body := b; params_id := id |} in
          Ok (match response rep with
              | Responded s payload => json_response s payload
              | Threw _ => error_page 500
              end,
              {| app := state rep; jar := cookie rep;
                 outbox := (outbox w ++ emitted rep)%list;
                 served := S (served w) |})
      end
  end.

(** A call of [api] against the server. *)
Definition serve (c : call) (w : net) : result value * net :=
  match express (api c) w with
  | Ok (res, w') => (request res, w')
  | Thrown e => (Thrown e, w)
  | Beyond => (Beyond, w)
  end.

End Api.

End Wire.

(** ** Two browsers on the sample deployment *)

Module Desk.

Import Browser Wire.

(** Stand-ins for the [Date] built-ins: a time value is written as its
    number, and only numbers and dates are read as a time. *)
Definition toy_Date (v : value) : option Z :=
  match v with
  | VNum z => Some z
  | VDate t => t
  | _ => None
  end.

Definition toy_iso (t : Z) : string := pretty t.

(** No reason phrase (as over HTTP/2), and a one-line error page. *)
Definition reason (s : Z) : string := "".
Definition detail (s : Z) : string := "<title>Error</title>".

(** Every request is served at noon, without storage failures. *)
Definition env_at (k : nat) : env := Sample.noon.

Definition api : call -> net -> result value * net :=
  serve toy_iso Sample.toy_hash Sample.toy_compare reason detail env_at.

Definition orders : value := VObj [("id", VStr "t1"); ("name", VStr "orders")].
Definition customers : value := VObj [("id", VStr "t2"); ("name", VStr "customers")].
Definition purchases : value := VObj [("id", VStr "t1"); ("name", VStr "purchases")].

Definition shop : object :=
  [("id", VStr "w1"); ("name", VStr "Shop"); ("tables", VArr [orders]);
   ("createdAt", VDate (Some 1748768400000));
   ("updatedAt", VDate (Some 1748779200000))].

Definition plans : object :=
  [("id", VStr "w2"); ("name", VStr "Plans");
   ("createdAt", VNum 1748854800000); ("updatedAt", VNum 1748854800000)].

(** The browser of the first user, of the second, and one without a
    session. *)
Definition alice : net :=
  {| app := Sample.live; jar := Some 1; outbox := []; served := 0 |}.

Definition bob : net :=
  {| app := Sample.live; jar := Some 2; outbox := []; served := 0 |}.

Definition visitor : net :=
  {| app := Sample.live; jar := None; outbox := []; served := 0 |}.

(** A page in a browser, with some diagrams loaded. *)
Definition page_of (w : net) (ds : list (key * object)) : @page net :=
  {| diagrams := ds; world := w; sent := [] |}.

End Desk.

(** * Properties *)

(** ** JSON text is read back *)

Module JsonText.
Import JSON.

(** *** Strings *)

Lemma app_empty t : EmptyString +:+ t = t.
Proof. reflexivity. Qed.

Lemma app_assoc' a b c : (a +:+ b) +:+ c = a +:+ (b +:+ c).
Proof.
  induction a as [| x a IH]; [reflexivity |].
  change ((String x a +:+ b) +:+ c) with (String x ((a +:+ b) +:+ c)).
  rewrite IH. reflexivity.
Qed.

Lemma length_app a b : String.length (a +:+ b) = (String.length a + String.length b)%nat.
Proof.
  induction a as [| x a IH]; [reflexivity |].
  change (String x a +:+ b) with (String x (a +:+ b)).
  simpl. rewrite IH. reflexivity.
Qed.

Lemma parse_chars_char c tail :
  parse_chars Plain (escape_char c +:+ tail) = push c (parse_chars Plain tail).
Proof.
  destruct c as [[] [] [] [] [] [] [] []]; reflexivity.
Qed.

Lemma parse_chars_escape s rest :
  parse_chars Plain (escape s +:+ String dquote rest) = Some (s, rest).
Proof.
  induction s as [| c s IH].
  - reflexivity.
  - cbn [escape]. rewrite app_assoc', parse_chars_char, IH. reflexivity.
Qed.

Lemma quote_app s rest :
  quote s +:+ rest = String dquote (escape s +:+ String dquote rest).
Proof.
  unfold quote.
  change (String dquote (escape s +:+ String dquote EmptyString) +:+ rest)
    with (String dquote ((escape s +:+ String dquote EmptyString) +:+ rest)).
  rewrite app_assoc'. reflexivity.
Qed.

Lemma app_cons c s t : String c s +:+ t = String c (s +:+ t).
Proof. reflexivity. Qed.

Lemma small_N_cases (P : N -> Prop) :
  P 0%N -> P 1%N -> P 2%N -> P 3%N -> P 4%N -> P 5%N -> P 6%N -> P 7%N ->
  P 8%N -> P 9%N -> forall d, (d < 10)%N -> P d.
Proof.
  intros H0 H1 H2 H3 H4 H5 H6 H7 H8 H9 d Hd.
  assert (d = 0 \/ d = 1 \/ d = 2 \/ d = 3 \/ d = 4 \/ d = 5 \/ d = 6 \/ d = 7 \/
          d = 8 \/ d = 9)%N as Hc by lia.
  repeat (destruct Hc as [-> | Hc]; [assumption |]). subst. assumption.
Qed.

(** A decimal digit as [pretty] prints it is read back. *)
Lemma digit_value_pretty d :
  (d < 10)%N -> digit_value (pretty_N_char d) = Some (Z.of_N d).
Proof. revert d. apply small_N_cases; reflexivity. Qed.

Lemma parse_digits_stop acc s :
  head_is is_digit s = false -> parse_digits acc s = (acc, s).
Proof.
  destruct s as [| c s]; [reflexivity |].
  simpl. unfold is_digit. destruct (digit_value c); [discriminate | reflexivity].
Qed.

Lemma parse_digits_pretty x :
  forall s acc, exists m,
    parse_digits acc (pretty_N_go x s) = parse_digits (acc * m + Z.of_N x) s.
Proof.
  induction (N.lt_wf_0 x) as [x _ IH]. intros s acc.
  destruct (N.eq_dec x 0%N) as [-> | Hx].
  - exists 1. rewrite pretty_N_go_0. f_equal. simpl. lia.
  - assert (Hpos : (0 < x)%N) by lia.
    rewrite pretty_N_go_step by exact Hpos.
    destruct (IH (x `div` 10)%N (N.div_lt x 10 Hpos eq_refl)
                 (String (pretty_N_char (x `mod` 10)) s) acc) as [m Hm].
    exists (10 * m). rewrite Hm.
    cbn [parse_digits].
    rewrite digit_value_pretty by (apply N.mod_lt; discriminate).
    f_equal.
    pose proof (N.div_mod x 10 ltac:(discriminate)) as Hdm.
    rewrite N2Z.inj_div, N2Z.inj_mod.
    rewrite (Z.div_mod (Z.of_N x) 10) at 3 by lia.
    change (Z.of_N 10) with 10. lia.
Qed.

Lemma pretty_N_go_app x : forall s, pretty_N_go x s = pretty_N_go x EmptyString +:+ s.
Proof.
  induction (N.lt_wf_0 x) as [x _ IH]. intros s.
  destruct (N.eq_dec x 0%N) as [-> | Hx].
  - rewrite !pretty_N_go_0. reflexivity.
  - assert (Hpos : (0 < x)%N) by lia.
    rewrite (pretty_N_go_step x s), (pretty_N_go_step x EmptyString) by exact Hpos.
    rewrite (IH _ (N.div_lt x 10 Hpos eq_refl) (String _ s)).
    rewrite (IH _ (N.div_lt x 10 Hpos eq_refl) (String (pretty_N_char (x `mod` 10)) EmptyString)).
    generalize (pretty_N_go (x `div` 10) EmptyString) as a. intros a.
    induction a as [| c a IHa]; [reflexivity |].
    rewrite !app_cons, IHa. reflexivity.
Qed.

(** The most significant digit comes first and is not zero. *)
Lemma pretty_N_go_head x :
  (0 < x)%N ->
  forall s, exists d tail,
    (0 < d < 10)%N /\ pretty_N_go x s = String (pretty_N_char d) tail.
Proof.
  induction (N.lt_wf_0 x) as [x _ IH]. intros Hpos s.
  rewrite pretty_N_go_step by exact Hpos.
  destruct (N.eq_dec (x `div` 10)%N 0%N) as [Hz | Hnz].
  - rewrite Hz, pretty_N_go_0.
    exists (x `mod` 10)%N, s. split; [| reflexivity].
    pose proof (N.div_mod x 10 ltac:(discriminate)) as Hdm.
    pose proof (N.mod_lt x 10 ltac:(discriminate)) as Hlt.
    rewrite Hz, N.mul_0_r, N.add_0_l in Hdm.
    rewrite <- Hdm in Hlt |- *. split; assumption.
  - apply (IH _ (N.div_lt x 10 Hpos eq_refl)). apply N.neq_0_lt_0. exact Hnz.
Qed.

Lemma digit_char_facts d :
  (d < 10)%N ->
  is_ws (pretty_N_char d) = false /\
  (N_of_ascii (pretty_N_char d) =? 45)%N = false /\
  (N_of_ascii (pretty_N_char d) =? 110)%N = false /\
  (N_of_ascii (pretty_N_char d) =? 116)%N = false /\
  (N_of_ascii (pretty_N_char d) =? 102)%N = false /\
  (N_of_ascii (pretty_N_char d) =? 34)%N = false /\
  (N_of_ascii (pretty_N_char d) =? 91)%N = false /\
  (N_of_ascii (pretty_N_char d) =? 93)%N = false /\
  (N_of_ascii (pretty_N_char d) =? 123)%N = false.
Proof. revert d. apply small_N_cases; repeat split; reflexivity. Qed.

Lemma parse_unsigned_pretty (n : N) rest :
  follow_ok rest ->
  parse_unsigned (pretty n +:+ rest) = Some (Z.of_N n, rest).
Proof.
  intros [Hdig Hfrac]. unfold pretty, pretty_N.
  destruct (decide (n = 0%N)) as [-> | Hn].
  - rewrite app_cons. unfold parse_unsigned.
    change (digit_value "0") with (Some 0). cbv iota.
    change (EmptyString +:+ rest) with rest.
    rewrite Hdig. simpl andb. cbv iota.
    cbn [parse_digits]. change (digit_value "0") with (Some 0). cbv iota.
    rewrite parse_digits_stop by exact Hdig.
    rewrite Hfrac. reflexivity.
  - assert (Hpos : (0 < n)%N) by lia.
    rewrite <- pretty_N_go_app.
    destruct (pretty_N_go_head n Hpos rest) as (d & tail & [Hd0 Hd10] & Hhead).
    destruct (parse_digits_pretty n rest 0) as [m Hm].
    unfold parse_unsigned. rewrite Hhead.
    rewrite digit_value_pretty by exact Hd10.
    assert (Hnz : (Z.of_N d =? 0)%Z = false) by (apply Z.eqb_neq; lia).
    rewrite Hnz. simpl andb. cbv iota.
    rewrite <- Hhead, Hm, parse_digits_stop by exact Hdig.
    rewrite Hfrac. reflexivity.
Qed.

Lemma pretty_Z_head_nonneg z rest :
  0 <= z -> exists d tail, (d < 10)%N /\ pretty z +:+ rest = String (pretty_N_char d) tail.
Proof.
  intros Hz. destruct z as [| p | p]; [| | lia].
  - exists 0%N, rest. split; [lia | reflexivity].
  - change (pretty (Z.pos p)) with (pretty (N.pos p)).
    unfold pretty, pretty_N.
    destruct (decide (N.pos p = 0%N)) as [Hp | _]; [discriminate |].
    rewrite <- pretty_N_go_app.
    destruct (pretty_N_go_head (N.pos p) ltac:(lia) rest) as (d & tail & [_ Hd] & Hh).
    exists d, tail. split; assumption.
Qed.

Lemma parse_number_minus x :
  parse_number (String "-" x) =
  match parse_unsigned x with
  | Some (z, out) => Some (- z, out)
  | None => None
  end.
Proof. reflexivity. Qed.

Lemma parse_number_pretty z rest :
  follow_ok rest -> parse_number (pretty z +:+ rest) = Some (z, rest).
Proof.
  intros Hok. destruct z as [| p | p].
  - change (pretty 0) with (pretty 0%N).
    change (parse_number (pretty 0%N +:+ rest)) with (parse_unsigned (pretty 0%N +:+ rest)).
    rewrite parse_unsigned_pretty by exact Hok. reflexivity.
  - destruct (pretty_Z_head_nonneg (Z.pos p) rest ltac:(lia)) as (d & tail & Hd & Hh).
    unfold parse_number. rewrite Hh.
    destruct (digit_char_facts d Hd) as (_ & H45 & _). rewrite H45.
    rewrite <- Hh. change (pretty (Z.pos p)) with (pretty (N.pos p)).
    rewrite parse_unsigned_pretty by exact Hok. reflexivity.
  - change (pretty (Z.neg p) +:+ rest) with (String "-" (pretty (N.pos p) +:+ rest)).
    rewrite parse_number_minus, parse_unsigned_pretty by exact Hok. reflexivity.
Qed.

(** *** Values *)

Lemma json_nested_ind (P : json -> Prop) :
  P JNull ->
  (forall b, P (JBool b)) ->
  (forall z, P (JNum z)) ->
  (forall s, P (JStr s)) ->
  (forall items, Forall P items -> P (JArr items)) ->
  (forall props, Forall (fun kv => P kv.2) props -> P (JObj props)) ->
  forall v, P v.
Proof.
  intros Hnull Hbool Hnum Hstr Harr Hobj.
  fix IH 1. intros [| b | z | s | items | props].
  - exact Hnull.
  - apply Hbool.
  - apply Hnum.
  - apply Hstr.
  - apply Harr.
    exact ((fix all (l : list json) : Forall P l :=
              match l with
              | [] => @List.Forall_nil _ P
              | x :: rest => @List.Forall_cons _ P x rest (IH x) (all rest)
              end) items).
  - apply Hobj.
    exact ((fix all (l : list (string * json)) : Forall (fun kv => P kv.2) l :=
              match l with
              | [] => @List.Forall_nil _ _
              | kv :: rest => @List.Forall_cons _ (fun kv => P kv.2) kv rest (IH kv.2) (all rest)
              end) props).
Qed.

Lemma stringify_arr items : stringify (JArr items) = "[" +:+ elems_text items.
Proof. reflexivity. Qed.

Lemma stringify_obj props : stringify (JObj props) = "{" +:+ members_text props.
Proof. reflexivity. Qed.

Lemma weight_arr items : weight (JArr items) = S (weight_elems items).
Proof. reflexivity. Qed.

Lemma weight_obj props : weight (JObj props) = S (weight_members props).
Proof. reflexivity. Qed.

Lemma skip_ws_head c t : is_ws c = false -> skip_ws (String c t) = String c t.
Proof. intros H. simpl. rewrite H. reflexivity. Qed.

Lemma pv_null n rest : parse_value (S n) ("null" +:+ rest) = Some (JNull, rest).
Proof. reflexivity. Qed.
Lemma pv_true n rest : parse_value (S n) ("true" +:+ rest) = Some (JBool true, rest).
Proof. reflexivity. Qed.
Lemma pv_false n rest : parse_value (S n) ("false" +:+ rest) = Some (JBool false, rest).
Proof. reflexivity. Qed.

Lemma pv_str n tail :
  parse_value (S n) (String dquote tail) =
  match parse_chars Plain tail with
  | Some (str, out) => Some (JStr str, out)
  | None => None
  end.
Proof. reflexivity. Qed.

Lemma pv_arr n tail :
  parse_value (S n) (String "[" tail) =
  match skip_ws tail with
  | EmptyString => None
  | String x out0 =>
      if (N_of_ascii x =? 93)%N then Some (JArr [], out0)
      else match parse_elems n tail with
           | Some (l, out) => Some (JArr l, out)
           | None => None
           end
  end.
Proof. reflexivity. Qed.

Lemma pv_obj n tail :
  parse_value (S n) (String "{" tail) =
  match skip_ws tail with
  | EmptyString => None
  | String x out0 =>
      if (N_of_ascii x =? 125)%N then Some (JObj [], out0)
      else match parse_members n tail with
           | Some (l, out) => Some (JObj l, out)
           | None => None
           end
  end.
Proof. reflexivity. Qed.

Lemma pv_digit n d tail :
  (d < 10)%N ->
  parse_value (S n) (String (pretty_N_char d) tail) =
  match parse_number (String (pretty_N_char d) tail) with
  | Some (z, out) => Some (JNum z, out)
  | None => None
  end.
Proof. revert d. apply small_N_cases; reflexivity. Qed.

Lemma pv_minus n tail :
  parse_value (S n) (String "-" tail) =
  match parse_number (String "-" tail) with
  | Some (z, out) => Some (JNum z, out)
  | None => None
  end.
Proof. reflexivity. Qed.

Lemma pe_step n s :
  parse_elems (S n) s =
  match parse_value n s with
  | None => None
  | Some (v, r) =>
      match skip_ws r with
      | EmptyString => None
      | String c r' =>
          if (N_of_ascii c =? 44)%N then
            match parse_elems n r' with
            | Some (l, out) => Some (v :: l, out)
            | None => None
            end
          else if (N_of_ascii c =? 93)%N then Some ([v], r')
          else None
      end
  end.
Proof. reflexivity. Qed.

Lemma pm_step n tail :
  parse_members (S n) (String dquote tail) =
  match parse_chars Plain tail with
  | None => None
  | Some (k, r1) =>
      match skip_ws r1 with
      | EmptyString => None
      | String colon r2 =>
          if negb (N_of_ascii colon =? 58)%N then None else
          match parse_value n r2 with
          | None => None
          | Some (v, r3) =>
              match skip_ws r3 with
              | EmptyString => None
              | String c r4 =>
                  if (N_of_ascii c =? 44)%N then
                    match parse_members n r4 with
                    | Some (l, out) => Some ((k, v) :: l, out)
                    | None => None
                    end
                  else if (N_of_ascii c =? 125)%N then Some ([(k, v)], r4)
                  else None
              end
          end
      end
  end.
Proof. reflexivity. Qed.

Lemma stringify_head v rest :
  exists c tail,
    stringify v +:+ rest = String c tail /\
    is_ws c = false /\ (N_of_ascii c =? 93)%N = false.
Proof.
  destruct v as [| [] | z | s | items | props].
  - exists "n"%char, ("ull" +:+ rest). repeat split.
  - exists "t"%char, ("rue" +:+ rest). repeat split.
  - exists "f"%char, ("alse" +:+ rest). repeat split.
  - destruct (Z_lt_le_dec z 0) as [Hneg | Hpos].
    + destruct z as [| p | p]; try lia.
      exists "-"%char, (pretty (N.pos p) +:+ rest). repeat split.
    + destruct (pretty_Z_head_nonneg z rest Hpos) as (d & tail & Hd & Hh).
      exists (pretty_N_char d), tail.
      destruct (digit_char_facts d Hd) as (Hws & _ & _ & _ & _ & _ & _ & H93 & _).
      repeat split; assumption.
  - exists dquote, (escape s +:+ String dquote rest).
    split; [apply quote_app | split; reflexivity].
  - exists "["%char, (elems_text items +:+ rest). repeat split.
  - exists "{"%char, (members_text props +:+ rest). repeat split.
Qed.

Lemma elems_read_back items :
  items <> [] ->
  Forall reads_back items ->
  forall n rest,
    (weight_elems items <= n)%nat ->
    parse_elems n (elems_text items +:+ rest) = Some (items, rest).
Proof.
  induction items as [| x l IH]; [contradiction |].
  intros _ HF n rest Hn.
  apply Forall_cons in HF as [Hx Hl].
  cbn [weight_elems] in Hn.
  destruct n as [| n']; [lia |].
  rewrite pe_step. cbn [elems_text]. rewrite app_assoc'.
  destruct l as [| y l'].
  - change ("]" +:+ rest) with (String "]" rest).
    rewrite (Hx n' (String "]" rest)); [| split; reflexivity | lia].
    reflexivity.
  - rewrite app_assoc'.
    change ("," +:+ elems_text (y :: l') +:+ rest)
      with (String "," (elems_text (y :: l') +:+ rest)).
    rewrite (Hx n' (String "," (elems_text (y :: l') +:+ rest)));
      [| split; reflexivity | lia].
    rewrite skip_ws_head by reflexivity.
    change (N_of_ascii "," =? 44)%N with true. cbv iota.
    rewrite (IH ltac:(discriminate) Hl n' rest) by lia.
    reflexivity.
Qed.

Lemma members_read_back props :
  props <> [] ->
  Forall (fun kv => reads_back kv.2) props ->
  forall n rest,
    (weight_members props <= n)%nat ->
    parse_members n (members_text props +:+ rest) = Some (props, rest).
Proof.
  induction props as [| [k x] l IH]; [contradiction |].
  intros _ HF n rest Hn.
  apply Forall_cons in HF as [Hx Hl]. cbn [snd] in Hx.
  cbn [weight_members] in Hn.
  destruct n as [| n']; [lia |].
  cbn [members_text]. rewrite !app_assoc', quote_app, pm_step, parse_chars_escape.
  change (":" +:+ ?t) with (String ":" t).
  rewrite skip_ws_head by reflexivity.
  change (negb (N_of_ascii ":" =? 58)%N) with false. cbv iota.
  destruct l as [| y l'].
  - change ("}" +:+ rest) with (String "}" rest).
    rewrite (Hx n' (String "}" rest)); [| split; reflexivity | lia].
    reflexivity.
  - rewrite app_assoc'.
    change ("," +:+ members_text (y :: l') +:+ rest)
      with (String "," (members_text (y :: l') +:+ rest)).
    rewrite (Hx n' (String "," (members_text (y :: l') +:+ rest)));
      [| split; reflexivity | lia].
    rewrite skip_ws_head by reflexivity.
    change (N_of_ascii "," =? 44)%N with true. cbv iota.
    rewrite (IH ltac:(discriminate) Hl n' rest) by lia.
    reflexivity.
Qed.

(** Parsing the text of a value, followed by anything that does not extend
    a number, yields the value and what follows. *)
Lemma parse_value_stringify v : reads_back v.
Proof.
  induction v as [| b | z | s | items HF | props HF] using json_nested_ind;
    intros n rest Hok Hn; (destruct n as [| n']; [simpl in Hn; lia |]).
  - apply pv_null.
  - destruct b; [apply pv_true | apply pv_false].
  - cbn [stringify].
    destruct (Z_lt_le_dec z 0) as [Hneg | Hpos].
    + destruct z as [| p | p]; try lia.
      pose proof (parse_number_pretty (Z.neg p) rest Hok) as Hnum.
      change (pretty (Z.neg p) +:+ rest)
        with (String "-" (pretty (N.pos p) +:+ rest)) in Hnum |- *.
      rewrite pv_minus, Hnum. reflexivity.
    + pose proof (parse_number_pretty z rest Hok) as Hnum.
      destruct (pretty_Z_head_nonneg z rest Hpos) as (d & tail & Hd & Hh).
      rewrite Hh in Hnum |- *. rewrite pv_digit by exact Hd.
      rewrite Hnum. reflexivity.
  - cbn [stringify]. rewrite quote_app, pv_str, parse_chars_escape. reflexivity.
  - rewrite stringify_arr.
    change ("[" +:+ elems_text items) with (String "[" (elems_text items)).
    change (String "[" (elems_text items) +:+ rest)
      with (String "[" (elems_text items +:+ rest)).
    rewrite pv_arr. rewrite weight_arr in Hn.
    destruct items as [| x l].
    + reflexivity.
    + cbn [elems_text]. rewrite app_assoc'.
      destruct (stringify_head x
                  (match l with [] => "]" | _ :: _ => "," +:+ elems_text l end +:+ rest))
        as (c & tail & Hh & Hws & H93).
      rewrite Hh, (skip_ws_head _ _ Hws), H93, <- Hh, <- app_assoc'.
      change (stringify x +:+ match l with [] => "]" | _ :: _ => "," +:+ elems_text l end)
        with (elems_text (x :: l)).
      rewrite (elems_read_back (x :: l) ltac:(discriminate) HF n' rest) by lia.
      reflexivity.
  - rewrite stringify_obj.
    change ("{" +:+ members_text props) with (String "{" (members_text props)).
    change (String "{" (members_text props) +:+ rest)
      with (String "{" (members_text props +:+ rest)).
    rewrite pv_obj. rewrite weight_obj in Hn.
    destruct props as [| [k x] l].
    + reflexivity.
    + pose proof (members_read_back ((k, x) :: l) ltac:(discriminate) HF n' rest
                    ltac:(lia)) as Hm.
      cbn [members_text] in Hm |- *.
      rewrite !app_assoc', quote_app in Hm |- *.
      rewrite skip_ws_head by reflexivity.
      change (N_of_ascii dquote =? 125)%N with false. cbv iota.
      rewrite Hm. reflexivity.
Qed.

Lemma weight_le_length v : (weight v <= String.length (stringify v))%nat.
Proof.
  induction v as [| b | z | s | items HF | props HF] using json_nested_ind.
  - simpl. lia.
  - destruct b; simpl; lia.
  - cbn [weight stringify].
    destruct (stringify_head (JNum z) EmptyString) as (c & tail & Hh & _).
    assert (Hnil : forall t, t +:+ EmptyString = t).
    { induction t as [| a t IHt]; [reflexivity |].
      change (String a t +:+ EmptyString) with (String a (t +:+ EmptyString)).
      rewrite IHt. reflexivity. }
    cbn [stringify] in Hh. rewrite Hnil in Hh. rewrite Hh. simpl. lia.
  - cbn [weight stringify]. unfold quote. simpl. lia.
  - rewrite weight_arr, stringify_arr.
    change ("[" +:+ elems_text items) with (String "[" (elems_text items)).
    cbn [String.length]. apply le_n_S.
    induction HF as [| x l Hx HF IH]; [simpl; lia |].
    cbn [weight_elems elems_text]. rewrite length_app.
    destruct l as [| y l'].
    + simpl. lia.
    + change ("," +:+ elems_text (y :: l')) with (String "," (elems_text (y :: l'))).
      cbn [String.length]. lia.
  - rewrite weight_obj, stringify_obj.
    change ("{" +:+ members_text props) with (String "{" (members_text props)).
    cbn [String.length]. apply le_n_S.
    induction HF as [| [k x] l Hx HF IH]; [simpl; lia |].
    cbn [weight_members members_text]. rewrite !length_app.
    cbn [snd] in Hx.
    destruct l as [| y l'].
    + simpl. lia.
    + change ("," +:+ members_text (y :: l')) with (String "," (members_text (y :: l'))).
      cbn [String.length]. lia.
Qed.

(** [JSON.parse(JSON.stringify(v))] is [v]. *)
Theorem parse_stringify v : parse (stringify v) = Some v.
Proof.
  unfold parse.
  assert (Hnil : forall t, t +:+ EmptyString = t).
  { induction t as [| a t IHt]; [reflexivity |].
    change (String a t +:+ EmptyString) with (String a (t +:+ EmptyString)).
    rewrite IHt. reflexivity. }
  pose proof (parse_value_stringify v (S (String.length (stringify v))) EmptyString) as H.
  rewrite Hnil in H. rewrite H; [reflexivity | split; reflexivity |].
  pose proof (weight_le_length v). lia.
Qed.

End JsonText.

(** ** The binder *)

Lemma bind_value_inr n acc v l :
  bind_value n acc v = inr l ->
  exists b, scalar v = Some b /\ l = (acc ++ [b])%list /\ (length acc < n)%nat.
Proof.
  unfold bind_value. destruct (scalar v) as [b |]; [| discriminate].
  destruct (Nat.ltb_spec (length acc) n); [| discriminate].
  intros [= <-]. exists b. auto.
Qed.

Lemma bind_items_inr n items :
  forall acc l,
    bind_items n acc items = inr l ->
    exists bs,
      mapM scalar items = Some bs /\ l = (acc ++ bs)%list /\
      (bs = [] \/ (length l <= n)%nat).
Proof.
  induction items as [| v rest IH]; intros acc l; cbn [bind_items].
  - intros [= <-]. exists []. rewrite app_nil_r. auto.
  - destruct (bind_value n acc v) as [err | acc'] eqn:Hv; [discriminate |].
    apply bind_value_inr in Hv as (b & Hb & -> & Hlen).
    intros Hrest. apply IH in Hrest as (bs & Hbs & -> & Hn).
    exists (b :: bs). cbn. rewrite Hb. cbn. rewrite Hbs. cbn.
    rewrite <- app_assoc in *.
    split; [reflexivity |]. split; [reflexivity |].
    right. destruct Hn as [-> | Hn]; [| exact Hn].
    rewrite !length_app. cbn. lia.
Qed.

Lemma bind_args_inr n args :
  forall named acc l,
    bind_args n named acc args = inr l ->
    exists bss,
      mapM supplied args = Some bss /\ l = (acc ++ concat bss)%list /\
      (n <= length l)%nat /\ (concat bss = [] \/ (length l <= n)%nat).
Proof.
  induction args as [| v rest IH]; intros named acc l; cbn [bind_args].
  - destruct (Nat.ltb_spec (length acc) n); [discriminate |].
    intros [= <-]. exists []. cbn. rewrite app_nil_r. auto.
  - assert (Hscalar :
      match bind_value n acc v with
      | inl err => inl err
      | inr acc' => bind_args n named acc' rest
      end = inr l ->
      exists bss,
        mapM supplied (v :: rest) = Some bss /\ l = (acc ++ concat bss)%list /\
        (n <= length l)%nat /\ (concat bss = [] \/ (length l <= n)%nat)).
    { destruct (bind_value n acc v) as [err | acc'] eqn:Hv; [discriminate |].
      apply bind_value_inr in Hv as (b & Hb & -> & Hlen).
      intros Hrest. apply IH in Hrest as (bss & Hbss & -> & Hge & Hle).
      assert (Hsup : supplied v = Some [b]).
      { destruct v; cbn in Hb |- *; try discriminate; injection Hb as <-; reflexivity. }
      exists ([b] :: bss). cbn [mapM]. rewrite Hsup. cbn. rewrite Hbss. cbn.
      rewrite <- app_assoc in *.
      split; [reflexivity |]. split; [reflexivity |].
      split; [exact Hge |]. right. destruct Hle as [Hnil | Hle]; [| exact Hle].
      rewrite Hnil, !length_app in *. cbn. lia. }
    destruct v as [| b0 | z | s | items | props]; try exact Hscalar.
    + destruct (bind_items n acc items) as [err | acc'] eqn:Hi; [discriminate |].
      apply bind_items_inr in Hi as (bs & Hbs & -> & Hn).
      intros Hrest. apply IH in Hrest as (bss & Hbss & -> & Hge & Hle).
      exists (bs :: bss). cbn [mapM supplied]. rewrite Hbs. cbn. rewrite Hbss. cbn.
      rewrite <- app_assoc in *.
      split; [reflexivity |]. split; [reflexivity |].
      split; [exact Hge |].
      destruct Hle as [Hnil | Hle]; [| right; exact Hle].
      rewrite Hnil, app_nil_r in *.
      destruct Hn as [-> | Hn]; [left; reflexivity | right; exact Hn].
    + destruct named; [discriminate |].
      intros Hrest. apply IH in Hrest as (bss & Hbss & -> & Hge & Hle).
      exists ([] :: bss). cbn [mapM supplied]. cbn. rewrite Hbss. cbn.
      repeat split; assumption.
Qed.

(** What [bind] yields: the values the arguments supply, in order, one for
    each parameter. *)
Lemma bind_inr n args l :
  bind n args = inr l ->
  exists bss, mapM supplied args = Some bss /\ l = concat bss /\ length l = n.
Proof.
  intros H. apply bind_args_inr in H as (bss & Hbss & Hl & Hge & Hle).
  cbn in Hl. exists bss. split; [exact Hbss |]. split; [exact Hl |].
  destruct Hle as [Hnil | Hle]; [| lia].
  rewrite Hnil in Hl. subst l. cbn in *. lia.
Qed.

Lemma supplied_single v b :
  supplied v = Some [b] ->
  scalar v = Some b \/ exists x, v = JArr [x] /\ scalar x = Some b.
Proof.
  destruct v as [| b0 | z | s | items | props]; cbn; intros H;
    try discriminate; try (injection H as <-; left; reflexivity).
  right. destruct items as [| x [| y rest]]; cbn in H; try discriminate.
  - destruct (scalar x) as [bx |] eqn:Hx; cbn in H; [| discriminate].
    injection H as <-. exists x. auto.
  - destruct (scalar x); cbn in H; [| discriminate].
    destruct (scalar y); cbn in H; [| discriminate].
    destruct (mapM scalar rest); cbn in H; discriminate.
Qed.

(** The six forms of an argument that supplies exactly one value. *)
Ltac single_cases H :=
  apply supplied_single in H as [H | (? & -> & H)];
  match type of H with
  | scalar ?v = Some _ =>
      destruct v; cbn in H; try discriminate; injection H as <-
  end.

(** Binding arguments whose forms are known. *)
Ltac bind_now :=
  cbn [nullish_or bind bind_args bind_items bind_value scalar length
       Nat.ltb Nat.leb app as_text mbind option_bind].

Lemma bind_one v l :
  bind 1 [v] = inr l -> exists b, supplied v = Some [b] /\ l = [b].
Proof.
  intros H. apply bind_inr in H as (bss & Hbss & -> & Hlen).
  cbn in Hbss. destruct (supplied v) as [bs |]; cbn in Hbss; [| discriminate].
  injection Hbss as <-. cbn in Hlen |- *. rewrite app_nil_r in *.
  destruct bs as [| b [| ? ?]]; cbn in Hlen; try lia. eauto.
Qed.


Lemma bind_with_hash v h l :
  bind 2 [v; JStr h] = inr l ->
  exists b, supplied v = Some [b] /\ l = [b; BText h].
Proof.
  intros H. apply bind_inr in H as (bss & Hbss & -> & Hlen).
  cbn in Hbss. destruct (supplied v) as [bs |]; cbn in Hbss; [| discriminate].
  injection Hbss as <-. cbn in Hlen |- *.
  rewrite length_app in Hlen. cbn in Hlen.
  destruct bs as [| b [| ? ?]]; cbn in Hlen; try lia. eauto.
Qed.

Lemma bind_with_hash_single v h b :
  supplied v = Some [b] -> bind 2 [v; JStr h] = inr [b; BText h].
Proof. intros H. single_cases H; reflexivity. Qed.

Lemma bind_workspace id nm u t l :
  bind 4 [id; nm; JNum u; JStr t] = inr l ->
  exists bs1 bs2 b1 b2,
    supplied id = Some bs1 /\ supplied nm = Some bs2 /\
    (bs1 ++ bs2 = [b1; b2])%list /\ l = [b1; b2; BReal u; BText t].
Proof.
  intros H. apply bind_inr in H as (bss & Hbss & -> & Hlen).
  cbn in Hbss.
  destruct (supplied id) as [bs1 |]; cbn in Hbss; [| discriminate].
  destruct (supplied nm) as [bs2 |]; cbn in Hbss; [| discriminate].
  injection Hbss as <-. cbn in Hlen |- *.
  rewrite app_assoc in Hlen |- *. rewrite length_app in Hlen. cbn in Hlen.
  destruct (bs1 ++ bs2)%list as [| b1 [| b2 [| ? ?]]] eqn:Hbs; cbn in Hlen; try lia.
  exists bs1, bs2, b1, b2. auto.
Qed.

Lemma bind_workspace_single id nm u t b1 b2 :
  supplied id = Some [b1] -> supplied nm = Some [b2] ->
  bind 4 [id; nm; JNum u; JStr t] = inr [b1; b2; BReal u; BText t].
Proof. intros H1 H2. single_cases H1; single_cases H2; reflexivity. Qed.

Lemma bind_member u id o l :
  bind 3 [JNum u; id; JStr o] = inr l ->
  exists b, supplied id = Some [b] /\ l = [BReal u; b; BText o].
Proof.
  intros H. apply bind_inr in H as (bss & Hbss & -> & Hlen).
  cbn in Hbss. destruct (supplied id) as [bs |]; cbn in Hbss; [| discriminate].
  injection Hbss as <-. cbn in Hlen |- *.
  rewrite length_app in Hlen. cbn in Hlen.
  destruct bs as [| b [| ? ?]]; cbn in Hlen; try lia. eauto.
Qed.

Lemma bind_member_single u id o b :
  supplied id = Some [b] -> bind 3 [JNum u; id; JStr o] = inr [BReal u; b; BText o].
Proof. intros H. single_cases H; reflexivity. Qed.

Lemma bind_update nm d bd now pid l :
  scalar d = Some bd ->
  bind 4 [nm; d; JStr now; JStr pid] = inr l ->
  exists b, supplied nm = Some [b] /\ l = [b; bd; BText now; BText pid].
Proof.
  intros Hd H. apply bind_inr in H as (bss & Hbss & -> & Hlen).
  assert (Hsd : supplied d = Some [bd]).
  { destruct d; cbn in Hd |- *; try discriminate; injection Hd as <-; reflexivity. }
  cbn in Hbss. rewrite Hsd in Hbss.
  destruct (supplied nm) as [bs |]; cbn in Hbss; [| discriminate].
  injection Hbss as <-. cbn in Hlen |- *.
  rewrite length_app in Hlen. cbn in Hlen.
  destruct bs as [| b [| ? ?]]; cbn in Hlen; try lia. eauto.
Qed.

Lemma bind_update_single nm d bd now pid b :
  scalar d = Some bd -> supplied nm = Some [b] ->
  bind 4 [nm; d; JStr now; JStr pid] = inr [b; bd; BText now; BText pid].
Proof.
  intros Hd H. single_cases H; destruct d; cbn in Hd; try discriminate;
    injection Hd as <-; reflexivity.
Qed.

(** ** Integrity facts *)

Lemma andb_true_both (a b : bool) : a && b = true -> a = true /\ b = true.
Proof. destruct a, b; simpl; intros H; try discriminate; split; reflexivity. Qed.

Lemma member_has_rows d uid wid role :
  db_consistent d = true ->
  workspace_members d !! (uid, wid) = Some role ->
  is_Some (users d !! uid) /\ is_Some (workspaces d !! wid).
Proof.
  intros Hc Hm. apply andb_true_both in Hc as [Hc _].
  apply andb_true_both in Hc as [Hmem _].
  rewrite forallb_forall in Hmem.
  specialize (Hmem (uid, wid, role)).
  assert (Hin : In (uid, wid, role) (map_to_list (workspace_members d))).
  { apply list_elem_of_In, elem_of_map_to_list. exact Hm. }
  apply Hmem, andb_true_both in Hin as [H1 H2]. simpl in H1, H2.
  split; [exact (bool_decide_eq_true_1 _ H1) | exact (bool_decide_eq_true_1 _ H2)].
Qed.

Lemma workspace_has_owner_and_json d wid w :
  db_consistent d = true ->
  workspaces d !! wid = Some w ->
  is_Some (users d !! owner_id w) /\ is_Some (JSON.parse (diagram_json w)).
Proof.
  intros Hc Hw. apply andb_true_both in Hc as [Hc _].
  apply andb_true_both in Hc as [_ Hws].
  rewrite forallb_forall in Hws.
  specialize (Hws (wid, w)).
  assert (Hin : In (wid, w) (map_to_list (workspaces d))).
  { apply list_elem_of_In, elem_of_map_to_list. exact Hw. }
  apply Hws, andb_true_both in Hin as [H1 H2]. simpl in H1, H2.
  split; [exact (bool_decide_eq_true_1 _ H1) | exact (bool_decide_eq_true_1 _ H2)].
Qed.

Lemma null_row_has_owner_and_json d w :
  db_consistent d = true ->
  w ∈ workspaces_null d ->
  is_Some (users d !! owner_id w) /\ is_Some (JSON.parse (diagram_json w)).
Proof.
  intros Hc Hw. apply andb_true_both in Hc as [_ Hws].
  rewrite forallb_forall in Hws.
  apply list_elem_of_In, Hws, andb_true_both in Hw as [H1 H2]. simpl in H1, H2.
  split; [exact (bool_decide_eq_true_1 _ H1) | exact (bool_decide_eq_true_1 _ H2)].
Qed.

Lemma run_calm {A} e k (stmt : error + A) : calm e -> run e k stmt = stmt.
Proof. intros Hc. unfold run. rewrite (Hc k). reflexivity. Qed.

(** ** Reading one workspace *)

(** C1. [GET /api/workspaces/:id] answers 200 with the workspace exactly when
    the caller holds a membership row for it; without one the reply is the
    same 404 [Not found] whether or not the workspace exists. *)
Theorem get_workspace_iff_member e st req :
  calm e ->
  db_consistent (db st) = true ->
  requireAuth req = true ->
  let r := get_api_workspaces_id e st req in
  let uid := session_uid req in
  let wid := params_id req in
  (is_Some (workspace_members (db st) !! (uid, wid)) <->
   exists w diagram,
     workspaces (db st) !! wid = Some w /\
     JSON.parse (diagram_json w) = Some diagram /\
     response r =
       Responded 200
         (JObj [("id", JStr wid); ("name", JStr (name w));
                ("diagram", diagram); ("updatedAt", JStr (updated_at w))])) /\
  (workspace_members (db st) !! (uid, wid) = None ->
   r = respond st req 404 (error_body "Not found")) /\
  state r = st.
Proof.
  intros Hcalm Hc Hauth r uid wid. subst r.
  unfold get_api_workspaces_id. rewrite Hauth. simpl negb. cbv iota.
  rewrite run_calm by assumption.
  unfold select_workspace_of_member. fold uid wid.
  destruct (workspace_members (db st) !! (uid, wid)) as [role|] eqn:Hm.
  - destruct (member_has_rows _ _ _ _ Hc Hm) as [_ [w Hw]].
    rewrite Hw.
    destruct (workspace_has_owner_and_json _ _ _ Hc Hw) as [_ [dg Hdg]].
    rewrite Hdg. split; [| split].
    + split; [intros _ | intros _; eauto].
      exists w, dg. repeat split; reflexivity || assumption.
    + discriminate.
    + reflexivity.
  - split; [| split].
    + split; [intros [? ?]; discriminate |].
      intros (w & dg & Hw & Hdg & Hr). rewrite Hw in Hr. discriminate.
    + intros _. destruct (workspaces (db st) !! wid); reflexivity.
    + destruct (workspaces (db st) !! wid); reflexivity.
Qed.

Lemma get_workspace_iff_member_witness :
  calm Sample.noon /\
  db_consistent (db Sample.live) = true /\
  requireAuth (Sample.request_of 1 "w1" JNull) = true /\
  (workspace_members (db Sample.live) !! (2, "w1") = None ->
   get_api_workspaces_id Sample.noon Sample.live (Sample.request_of 2 "w1" JNull) =
   respond Sample.live (Sample.request_of 2 "w1" JNull) 404 (error_body "Not found")) /\
  (workspace_members (db Sample.live) !! (2, "zz") = None ->
   get_api_workspaces_id Sample.noon Sample.live (Sample.request_of 2 "zz" JNull) =
   respond Sample.live (Sample.request_of 2 "zz" JNull) 404 (error_body "Not found")) /\
  state (get_api_workspaces_id Sample.noon Sample.live
           (Sample.request_of 1 "w1" JNull)) = Sample.live.
Proof.
  assert (Hcalm : calm Sample.noon) by (intros k; reflexivity).
  assert (Hdb : db_consistent (db Sample.live) = true) by (vm_compute; reflexivity).
  assert (Hauth : forall u w, u <> 0 -> requireAuth (Sample.request_of u w JNull) = true).
  { intros u w Hu. unfold requireAuth. simpl.
    destruct (Z.eqb_spec u 0); [contradiction | reflexivity]. }
  split; [exact Hcalm |]. split; [exact Hdb |].
  split; [apply Hauth; lia |].
  split; [| split].
  - exact (proj1 (proj2 (get_workspace_iff_member Sample.noon Sample.live
                           (Sample.request_of 2 "w1" JNull) Hcalm Hdb
                           (Hauth 2 "w1" ltac:(lia))))).
  - exact (proj1 (proj2 (get_workspace_iff_member Sample.noon Sample.live
                           (Sample.request_of 2 "zz" JNull) Hcalm Hdb
                           (Hauth 2 "zz" ltac:(lia))))).
  - exact (proj2 (proj2 (get_workspace_iff_member Sample.noon Sample.live
                           (Sample.request_of 1 "w1" JNull) Hcalm Hdb
                           (Hauth 1 "w1" ltac:(lia))))).
Defined.

(** ** Creating a workspace *)

(** C2. The two [INSERT]s of [POST /api/workspaces] are not one atomic unit:
    when the second one fails, the handler answers 500
    [Failed to create workspace] although the workspace row stays, without any
    membership; a retry is then refused with 409 and the creator cannot read
    the workspace. *)
Theorem create_can_leave_workspace_without_owner :
  let req := Sample.request_of 2 EmptyString
               (JObj [("id", JStr "w2"); ("name", JStr "Plans")]) in
  let r := post_api_workspaces Sample.second_fails Sample.live req in
  response r = Responded 500 (error_body "Failed to create workspace") /\
  (exists w, workspaces (db (state r)) !! "w2" = Some w /\ owner_id w = 2) /\
  workspace_members (db (state r)) !! (2, "w2") = None /\
  response (post_api_workspaces Sample.noon (state r) req) =
    Responded 409 (error_body "Workspace already exists") /\
  response (get_api_workspaces_id Sample.noon (state r)
              (Sample.request_of 2 "w2" JNull)) =
    Responded 404 (error_body "Not found").
Proof.
  vm_compute. repeat split. eexists. split; reflexivity.
Qed.

(** ** Fan-out of events *)

Lemma received_fmap (f : socket -> delivery) (l : list socket) (s : socket) :
  (forall x, dest (f x) = x) ->
  NoDup l ->
  received s (f <$> l) = if decide (s ∈ l) then [f s] else [].
Proof.
  intros Hf Hnd. unfold received.
  induction Hnd as [| x l Hx Hnd IH].
  - reflexivity.
  - rewrite fmap_cons, filter_cons, Hf, IH.
    destruct (decide (x = s)) as [-> | Hne].
    + destruct (decide (s ∈ l)) as [Hin | _]; [contradiction |].
      destruct (decide (s ∈ s :: l)) as [_ | Hn]; [reflexivity |].
      exfalso. apply Hn. left.
    + destruct (decide (s ∈ l)) as [Hin | Hnin].
      * destruct (decide (s ∈ x :: l)) as [_ | Hn]; [reflexivity |].
        exfalso. apply Hn. right. exact Hin.
      * destruct (decide (s ∈ x :: l)) as [Hin' | _]; [| reflexivity].
        apply elem_of_cons in Hin' as [-> | Hin']; contradiction.
Qed.

Lemma received_io_to_emit rs room ev payload s :
  received s (io_to_emit rs room ev payload) =
  if decide (s ∈ members_of rs room)
  then [{| dest := s; event := ev; data := payload |}] else [].
Proof.
  unfold io_to_emit.
  rewrite received_fmap; [| reflexivity | apply NoDup_elements].
  destruct (decide (s ∈ elements (members_of rs room))) as [Hin | Hnin];
    destruct (decide (s ∈ members_of rs room)) as [Hin' | Hnin'];
    try reflexivity.
  - apply elem_of_elements in Hin. contradiction.
  - exfalso. apply Hnin. apply elem_of_elements. exact Hin'.
Qed.

Lemma received_socket_to_emit rs sender room ev payload s :
  received s (socket_to_emit rs sender room ev payload) =
  if decide (s ∈ members_of rs room /\ s <> sender)
  then [{| dest := s; event := ev; data := payload |}] else [].
Proof.
  unfold socket_to_emit.
  rewrite received_fmap; [| reflexivity | apply NoDup_elements].
  destruct (decide (s ∈ elements (members_of rs room ∖ {[sender]}))) as [Hin | Hnin];
    destruct (decide (s ∈ members_of rs room /\ s <> sender)) as [Hin' | Hnin'];
    try reflexivity.
  - exfalso. apply Hnin'. apply elem_of_elements in Hin. set_solver.
  - exfalso. apply Hnin. apply elem_of_elements. set_solver.
Qed.

Lemma update_event_fields id nm diagram now :
  prop "id" (update_event id nm diagram now) = Some (JStr id) /\
  prop "name" (update_event id nm diagram now) = nm /\
  prop "diagram" (update_event id nm diagram now) = diagram /\
  prop "updatedAt" (update_event id nm diagram now) = Some (JStr now).
Proof. destruct nm, diagram; repeat split; reflexivity. Qed.

(** What a successful [PUT] is, read off the handler: the caller is a member,
    the name supplies one value, both statements ran. *)
Lemma put_success e st req payload :
  response (put_api_workspaces_id e st req) = Responded 200 payload ->
  let b := body_or_empty (body req) in
  let nm := prop "name" b in
  let diagram := prop "diagram" b in
  exists w bname,
    select_workspace_of_member (db st) (params_id req) (session_uid req) = Some w /\
    supplied (nullish_or nm JNull) = Some [bname] /\
    put_api_workspaces_id e st req =
      {| state :=
           with_db st
             (update_workspace bname
                (if truthy diagram
                 then BText (JSON.stringify (nullish_or diagram JNull))
                 else BNull)
                (now_iso e) (params_id req) (db st));
         cookie := session_userId req;
         response :=
           Responded 200 (JObj [("ok", JBool true); ("updatedAt", JStr (now_iso e))]);
         emitted :=
           io_to_emit (rooms st) (room_of (params_id req)) "workspace:update"
             (update_event (params_id req) nm diagram (now_iso e)) |}.
Proof.
  intros H b nm diagram. revert H.
  unfold put_api_workspaces_id.
  destruct (requireAuth req); simpl negb; cbv iota; [| discriminate].
  fold b. fold nm. fold diagram.
  unfold run.
  destruct (fault e 0); [discriminate |].
  destruct (select_workspace_of_member (db st) (params_id req) (session_uid req))
    as [w |]; [| discriminate].
  destruct (bind 4 _) as [err | l] eqn:Hb; [discriminate |].
  apply (bind_update _ _
           (if truthy diagram
            then BText (JSON.stringify (nullish_or diagram JNull)) else BNull))
    in Hb as (bname & Hname & ->); [| destruct (truthy diagram); reflexivity].
  destruct (fault e 1); [discriminate |].
  intros _. exists w, bname.
  split; [reflexivity |]. split; [exact Hname | reflexivity].
Qed.

(** C3. After a successful [PUT /api/workspaces/:id], every connection joined
    to the workspace's room, whoever caused the update, receives exactly one
    [workspace:update] event, and it carries the [updatedAt] value of the
    HTTP response. *)
Theorem persisted_update_reaches_room e st req payload :
  response (put_api_workspaces_id e st req) = Responded 200 payload ->
  forall s,
    s ∈ members_of (rooms st) (room_of (params_id req)) ->
    exists ev,
      received s (emitted (put_api_workspaces_id e st req)) = [ev] /\
      event ev = "workspace:update" /\
      prop "id" (data ev) = Some (JStr (params_id req)) /\
      is_Some (prop "updatedAt" payload) /\
      prop "updatedAt" (data ev) = prop "updatedAt" payload.
Proof.
  intros Hok s Hs.
  destruct (put_success e st req payload Hok) as (w & bname & _ & _ & Heq).
  rewrite Heq in Hok. simpl in Hok. injection Hok as <-.
  rewrite Heq. cbn [emitted].
  rewrite received_io_to_emit.
  destruct (decide (s ∈ members_of (rooms st) (room_of (params_id req))));
    [| contradiction].
  eexists. split; [reflexivity |]. cbn [event data].
  destruct (update_event_fields (params_id req)
              (prop "name" (body_or_empty (body req)))
              (prop "diagram" (body_or_empty (body req))) (now_iso e))
    as (Hid & _ & _ & Hat).
  split; [reflexivity |]. split; [exact Hid |].
  split; [eexists; reflexivity |].
  rewrite Hat. reflexivity.
Qed.

Lemma persisted_update_reaches_room_witness :
  let req := Sample.request_of 1 "w1" (JObj [("name", JStr "Store")]) in
  let payload := JObj [("ok", JBool true); ("updatedAt", JStr "2025-06-02T12:00:00.000Z")] in
  response (put_api_workspaces_id Sample.noon Sample.live req) = Responded 200 payload /\
  "sockA" ∈ members_of (rooms Sample.live) (room_of (params_id req)) /\
  exists ev,
    received "sockA" (emitted (put_api_workspaces_id Sample.noon Sample.live req)) = [ev] /\
    event ev = "workspace:update" /\
    prop "id" (data ev) = Some (JStr "w1") /\
    is_Some (prop "updatedAt" payload) /\
    prop "updatedAt" (data ev) = prop "updatedAt" payload.
Proof.
  intros req payload.
  assert (Hok : response (put_api_workspaces_id Sample.noon Sample.live req) =
                Responded 200 payload) by (vm_compute; reflexivity).
  assert (Hin : "sockA" ∈ members_of (rooms Sample.live) (room_of (params_id req))).
  { apply (bool_decide_unpack _). vm_compute. exact I. }
  split; [exact Hok |]. split; [exact Hin |].
  exact (persisted_update_reaches_room Sample.noon Sample.live req payload Hok
           "sockA" Hin).
Defined.


(** ** Updating a workspace *)

Lemma member_select d wid uid w :
  select_workspace_of_member d wid uid = Some w ->
  workspaces d !! wid = Some w /\ is_Some (workspace_members d !! (uid, wid)).
Proof.
  unfold select_workspace_of_member.
  destruct (workspaces d !! wid) as [w0 |]; [| discriminate].
  destruct (workspace_members d !! (uid, wid)) as [role |]; [| discriminate].
  intros [= <-]. split; [reflexivity | eexists; reflexivity].
Qed.

Lemma update_workspace_lookup nm diagram now wid d w other :
  workspaces d !! wid = Some w ->
  workspaces (update_workspace nm diagram now wid d) !! other =
  if decide (wid = other)
  then Some {| name := coalesce nm (name w); owner_id := owner_id w;
               diagram_json := coalesce diagram (diagram_json w);
               created_at := created_at w; updated_at := now |}
  else workspaces d !! other.
Proof.
  intros Hw. unfold update_workspace. rewrite Hw. cbn [workspaces].
  rewrite lookup_insert. reflexivity.
Qed.

Lemma update_workspace_frame nm diagram now wid d :
  users (update_workspace nm diagram now wid d) = users d /\
  users_seq (update_workspace nm diagram now wid d) = users_seq d /\
  workspace_members (update_workspace nm diagram now wid d) = workspace_members d.
Proof.
  unfold update_workspace. destruct (workspaces d !! wid); repeat split; reflexivity.
Qed.

Lemma update_workspace_null nm diagram now wid d :
  workspaces_null (update_workspace nm diagram now wid d) = workspaces_null d.
Proof. unfold update_workspace. destruct (workspaces d !! wid); reflexivity. Qed.

(** C4, as stated, fails: nothing in the handler compares the clock with the
    stored value, so a clock that was set back yields an [updatedAt] below
    the stored one. *)
Lemma updated_at_can_go_back :
  ~ (forall e st req w t,
       select_workspace_of_member (db st) (params_id req) (session_uid req) = Some w ->
       response (put_api_workspaces_id e st req) =
         Responded 200 (JObj [("ok", JBool true); ("updatedAt", JStr t)]) ->
       (updated_at w ≤ t)%string).
Proof.
  intros H.
  specialize (H Sample.set_back Sample.live
                (Sample.request_of 1 "w1" (JObj [("name", JStr "Store")]))
                Sample.shop "2025-05-31T23:59:59.000Z").
  assert (Hsel : select_workspace_of_member (db Sample.live) "w1" 1 = Some Sample.shop)
    by (vm_compute; reflexivity).
  specialize (H Hsel). clear Hsel.
  assert (Hle : ~ (updated_at Sample.shop ≤ "2025-05-31T23:59:59.000Z")%string)
    by (vm_compute; exact (fun x => x)).
  apply Hle, H. vm_compute. reflexivity.
Qed.

(** C4, amended. A successful [PUT] stores and returns the server's clock
    reading [new Date().toISOString()], whatever the request body holds; the
    result is not below the stored value whenever that reading is not. *)
Theorem update_stamps_server_clock e st req payload :
  response (put_api_workspaces_id e st req) = Responded 200 payload ->
  exists w w',
    workspaces (db st) !! params_id req = Some w /\
    workspaces (db (state (put_api_workspaces_id e st req))) !! params_id req = Some w' /\
    updated_at w' = now_iso e /\
    payload = JObj [("ok", JBool true); ("updatedAt", JStr (now_iso e))] /\
    ((updated_at w ≤ now_iso e)%string -> (updated_at w ≤ updated_at w')%string).
Proof.
  intros Hok.
  destruct (put_success e st req payload Hok) as (w & bname & Hsel & _ & Heq).
  apply member_select in Hsel as [Hw _].
  rewrite Heq in Hok. cbn [response] in Hok. injection Hok as <-.
  rewrite Heq. cbn [state with_db db].
  eexists w, _. split; [exact Hw |]. split.
  - rewrite (update_workspace_lookup _ _ _ _ _ _ _ Hw).
    destruct (decide (params_id req = params_id req)); [reflexivity | contradiction].
  - cbn [updated_at]. repeat split. intros H; exact H.
Qed.

Lemma update_stamps_server_clock_witness :
  let req := Sample.request_of 1 "w1"
               (JObj [("name", JStr "Store"); ("updatedAt", JStr "1999-01-01T00:00:00.000Z")]) in
  let payload := JObj [("ok", JBool true); ("updatedAt", JStr "2025-06-02T12:00:00.000Z")] in
  response (put_api_workspaces_id Sample.noon Sample.live req) = Responded 200 payload /\
  exists w w',
    workspaces (db Sample.live) !! "w1" = Some w /\
    workspaces (db (state (put_api_workspaces_id Sample.noon Sample.live req))) !! "w1"
      = Some w' /\
    updated_at w' = "2025-06-02T12:00:00.000Z" /\
    payload = JObj [("ok", JBool true); ("updatedAt", JStr "2025-06-02T12:00:00.000Z")] /\
    ((updated_at w ≤ "2025-06-02T12:00:00.000Z")%string ->
     (updated_at w ≤ updated_at w')%string).
Proof.
  intros req payload.
  assert (Hok : response (put_api_workspaces_id Sample.noon Sample.live req) =
                Responded 200 payload) by (vm_compute; reflexivity).
  split; [exact Hok |].
  exact (update_stamps_server_clock Sample.noon Sample.live req payload Hok).
Defined.




(** ** Creating twice *)

Lemma truthy_nonempty s : s <> EmptyString -> truthy (Some (JStr s)) = true.
Proof.
  intros Hs. simpl. destruct (String.eqb_spec s ""); [contradiction | reflexivity].
Qed.

(** A successful [INSERT INTO workspaces] under an [id] that is not NULL. *)
Lemma insert_workspace_inr wid nm owner diagram now d d1 wid' :
  as_text wid = Some wid' ->
  insert_workspace wid nm owner diagram now d = inr d1 ->
  exists nm',
    as_text nm = Some nm' /\
    workspaces d !! wid' = None /\
    is_Some (users d !! owner) /\
    workspaces d1 =
      <[wid' := {| name := nm'; owner_id := owner; diagram_json := diagram;
                   created_at := now; updated_at := now |}]> (workspaces d) /\
    users d1 = users d /\ users_seq d1 = users_seq d /\
    workspace_members d1 = workspace_members d /\
    workspaces_null d1 = workspaces_null d.
Proof.
  intros Hwid. unfold insert_workspace. rewrite Hwid.
  destruct (as_text nm) as [nm' |]; [| discriminate].
  destruct (workspaces d !! wid'); [discriminate |].
  destruct (users d !! owner) as [u |] eqn:Hu; [| discriminate].
  intros [= <-]. exists nm'. repeat split. eexists; reflexivity.
Qed.

(** ... and under NULL: the row joins those without an [id]. *)
Lemma insert_workspace_null wid nm owner diagram now d d1 :
  as_text wid = None ->
  insert_workspace wid nm owner diagram now d = inr d1 ->
  exists nm',
    as_text nm = Some nm' /\
    is_Some (users d !! owner) /\
    workspaces d1 = workspaces d /\
    users d1 = users d /\ users_seq d1 = users_seq d /\
    workspace_members d1 = workspace_members d /\
    workspaces_null d1 =
      {| name := nm'; owner_id := owner; diagram_json := diagram;
         created_at := now; updated_at := now |} :: workspaces_null d.
Proof.
  intros Hwid. unfold insert_workspace. rewrite Hwid.
  destruct (as_text nm) as [nm' |]; [| discriminate].
  destruct (users d !! owner) as [u |] eqn:Hu; [| discriminate].
  intros [= <-]. exists nm'. repeat split. eexists; reflexivity.
Qed.

Lemma insert_member_inr uid wid role d d2 :
  insert_member uid wid role d = inr d2 ->
  exists wid',
    as_text wid = Some wid' /\
    workspace_members d !! (uid, wid') = None /\
    workspace_members d2 = <[(uid, wid') := role]> (workspace_members d) /\
    users d2 = users d /\ users_seq d2 = users_seq d /\
    workspaces d2 = workspaces d /\
    workspaces_null d2 = workspaces_null d.
Proof.
  unfold insert_member.
  destruct (as_text wid) as [wid' |]; [| discriminate].
  destruct (workspace_members d !! (uid, wid')) eqn:Hm; [discriminate |].
  destruct (users d !! uid); [| discriminate].
  destruct (workspaces d !! wid'); [| discriminate].
  intros [= <-]. exists wid'. repeat split. exact Hm.
Qed.

Lemma truthy_str_inv s : truthy (Some (JStr s)) = true -> s <> EmptyString.
Proof.
  simpl. intros H ->. discriminate.
Qed.

Lemma supplied_same v b b' : supplied v = Some [b] -> supplied v = Some [b'] -> b = b'.
Proof. congruence. Qed.

(** What a successful [POST /api/workspaces] is: [id] and [name] each
    supplied one value, the [id] not NULL, and both inserts ran. *)
Lemma post_success e st req payload :
  response (post_api_workspaces e st req) = Responded 200 payload ->
  let b := body_or_empty (body req) in
  exists bid bname wid d1 d2,
    supplied (nullish_or (prop "id" b) JNull) = Some [bid] /\
    supplied (nullish_or (prop "name" b) JNull) = Some [bname] /\
    as_text bid = Some wid /\
    insert_workspace bid bname (session_uid req)
      (JSON.stringify (nullish_or (prop "diagram" b) (JObj [])))
      (sql_datetime e) (db st) = inr d1 /\
    insert_member (session_uid req) bid "owner" d1 = inr d2 /\
    post_api_workspaces e st req =
      respond (with_db st d2) req 200
        (JObj (object [("id", prop "id" b); ("name", prop "name" b)])).
Proof.
  intros H b. revert H. unfold post_api_workspaces.
  destruct (requireAuth req); simpl negb; cbv iota; [| discriminate].
  fold b.
  destruct (negb (truthy (prop "id" b)) || negb (truthy (prop "name" b))) eqn:Ht;
    [discriminate |].
  destruct (bind 4 _) as [err | l] eqn:Hb1;
    [destruct (includes _ _); discriminate |].
  apply bind_workspace in Hb1 as (bs1 & bs2 & b1 & b2 & Hs1 & Hs2 & Hbs & ->).
  unfold run.
  destruct (fault e 0);
    [destruct (includes _ _); discriminate |].
  destruct (insert_workspace b1 b2 _ _ _ (db st)) as [err | d1] eqn:H1;
    [destruct (includes _ _); discriminate |].
  destruct (bind 3 _) as [err | l] eqn:Hb2;
    [destruct (includes _ _); discriminate |].
  apply bind_member in Hb2 as (bid & Hsid & ->).
  rewrite Hsid in Hs1. injection Hs1 as <-.
  destruct bs2 as [| bname [| ? ?]]; try discriminate. injection Hbs as <- <-.
  destruct (fault e 1);
    [destruct (includes _ _); discriminate |].
  destruct (insert_member (session_uid req) bid "owner" d1) as [err | d2] eqn:H2;
    [destruct (includes _ _); discriminate |].
  destruct (insert_member_inr _ _ _ _ _ H2) as (wid & Hwid & _).
  intros _. exists bid, bname, wid, d1, d2.
  repeat split; reflexivity || assumption.
Qed.

(** Creating under an id that is taken: 409, nothing written. *)
Lemma post_taken_bound e st req bid wid wname w :
  requireAuth req = true ->
  truthy (prop "id" (body_or_empty (body req))) = true ->
  supplied (nullish_or (prop "id" (body_or_empty (body req))) JNull) = Some [bid] ->
  as_text bid = Some wid ->
  prop "name" (body_or_empty (body req)) = Some (JStr wname) ->
  wname <> EmptyString ->
  fault e 0 = None ->
  workspaces (db st) !! wid = Some w ->
  post_api_workspaces e st req =
  respond st req 409 (error_body "Workspace already exists").
Proof.
  intros Hauth Htid Hid Hwid Hname Hwname Hf Hw.
  unfold post_api_workspaces. rewrite Hauth. simpl negb. cbv iota.
  rewrite Htid, Hname.
  rewrite (truthy_nonempty _ Hwname).
  simpl negb. simpl orb. cbv iota.
  cbn [nullish_or].
  rewrite (bind_workspace_single _ (JStr wname) _ _ bid (BText wname) Hid eq_refl).
  unfold run. rewrite Hf.
  unfold insert_workspace. rewrite Hwid. cbn [as_text]. rewrite Hw.
  reflexivity.
Qed.

Lemma post_taken e st req wid wname w :
  requireAuth req = true ->
  prop "id" (body_or_empty (body req)) = Some (JStr wid) ->
  wid <> EmptyString ->
  prop "name" (body_or_empty (body req)) = Some (JStr wname) ->
  wname <> EmptyString ->
  fault e 0 = None ->
  workspaces (db st) !! wid = Some w ->
  post_api_workspaces e st req =
  respond st req 409 (error_body "Workspace already exists").
Proof.
  intros Hauth Hid Hwid Hname Hwname Hf Hw.
  apply (post_taken_bound e st req (BText wid) wid wname w); try assumption.
  - rewrite Hid. exact (truthy_nonempty _ Hwid).
  - rewrite Hid. reflexivity.
  - reflexivity.
Qed.

(** C7. After a create that succeeded, a second create under the same id
    answers 409 [Workspace already exists] and leaves the server state, the
    [workspaces] and [workspace_members] relations included, as the first
    call left it. *)
Theorem create_twice_conflicts e1 e2 st req1 req2 payload wname2 :
  response (post_api_workspaces e1 st req1) = Responded 200 payload ->
  requireAuth req2 = true ->
  prop "id" (body_or_empty (body req2)) = prop "id" (body_or_empty (body req1)) ->
  prop "name" (body_or_empty (body req2)) = Some (JStr wname2) ->
  wname2 <> EmptyString ->
  fault e2 0 = None ->
  let st1 := state (post_api_workspaces e1 st req1) in
  response (post_api_workspaces e2 st1 req2) =
    Responded 409 (error_body "Workspace already exists") /\
  state (post_api_workspaces e2 st1 req2) = st1.
Proof.
  intros Hok Hauth Hsame Hname Hne Hf st1.
  assert (Htid : truthy (prop "id" (body_or_empty (body req1))) = true).
  { revert Hok. unfold post_api_workspaces.
    destruct (requireAuth req1); simpl negb; cbv iota; [| discriminate].
    destruct (truthy (prop "id" (body_or_empty (body req1)))); [reflexivity |].
    discriminate. }
  destruct (post_success e1 st req1 payload Hok)
    as (bid & bname & wid & d1 & d2 & Hid & _ & Hwid & H1 & H2 & Heq).
  assert (Hw : is_Some (workspaces (db st1) !! wid)).
  { subst st1. rewrite Heq. cbn [state respond with_db db].
    destruct (insert_workspace_inr _ _ _ _ _ _ _ _ Hwid H1) as (nm' & _ & _ & _ & Hws & _).
    destruct (insert_member_inr _ _ _ _ _ H2) as (wid2 & _ & _ & _ & _ & _ & Hws2 & _).
    rewrite Hws2, Hws, lookup_insert_eq. eexists; reflexivity. }
  destruct Hw as [w Hw].
  rewrite <- Hsame in Hid, Htid.
  rewrite (post_taken_bound e2 st1 req2 bid wid wname2 w Hauth Htid Hid Hwid Hname Hne Hf Hw).
  split; reflexivity.
Qed.

Lemma create_twice_conflicts_witness :
  let body1 := JObj [("id", JStr "w2"); ("name", JStr "Plans")] in
  let body2 := JObj [("id", JStr "w2"); ("name", JStr "Other"); ("diagram", JArr [])] in
  let req1 := Sample.request_of 2 EmptyString body1 in
  let req2 := Sample.request_of 1 EmptyString body2 in
  let st1 := state (post_api_workspaces Sample.noon Sample.live req1) in
  response (post_api_workspaces Sample.noon Sample.live req1) =
    Responded 200 (JObj [("id", JStr "w2"); ("name", JStr "Plans")]) /\
  requireAuth req2 = true /\
  response (post_api_workspaces Sample.second_fails st1 req2) =
    Responded 409 (error_body "Workspace already exists") /\
  state (post_api_workspaces Sample.second_fails st1 req2) = st1.
Proof.
  intros body1 body2 req1 req2 st1.
  assert (Hok : response (post_api_workspaces Sample.noon Sample.live req1) =
                Responded 200 (JObj [("id", JStr "w2"); ("name", JStr "Plans")]))
    by (vm_compute; reflexivity).
  assert (Hauth : requireAuth req2 = true) by reflexivity.
  split; [exact Hok |]. split; [exact Hauth |].
  refine (create_twice_conflicts Sample.noon Sample.second_fails Sample.live
            req1 req2 _ "Other" Hok Hauth _ _ _ _).
  - reflexivity.
  - reflexivity.
  - discriminate.
  - reflexivity.
Defined.

(** ** Logging in *)

(** With both fields present and strings, a login for an unknown email and
    a login for a known email whose password does not match get the same
    reply, 401 [Invalid credentials]; the session cookie and the server state
    are as before. *)
Lemma login_failures_identical_on_strings compareSync e st req em pw :
  prop "email" (body_or_empty (body req)) = Some (JStr em) ->
  em <> EmptyString ->
  prop "password" (body_or_empty (body req)) = Some (JStr pw) ->
  pw <> EmptyString ->
  fault e 0 = None ->
  (select_user_by_email (db st) em = None \/
   exists uid user,
     select_user_by_email (db st) em = Some (uid, user) /\
     compareSync pw (password_hash user) = false) ->
  post_api_auth_login compareSync e st req =
  {| state := st; cookie := session_userId req;
     response := Responded 401 (error_body "Invalid credentials");
     emitted := [] |}.
Proof.
  intros Hem Hem0 Hpw Hpw0 Hf Hcase.
  unfold post_api_auth_login. rewrite Hem, Hpw.
  rewrite (truthy_nonempty _ Hem0), (truthy_nonempty _ Hpw0).
  simpl negb. simpl orb. cbv iota.
  bind_now. unfold run. rewrite Hf.
  destruct Hcase as [Hnone | (uid & user & Hsome & Hcmp)].
  - rewrite Hnone. reflexivity.
  - rewrite Hsome, Hcmp. reflexivity.
Qed.

Example login_failures_identical_sample :
  let unknown := Sample.anonymous (JObj [("email", JStr "c@x.com"); ("password", JStr "pw")]) in
  let wrong := Sample.anonymous (JObj [("email", JStr "a@x.com"); ("password", JStr "guess")]) in
  response (post_api_auth_login Sample.toy_compare Sample.noon Sample.live unknown) =
  response (post_api_auth_login Sample.toy_compare Sample.noon Sample.live wrong) /\
  cookie (post_api_auth_login Sample.toy_compare Sample.noon Sample.live wrong) = None.
Proof.
  intros unknown wrong.
  assert (H1 : select_user_by_email (db Sample.live) "c@x.com" = None)
    by (vm_compute; reflexivity).
  assert (H2 : exists uid user,
             select_user_by_email (db Sample.live) "a@x.com" = Some (uid, user) /\
             Sample.toy_compare "guess" (password_hash user) = false).
  { exists 1, Sample.alice. split; vm_compute; reflexivity. }
  rewrite (login_failures_identical_on_strings Sample.toy_compare Sample.noon
             Sample.live unknown "c@x.com" "pw" eq_refl ltac:(discriminate) eq_refl
             ltac:(discriminate) eq_refl (or_introl H1)).
  rewrite (login_failures_identical_on_strings Sample.toy_compare Sample.noon
             Sample.live wrong "a@x.com" "guess" eq_refl ltac:(discriminate) eq_refl
             ltac:(discriminate) eq_refl (or_intror H2)).
  split; reflexivity.
Qed.

(** C8. The two failure replies of [POST /api/auth/login] differ when the
    password is present but not a string (here the number [1]): for an
    unknown email the handler answers 401 [Invalid credentials], for a
    registered email [bcrypt.compareSync] throws and the request ends in
    Express's error handler, so the replies tell whether the email is
    registered. *)
Theorem login_failures_differ_on_non_string_password compareSync :
  let unknown := Sample.anonymous (JObj [("email", JStr "c@x.com"); ("password", JNum 1)]) in
  let known := Sample.anonymous (JObj [("email", JStr "a@x.com"); ("password", JNum 1)]) in
  response (post_api_auth_login compareSync Sample.noon Sample.live unknown) =
    Responded 401 (error_body "Invalid credentials") /\
  response (post_api_auth_login compareSync Sample.noon Sample.live known) =
    Threw illegal_arguments.
Proof. split; vm_compute; reflexivity. Qed.

(** ** Listing workspaces *)

#[local] Instance newer_first_total : Total newer_first.
Proof.
  intros a b. unfold newer_first.
  destruct (total String.le (updated_at b.2) (updated_at a.2)); [left | right];
    assumption.
Qed.

(** The rows the list query yields: the workspaces the user is a member of,
    each once, most recently updated first. *)
Lemma select_workspaces_of_spec d uid :
  Sorted newer_first (select_workspaces_of d uid) /\
  NoDup (select_workspaces_of d uid) /\
  forall wid w,
    (wid, w) ∈ select_workspaces_of d uid <->
    workspaces d !! wid = Some w /\ is_Some (workspace_members d !! (uid, wid)).
Proof.
  unfold select_workspaces_of. split; [| split].
  - apply Sorted_merge_sort. apply _.
  - rewrite merge_sort_Permutation.
    apply NoDup_filter, NoDup_map_to_list.
  - intros wid w. rewrite merge_sort_Permutation.
    rewrite list_elem_of_filter, elem_of_map_to_list. simpl. tauto.
Qed.

Lemma list_workspaces_rows e st req :
  fault e 0 = None ->
  requireAuth req = true ->
  get_api_workspaces e st req =
  respond st req 200
    (JArr (workspace_summary <$> select_workspaces_of (db st) (session_uid req))).
Proof.
  intros Hf Hauth. unfold get_api_workspaces, run. rewrite Hauth, Hf. reflexivity.
Qed.

Lemma workspace_summary_keys r :
  prop "id" (workspace_summary r) = Some (JStr r.1) /\
  prop "name" (workspace_summary r) = Some (JStr (name r.2)) /\
  prop "updated_at" (workspace_summary r) = Some (JStr (updated_at r.2)) /\
  prop "updatedAt" (workspace_summary r) = None.
Proof. repeat split; reflexivity. Qed.

(** C9. [GET /api/workspaces] answers with the rows of the query as they
    are: the elements carry the column name [updated_at], and no [updatedAt],
    although [GET /api/workspaces/:id] names the same column [updatedAt]. *)
Theorem list_elements_carry_column_name :
  let listed := get_api_workspaces Sample.noon Sample.live
                  (Sample.request_of 1 EmptyString JNull) in
  let one := get_api_workspaces_id Sample.noon Sample.live
               (Sample.request_of 1 "w1" JNull) in
  response listed =
    Responded 200
      (JArr [JObj [("id", JStr "w1"); ("name", JStr "Shop");
                   ("updated_at", JStr "2025-06-01T12:00:00.000Z")]]) /\
  response one =
    Responded 200
      (JObj [("id", JStr "w1"); ("name", JStr "Shop"); ("diagram", JObj []);
             ("updatedAt", JStr "2025-06-01T12:00:00.000Z")]).
Proof. vm_compute. split; reflexivity. Qed.

(** ** Falsy and missing diagrams *)

Lemma falsy_values v :
  truthy (Some v) = false <->
  v = JNull \/ v = JBool false \/ v = JNum 0 \/ v = JStr EmptyString.
Proof.
  split.
  - destruct v as [| [] | z | s | items | props]; simpl; intros H;
      try discriminate; auto.
    + apply negb_false_iff, Z.eqb_eq in H. subst. auto.
    + apply negb_false_iff in H. destruct (String.eqb_spec s ""); [| discriminate].
      subst. auto.
  - intros [-> | [-> | [-> | ->]]]; reflexivity.
Qed.

Lemma no_member_without_workspace d uid wid :
  db_consistent d = true ->
  workspaces d !! wid = None ->
  workspace_members d !! (uid, wid) = None.
Proof.
  intros Hc Hw.
  destruct (workspace_members d !! (uid, wid)) as [role |] eqn:Hm; [| reflexivity].
  destruct (member_has_rows _ _ _ _ Hc Hm) as [_ [w Hw']]. congruence.
Qed.

(** Creating under a fresh id, by a user that exists, without a failure of
    the storage: both rows are written. *)
Lemma post_fresh e st req wid wname :
  requireAuth req = true ->
  prop "id" (body_or_empty (body req)) = Some (JStr wid) ->
  wid <> EmptyString ->
  prop "name" (body_or_empty (body req)) = Some (JStr wname) ->
  wname <> EmptyString ->
  fault e 0 = None ->
  fault e 1 = None ->
  db_consistent (db st) = true ->
  is_Some (users (db st) !! session_uid req) ->
  workspaces (db st) !! wid = None ->
  let row :=
    {| name := wname; owner_id := session_uid req;
       diagram_json :=
         JSON.stringify
           (nullish_or (prop "diagram" (body_or_empty (body req))) (JObj []));
       created_at := sql_datetime e; updated_at := sql_datetime e |} in
  post_api_workspaces e st req =
  respond
    (with_db st
       {| users := users (db st); users_seq := users_seq (db st);
          workspaces := <[wid := row]> (workspaces (db st));
          workspaces_null := workspaces_null (db st);
          workspace_members :=
            <[(session_uid req, wid) := "owner"]> (workspace_members (db st)) |})
    req 200 (JObj [("id", JStr wid); ("name", JStr wname)]).
Proof.
  intros Hauth Hid Hwid Hname Hwname Hf0 Hf1 Hc [u Hu] Hw row.
  pose proof (no_member_without_workspace _ (session_uid req) _ Hc Hw) as Hm.
  unfold post_api_workspaces. rewrite Hauth. simpl negb. cbv iota.
  rewrite Hid, Hname.
  rewrite (truthy_nonempty _ Hwid), (truthy_nonempty _ Hwname).
  simpl negb. simpl orb. cbv iota.
  bind_now. unfold run. rewrite Hf0, Hf1.
  unfold insert_workspace. cbn [as_text]. rewrite Hw, Hu.
  cbv iota. bind_now. cbv iota.
  unfold insert_member. cbn [as_text workspace_members users workspaces].
  rewrite Hm, Hu, lookup_insert_eq.
  reflexivity.
Qed.

(** The stored document and the events of a successful [PUT]. *)
Lemma update_applies_fields_aux e st req payload :
  response (put_api_workspaces_id e st req) = Responded 200 payload ->
  let diagram := prop "diagram" (body_or_empty (body req)) in
  exists w w',
    workspaces (db st) !! params_id req = Some w /\
    workspaces (db (state (put_api_workspaces_id e st req))) !! params_id req
      = Some w' /\
    diagram_json w' =
      (if truthy diagram then JSON.stringify (nullish_or diagram JNull)
       else diagram_json w) /\
    (forall ev, ev ∈ emitted (put_api_workspaces_id e st req) ->
                prop "diagram" (data ev) = diagram) /\
    forall s, s ∈ members_of (rooms st) (room_of (params_id req)) ->
      exists ev,
        received s (emitted (put_api_workspaces_id e st req)) = [ev] /\
        event ev = "workspace:update" /\
        prop "diagram" (data ev) = diagram.
Proof.
  intros Hok diagram.
  destruct (put_success e st req payload Hok) as (w & bname & Hsel & _ & Heq).
  apply member_select in Hsel as [Hw _].
  rewrite Heq. cbn [state with_db db emitted]. fold diagram.
  eexists w, _. split; [exact Hw |]. split.
  { rewrite (update_workspace_lookup _ _ _ _ _ _ _ Hw).
    destruct (decide (params_id req = params_id req)); [reflexivity | contradiction]. }
  cbn [diagram_json]. split; [destruct (truthy diagram); reflexivity |].
  split.
  - intros ev Hev. unfold io_to_emit in Hev.
    apply list_elem_of_fmap in Hev as (s & -> & _). cbn [data].
    apply update_event_fields.
  - intros s Hs. rewrite received_io_to_emit.
    destruct (decide (s ∈ members_of (rooms st) (room_of (params_id req))));
      [| contradiction].
    eexists. split; [reflexivity |]. cbn [event data].
    split; [reflexivity |]. apply update_event_fields.
Qed.

(** C10. A [PUT] whose body supplies a falsy [diagram] ([null], [false],
    [0] or the empty string) and succeeds keeps the stored document, while
    every connection joined to the room of the workspace receives exactly one
    [workspace:update] event, which carries the value as supplied (and no
    event carries anything else); a create with a missing or [null] diagram,
    under a fresh id, succeeds and stores the text of the empty object. *)
Theorem falsy_diagram_kept_and_default_stored
  e st req payload v e' st' req' wid wname :
  prop "diagram" (body_or_empty (body req)) = Some v ->
  (v = JNull \/ v = JBool false \/ v = JNum 0 \/ v = JStr EmptyString) ->
  response (put_api_workspaces_id e st req) = Responded 200 payload ->
  requireAuth req' = true ->
  prop "id" (body_or_empty (body req')) = Some (JStr wid) ->
  wid <> EmptyString ->
  prop "name" (body_or_empty (body req')) = Some (JStr wname) ->
  wname <> EmptyString ->
  (prop "diagram" (body_or_empty (body req')) = None \/
   prop "diagram" (body_or_empty (body req')) = Some JNull) ->
  calm e' ->
  db_consistent (db st') = true ->
  is_Some (users (db st') !! session_uid req') ->
  workspaces (db st') !! wid = None ->
  (exists w w',
     workspaces (db st) !! params_id req = Some w /\
     workspaces (db (state (put_api_workspaces_id e st req))) !! params_id req
       = Some w' /\
     diagram_json w' = diagram_json w /\
     (forall ev, ev ∈ emitted (put_api_workspaces_id e st req) ->
                 prop "diagram" (data ev) = Some v) /\
     forall s, s ∈ members_of (rooms st) (room_of (params_id req)) ->
       exists ev,
         received s (emitted (put_api_workspaces_id e st req)) = [ev] /\
         event ev = "workspace:update" /\
         prop "diagram" (data ev) = Some v) /\
  (response (post_api_workspaces e' st' req') =
     Responded 200 (JObj [("id", JStr wid); ("name", JStr wname)]) /\
   exists w,
     workspaces (db (state (post_api_workspaces e' st' req'))) !! wid = Some w /\
     diagram_json w = "{}" /\
     JSON.parse (diagram_json w) = Some (JObj []) /\
     workspace_members (db (state (post_api_workspaces e' st' req')))
       !! (session_uid req', wid) = Some "owner").
Proof.
  intros Hd Hfalsy Hok Hauth Hid Hwid Hname Hwname Hdiag Hcalm Hc Hu Hw.
  split.
  - destruct (update_applies_fields_aux e st req payload Hok)
      as (w & w' & Hw0 & Hw1 & Hdj & Hev & Hrecv).
    exists w, w'. split; [exact Hw0 |]. split; [exact Hw1 |].
    apply falsy_values in Hfalsy. rewrite Hd in Hdj, Hev, Hrecv.
    rewrite Hfalsy in Hdj.
    split; [exact Hdj |]. split; [exact Hev | exact Hrecv].
  - rewrite (post_fresh e' st' req' wid wname Hauth Hid Hwid Hname Hwname
               (Hcalm 0%nat) (Hcalm 1%nat) Hc Hu Hw).
    cbn [response respond state with_db db workspaces workspace_members].
    split; [reflexivity |].
    eexists. split; [apply lookup_insert_eq |].
    cbn [diagram_json].
    assert (Hs : JSON.stringify
                   (nullish_or (prop "diagram" (body_or_empty (body req'))) (JObj []))
                 = "{}").
    { destruct Hdiag as [-> | ->]; reflexivity. }
    rewrite Hs. split; [reflexivity |]. split; [reflexivity |].
    apply lookup_insert_eq.
Qed.

Lemma falsy_diagram_kept_and_default_stored_witness :
  let req := Sample.request_of 1 "w1" (JObj [("diagram", JBool false)]) in
  let payload := JObj [("ok", JBool true); ("updatedAt", JStr "2025-06-02T12:00:00.000Z")] in
  let req' := Sample.request_of 2 EmptyString
                (JObj [("id", JStr "w2"); ("name", JStr "Plans"); ("diagram", JNull)]) in
  response (put_api_workspaces_id Sample.noon Sample.live req) = Responded 200 payload /\
  calm Sample.noon /\
  db_consistent (db Sample.live) = true /\
  is_Some (users (db Sample.live) !! session_uid req') /\
  workspaces (db Sample.live) !! "w2" = None /\
  (exists w w',
     workspaces (db Sample.live) !! "w1" = Some w /\
     workspaces (db (state (put_api_workspaces_id Sample.noon Sample.live req))) !! "w1"
       = Some w' /\
     diagram_json w' = diagram_json w /\
     (forall ev, ev ∈ emitted (put_api_workspaces_id Sample.noon Sample.live req) ->
                 prop "diagram" (data ev) = Some (JBool false)) /\
     exists ev,
       received "sockA" (emitted (put_api_workspaces_id Sample.noon Sample.live req))
         = [ev] /\
       event ev = "workspace:update" /\
       prop "diagram" (data ev) = Some (JBool false)) /\
  (response (post_api_workspaces Sample.noon Sample.live req') =
     Responded 200 (JObj [("id", JStr "w2"); ("name", JStr "Plans")]) /\
   exists w,
     workspaces (db (state (post_api_workspaces Sample.noon Sample.live req'))) !! "w2"
       = Some w /\
     diagram_json w = "{}" /\
     JSON.parse (diagram_json w) = Some (JObj []) /\
     workspace_members (db (state (post_api_workspaces Sample.noon Sample.live req')))
       !! (session_uid req', "w2") = Some "owner").
Proof.
  intros req payload req'.
  assert (Hok : response (put_api_workspaces_id Sample.noon Sample.live req) =
                Responded 200 payload) by (vm_compute; reflexivity).
  assert (Hcalm : calm Sample.noon) by (intros k; reflexivity).
  assert (Hdb : db_consistent (db Sample.live) = true) by (vm_compute; reflexivity).
  assert (Hu : is_Some (users (db Sample.live) !! session_uid req'))
    by (exists Sample.bob; vm_compute; reflexivity).
  assert (Hw : workspaces (db Sample.live) !! "w2" = None) by (vm_compute; reflexivity).
  split; [exact Hok |]. split; [exact Hcalm |]. split; [exact Hdb |].
  split; [exact Hu |]. split; [exact Hw |].
  assert (Hin : "sockA" ∈ members_of (rooms Sample.live) (room_of (params_id req))).
  { apply (bool_decide_unpack _). vm_compute. exact I. }
  destruct (falsy_diagram_kept_and_default_stored Sample.noon Sample.live req payload
              (JBool false) Sample.noon Sample.live req' "w2" "Plans"
              eq_refl (or_intror (or_introl eq_refl)) Hok eq_refl eq_refl
              ltac:(discriminate) eq_refl ltac:(discriminate)
              (or_intror eq_refl) Hcalm Hdb Hu Hw)
    as [(w & w' & Hw0 & Hw1 & Hdj & Hev & Hrecv) Hpost].
  split; [| exact Hpost].
  exists w, w'. split; [exact Hw0 |]. split; [exact Hw1 |].
  split; [exact Hdj |]. split; [exact Hev |]. exact (Hrecv "sockA" Hin).
Defined.

(** ** Reachable states *)

Lemma db_consistent_intro d :
  (forall uid wid role,
     workspace_members d !! (uid, wid) = Some role ->
     is_Some (users d !! uid) /\ is_Some (workspaces d !! wid)) ->
  (forall wid w,
     workspaces d !! wid = Some w ->
     is_Some (users d !! owner_id w) /\ is_Some (JSON.parse (diagram_json w))) ->
  (forall w,
     w ∈ workspaces_null d ->
     is_Some (users d !! owner_id w) /\ is_Some (JSON.parse (diagram_json w))) ->
  db_consistent d = true.
Proof.
  intros Hm Hw Hn. unfold db_consistent.
  apply andb_true_intro. split; [apply andb_true_intro; split |].
  - apply forallb_forall. intros [[uid wid] role] Hin.
    apply list_elem_of_In, elem_of_map_to_list in Hin.
    destruct (Hm _ _ _ Hin) as [H1 H2].
    unfold member_ok. simpl.
    rewrite !bool_decide_eq_true_2 by assumption. reflexivity.
  - apply forallb_forall. intros [wid w] Hin.
    apply list_elem_of_In, elem_of_map_to_list in Hin.
    destruct (Hw _ _ Hin) as [H1 H2].
    unfold workspace_ok. simpl.
    rewrite !bool_decide_eq_true_2 by assumption. reflexivity.
  - apply forallb_forall. intros w Hin.
    apply list_elem_of_In in Hin.
    destruct (Hn _ Hin) as [H1 H2].
    unfold workspace_ok. simpl.
    rewrite !bool_decide_eq_true_2 by assumption. reflexivity.
Qed.

Lemma insert_user_consistent em hash now d d' uid :
  db_consistent d = true ->
  insert_user em hash now d = inr (d', uid) ->
  db_consistent d' = true.
Proof.
  intros Hc. unfold insert_user.
  destruct (as_text em) as [e |]; [| discriminate].
  destruct (select_user_by_email d e); [discriminate |].
  intros [= <- <-].
  apply db_consistent_intro; cbn [users workspaces workspaces_null workspace_members].
  - intros u w role Hm. destruct (member_has_rows _ _ _ _ Hc Hm) as [Hu Hw].
    split; [| exact Hw]. apply lookup_insert_is_Some'. right. exact Hu.
  - intros wid w Hw. destruct (workspace_has_owner_and_json _ _ _ Hc Hw) as [Hu Hj].
    split; [| exact Hj]. apply lookup_insert_is_Some'. right. exact Hu.
  - intros w Hw. destruct (null_row_has_owner_and_json _ _ Hc Hw) as [Hu Hj].
    split; [| exact Hj]. apply lookup_insert_is_Some'. right. exact Hu.
Qed.

Lemma insert_workspace_consistent wid nm owner v now d d' :
  db_consistent d = true ->
  insert_workspace wid nm owner (JSON.stringify v) now d = inr d' ->
  db_consistent d' = true.
Proof.
  intros Hc Hins.
  destruct (as_text wid) as [wid' |] eqn:Hwid.
  - destruct (insert_workspace_inr _ _ _ _ _ _ _ _ Hwid Hins)
      as (nm' & _ & Hnew & Hown & Hws & Hu & _ & Hm & Hnull).
    apply db_consistent_intro; rewrite ?Hws, ?Hu, ?Hm, ?Hnull.
    + intros u w role Hmem. destruct (member_has_rows _ _ _ _ Hc Hmem) as [H1 H2].
      split; [exact H1 |]. apply lookup_insert_is_Some'. right. exact H2.
    + intros w row Hrow. rewrite lookup_insert in Hrow.
      destruct (decide (wid' = w)) as [-> | Hne].
      * injection Hrow as <-. cbn [owner_id diagram_json]. split; [exact Hown |].
        rewrite JsonText.parse_stringify. eexists; reflexivity.
      * exact (workspace_has_owner_and_json _ _ _ Hc Hrow).
    + intros w Hw. exact (null_row_has_owner_and_json _ _ Hc Hw).
  - destruct (insert_workspace_null _ _ _ _ _ _ _ Hwid Hins)
      as (nm' & _ & Hown & Hws & Hu & _ & Hm & Hnull).
    apply db_consistent_intro; rewrite ?Hws, ?Hu, ?Hm, ?Hnull.
    + intros u w role Hmem. exact (member_has_rows _ _ _ _ Hc Hmem).
    + intros w row Hrow. exact (workspace_has_owner_and_json _ _ _ Hc Hrow).
    + intros w Hw. apply elem_of_cons in Hw as [-> | Hw].
      * cbn [owner_id diagram_json]. split; [exact Hown |].
        rewrite JsonText.parse_stringify. eexists; reflexivity.
      * exact (null_row_has_owner_and_json _ _ Hc Hw).
Qed.

Lemma insert_member_consistent uid wid role d d' :
  db_consistent d = true ->
  insert_member uid wid role d = inr d' ->
  db_consistent d' = true.
Proof.
  intros Hc. unfold insert_member.
  destruct (as_text wid) as [wid' |]; [| discriminate].
  destruct (workspace_members d !! (uid, wid')); [discriminate |].
  destruct (users d !! uid) as [u |] eqn:Hu; [| discriminate].
  destruct (workspaces d !! wid') as [w |] eqn:Hw; [| discriminate].
  intros [= <-].
  apply db_consistent_intro; cbn [users workspaces workspaces_null workspace_members].
  - intros u' w' role' Hmem. rewrite lookup_insert in Hmem.
    destruct (decide ((uid, wid') = (u', w'))) as [[= <- <-] | Hne].
    + split; eexists; eassumption.
    + exact (member_has_rows _ _ _ _ Hc Hmem).
  - intros w' row Hrow. exact (workspace_has_owner_and_json _ _ _ Hc Hrow).
  - intros w' Hw'. exact (null_row_has_owner_and_json _ _ Hc Hw').
Qed.

Lemma update_workspace_consistent nm diagram now wid d :
  db_consistent d = true ->
  json_bound diagram ->
  db_consistent (update_workspace nm diagram now wid d) = true.
Proof.
  intros Hc Hb.
  destruct (workspaces d !! wid) as [w |] eqn:Hw;
    [| unfold update_workspace; rewrite Hw; exact Hc].
  destruct (update_workspace_frame nm diagram now wid d) as (Hu & _ & Hm).
  apply db_consistent_intro; rewrite ?Hu, ?Hm, ?update_workspace_null.
  - intros u' w' role Hmem. destruct (member_has_rows _ _ _ _ Hc Hmem) as [H1 [x H2]].
    split; [exact H1 |].
    rewrite (update_workspace_lookup _ _ _ _ _ _ _ Hw).
    destruct (decide (wid = w')); eexists; [reflexivity | exact H2].
  - intros w' row. rewrite (update_workspace_lookup _ _ _ _ _ _ _ Hw).
    destruct (decide (wid = w')) as [-> | Hne].
    + intros [= <-]. cbn [owner_id diagram_json].
      destruct (workspace_has_owner_and_json _ _ _ Hc Hw) as [H1 H2].
      split; [exact H1 |].
      destruct diagram; cbn [coalesce as_text json_bound] in *;
        [exact H2 | contradiction | exact Hb].
    + intros Hrow. exact (workspace_has_owner_and_json _ _ _ Hc Hrow).
  - intros w' Hw'. exact (null_row_has_owner_and_json _ _ Hc Hw').
Qed.

(** After the [INSERT] of a workspace under an [id] that is not NULL, the
    [INSERT] of its owner's membership under the same [id] meets no
    constraint it could violate. *)
Lemma member_insert_cannot_fail wid nm uid diagram now d d1 key :
  db_consistent d = true ->
  as_text wid = Some key ->
  insert_workspace wid nm uid diagram now d = inr d1 ->
  exists d2, insert_member uid wid "owner" d1 = inr d2.
Proof.
  intros Hc Hkey H1.
  destruct (insert_workspace_inr _ _ _ _ _ _ _ _ Hkey H1)
    as (nm' & _ & Hnew & [u Hu] & Hws & Husers & _ & Hm & _).
  pose proof (no_member_without_workspace _ uid _ Hc Hnew) as Hno.
  unfold insert_member. rewrite Hkey, Hm, Hno, Husers, Hu, Hws, lookup_insert_eq.
  eexists. reflexivity.
Qed.

(** A truthy [id] that is neither an array nor an object supplies one value,
    and that value is not NULL. *)
Lemma plain_id_supplied req :
  plain_id req = true ->
  truthy (prop "id" (body_or_empty (body req))) = true ->
  forall bs,
    supplied (nullish_or (prop "id" (body_or_empty (body req))) JNull) = Some bs ->
    exists bid key, bs = [bid] /\ as_text bid = Some key.
Proof.
  unfold plain_id.
  destruct (prop "id" (body_or_empty (body req))) as [[| b | z | s | items | props] |];
    cbn; intros Hp Ht bs Hs; try discriminate; injection Hs as <-; eauto.
Qed.

(** A create by a plain [id], without storage failures, on a consistent
    database: nothing is written, or both [INSERT]s ran. *)
Lemma post_calm_cases e st req :
  calm e ->
  db_consistent (db st) = true ->
  plain_id req = true ->
  state (post_api_workspaces e st req) = st \/
  exists bid bname key d1 d2,
    as_text bid = Some key /\
    insert_workspace bid bname (session_uid req)
      (JSON.stringify (nullish_or (prop "diagram" (body_or_empty (body req))) (JObj [])))
      (sql_datetime e) (db st) = inr d1 /\
    insert_member (session_uid req) bid "owner" d1 = inr d2 /\
    state (post_api_workspaces e st req) = with_db st d2.
Proof.
  intros Hcalm Hc Hplain.
  unfold post_api_workspaces.
  destruct (negb (requireAuth req)); [left; reflexivity |].
  destruct (negb (truthy (prop "id" (body_or_empty (body req))))
            || negb (truthy (prop "name" (body_or_empty (body req))))) eqn:Ht;
    [left; reflexivity |].
  apply orb_false_elim in Ht as [Hti _]. apply negb_false_iff in Hti.
  destruct (bind 4 _) as [err | l] eqn:Hb1.
  { left. destruct (includes _ _); reflexivity. }
  apply bind_workspace in Hb1 as (bs1 & bs2 & b1 & b2 & Hs1 & Hs2 & Hbs & ->).
  destruct (plain_id_supplied req Hplain Hti bs1 Hs1) as (bid & key & -> & Hkey).
  destruct bs2 as [| bname [| ? ?]]; try discriminate. injection Hbs as <- <-.
  rewrite !run_calm by exact Hcalm.
  destruct (insert_workspace bid bname _ _ _ (db st)) as [err | d1] eqn:H1.
  { left. destruct (includes _ _); reflexivity. }
  rewrite (bind_member_single _ _ _ bid Hs1).
  rewrite !run_calm by exact Hcalm.
  destruct (member_insert_cannot_fail _ _ _ _ _ _ _ _ Hc Hkey H1) as [d2 H2].
  rewrite H2. right. exists bid, bname, key, d1, d2.
  repeat split; assumption.
Qed.

Lemma db_change_consistent e uid d d' :
  db_change e uid d d' -> db_consistent d = true -> db_consistent d' = true.
Proof.
  intros Hch Hc.
  destruct Hch as [d0 [| em hash dU new_id Hu | wid nm v d1 d2 H1 H2
                       | nm diagram wid Hb] | wid nm v d1 H1].
  - exact Hc.
  - eapply insert_user_consistent; eassumption.
  - eapply insert_member_consistent; [| eassumption].
    eapply insert_workspace_consistent; eassumption.
  - apply update_workspace_consistent; assumption.
  - eapply insert_workspace_consistent; eassumption.
Qed.

Section Invariance.

Variable hashSync : string -> string -> string.
Variable compareSync : string -> string -> bool.

Lemma run_inr {A} e k (stmt : error + A) x : run e k stmt = inr x -> stmt = inr x.
Proof. unfold run. destruct (fault e k); [discriminate | tauto]. Qed.

(** What each route does to the database. *)
Lemma signup_write e st req :
  db_write e (session_uid req) (db st)
    (db (state (post_api_auth_signup hashSync e st req))).
Proof.
  unfold post_api_auth_signup.
  destruct (negb _ || negb _); [apply write_none |].
  destruct (prop "password" _) as [[| ? | ? | pw | ? | ?] |]; try apply write_none.
  destruct (bind 2 _) as [err | l] eqn:Hb.
  - destruct (includes _ _); apply write_none.
  - apply bind_with_hash in Hb as (b & _ & ->).
    destruct (run e 0 _) as [err | [d' uid]] eqn:Hins.
    + destruct (includes _ _); apply write_none.
    + apply run_inr in Hins. cbn [state db with_db].
      eapply write_user. exact Hins.
Qed.

Lemma login_keeps e st req :
  state (post_api_auth_login compareSync e st req) = st.
Proof.
  unfold post_api_auth_login, respond, throw.
  repeat (case_match; cbn [state]; try reflexivity).
Qed.

Lemma session_keeps e st req : state (get_api_session e st req) = st.
Proof.
  unfold get_api_session, respond, throw.
  repeat (case_match; cbn [state]; try reflexivity).
Qed.

Lemma list_keeps e st req : state (get_api_workspaces e st req) = st.
Proof.
  unfold get_api_workspaces, unauthorized, respond, throw.
  repeat (case_match; cbn [state]; try reflexivity).
Qed.

Lemma get_keeps e st req : state (get_api_workspaces_id e st req) = st.
Proof.
  unfold get_api_workspaces_id, unauthorized, respond, throw.
  repeat (case_match; cbn [state]; try reflexivity).
Qed.

Lemma create_change e st req :
  db_change e (session_uid req) (db st)
    (db (state (post_api_workspaces e st req))).
Proof.
  unfold post_api_workspaces.
  destruct (negb (requireAuth req)); [apply change_write, write_none |].
  destruct (negb _ || negb _); [apply change_write, write_none |].
  destruct (bind 4 _) as [err | l] eqn:Hb1.
  { destruct (includes _ _); apply change_write, write_none. }
  apply bind_workspace in Hb1 as (bs1 & bs2 & b1 & b2 & Hs1 & Hs2 & Hbs & ->).
  destruct (run e 0 _) as [err | d1] eqn:H1.
  { destruct (includes _ _); apply change_write, write_none. }
  apply run_inr in H1.
  destruct (bind 3 _) as [err | l] eqn:Hb2.
  { destruct (includes _ _); cbn [state respond db with_db];
      eapply change_workspace; exact H1. }
  apply bind_member in Hb2 as (bid & Hsid & ->).
  rewrite Hsid in Hs1. injection Hs1 as <-.
  destruct bs2 as [| bname [| ? ?]]; try discriminate. injection Hbs as <- <-.
  destruct (run e 1 _) as [err | d2] eqn:H2.
  { destruct (includes _ _); cbn [state respond db with_db];
      eapply change_workspace; exact H1. }
  apply run_inr in H2. cbn [state respond db with_db].
  eapply change_write, write_workspace_and_member; eassumption.
Qed.

Lemma put_write e st req :
  db_write e (session_uid req) (db st)
    (db (state (put_api_workspaces_id e st req))).
Proof.
  unfold put_api_workspaces_id.
  destruct (negb (requireAuth req)); [apply write_none |].
  destruct (run e 0 _) as [err | [w |]]; try apply write_none.
  destruct (bind 4 _) as [err | l] eqn:Hb; [apply write_none |].
  apply (bind_update _ _
           (if truthy (prop "diagram" (body_or_empty (body req)))
            then BText (JSON.stringify
                          (nullish_or (prop "diagram" (body_or_empty (body req))) JNull))
            else BNull))
    in Hb as (bname & _ & ->);
    [| destruct (truthy (prop "diagram" (body_or_empty (body req)))); reflexivity].
  destruct (run e 1 _) as [err | d] eqn:Hrun; [apply write_none |].
  apply run_inr in Hrun. injection Hrun as <-. cbn [state db with_db].
  apply write_update.
  destruct (truthy (prop "diagram" (body_or_empty (body req)))); cbn [json_bound];
    [| exact I].
  rewrite JsonText.parse_stringify. eexists; reflexivity.
Qed.

(** Every route but the create writes a workspace only with its membership;
    so does the create by a plain [id], without storage failures, on a
    consistent database. *)
Lemma handle_write e st r req :
  r <> WorkspacesCreate \/
  (calm e /\ db_consistent (db st) = true /\ plain_id req = true) ->
  db_write e (session_uid req) (db st)
    (db (state (handle hashSync compareSync e st r req))).
Proof.
  intros Hr. destruct r; cbn [handle].
  - apply signup_write.
  - rewrite login_keeps. apply write_none.
  - apply write_none.
  - rewrite session_keeps. apply write_none.
  - rewrite list_keeps. apply write_none.
  - destruct Hr as [Hr | (Hcalm & Hc & Hplain)]; [contradiction |].
    destruct (post_calm_cases e st req Hcalm Hc Hplain)
      as [-> | (bid & bname & key & d1 & d2 & _ & H1 & H2 & ->)].
    + apply write_none.
    + cbn [with_db db]. eapply write_workspace_and_member; eassumption.
  - rewrite get_keeps. apply write_none.
  - apply put_write.
Qed.

Lemma handle_change e st r req :
  db_change e (session_uid req) (db st)
    (db (state (handle hashSync compareSync e st r req))).
Proof.
  destruct r; try (apply change_write, handle_write; left; discriminate).
  apply create_change.
Qed.

Lemma step_change e st a :
  exists uid, db_change e uid (db st) (db (step hashSync compareSync e st a)).
Proof.
  destruct a as [r req | s w | s w | s arg]; cbn [step].
  - exists (session_uid req). apply handle_change.
  - exists 0. apply change_write, write_none.
  - exists 0. apply change_write, write_none.
  - exists 0. unfold on_workspace_update.
    repeat case_match; simplify_eq; apply change_write, write_none.
Qed.

Lemma step_write e st a :
  calm e -> db_consistent (db st) = true -> plain_create a = true ->
  exists uid, db_write e uid (db st) (db (step hashSync compareSync e st a)).
Proof.
  intros Hcalm Hc Hplain.
  destruct a as [r req | s w | s w | s arg]; cbn [step].
  - exists (session_uid req). apply handle_write.
    destruct r; try (left; discriminate). right. repeat split; assumption.
  - exists 0. apply write_none.
  - exists 0. apply write_none.
  - exists 0. unfold on_workspace_update.
    repeat case_match; simplify_eq; apply write_none.
Qed.

Lemma handle_consistent e st r req :
  db_consistent (db st) = true ->
  db_consistent (db (state (handle hashSync compareSync e st r req))) = true.
Proof. apply db_change_consistent with (e := e) (uid := session_uid req), handle_change. Qed.

Lemma step_consistent e st a :
  db_consistent (db st) = true ->
  db_consistent (db (step hashSync compareSync e st a)) = true.
Proof.
  destruct (step_change e st a) as [uid Hch].
  exact (db_change_consistent _ _ _ _ Hch).
Qed.

(** Every state the server reaches from the empty database satisfies the
    integrity constraints. *)
Theorem exec_consistent trace :
  forall st,
    db_consistent (db st) = true ->
    db_consistent (db (exec hashSync compareSync st trace)) = true.
Proof.
  induction trace as [| [e a] rest IH]; intros st Hc; cbn [exec].
  - exact Hc.
  - apply IH, step_consistent, Hc.
Qed.

End Invariance.

(** *** The timestamp along a run *)

Lemma stamped_within_same now wid row d :
  workspaces d !! wid = Some row ->
  (updated_at row ≤ now)%string ->
  stamped_within now wid row d.
Proof. intros Hw Hle. exists row. repeat split; [exact Hw | reflexivity | exact Hle]. Qed.

Lemma stamped_within_insert_workspace now wid row wid' nm owner diagram ts d d' :
  stamped_within now wid row d ->
  insert_workspace wid' nm owner diagram ts d = inr d' ->
  stamped_within now wid row d'.
Proof.
  intros (row' & Hw & H1 & H2) Hins.
  exists row'. split; [| split; assumption].
  destruct (as_text wid') as [key |] eqn:Hkey.
  - destruct (insert_workspace_inr _ _ _ _ _ _ _ _ Hkey Hins)
      as (nm' & _ & Hnew & _ & Hws & _).
    rewrite Hws, lookup_insert_ne; [exact Hw |]. intros ->. congruence.
  - destruct (insert_workspace_null _ _ _ _ _ _ _ Hkey Hins)
      as (nm' & _ & _ & Hws & _).
    rewrite Hws. exact Hw.
Qed.

Lemma stamped_within_insert_member now wid row uid wid' role d d' :
  stamped_within now wid row d ->
  insert_member uid wid' role d = inr d' ->
  stamped_within now wid row d'.
Proof.
  intros (row' & Hw & H1 & H2) Hins.
  apply insert_member_inr in Hins as (key & _ & _ & _ & _ & _ & Hws & _).
  exists row'. rewrite Hws. repeat split; assumption.
Qed.

Lemma stamped_within_insert_user now wid row em hash ts d d' uid :
  stamped_within now wid row d ->
  insert_user em hash ts d = inr (d', uid) ->
  stamped_within now wid row d'.
Proof.
  intros Hs. unfold insert_user.
  destruct (as_text em) as [e |]; [| discriminate].
  destruct (select_user_by_email d e); [discriminate |].
  intros [= <- <-]. exact Hs.
Qed.

Lemma stamped_within_update now wid row nm diagram wid' d :
  workspaces d !! wid = Some row ->
  (updated_at row ≤ now)%string ->
  stamped_within now wid row (update_workspace nm diagram now wid' d).
Proof.
  intros Hw Hle.
  destruct (workspaces d !! wid') as [w' |] eqn:Hw';
    [| unfold update_workspace; rewrite Hw'; apply stamped_within_same; assumption].
  unfold stamped_within. rewrite (update_workspace_lookup _ _ _ _ _ _ _ Hw').
  destruct (decide (wid' = wid)) as [-> | Hne].
  - eexists. split; [reflexivity |]. cbn [updated_at]. split; [exact Hle | reflexivity].
  - exists row. repeat split; [exact Hw | reflexivity | exact Hle].
Qed.

Lemma stamped_change e uid d d' wid row :
  db_change e uid d d' ->
  workspaces d !! wid = Some row ->
  (updated_at row ≤ now_iso e)%string ->
  stamped_within (now_iso e) wid row d'.
Proof.
  intros Hch Hw Hle.
  pose proof (stamped_within_same _ _ _ _ Hw Hle) as Hsame.
  destruct Hch as [d0 [| em hash dU new_id Hu | wid' nm v d1 d2 H1 H2
                       | nm diagram wid' Hb] | wid' nm v d1 H1].
  - exact Hsame.
  - eapply stamped_within_insert_user; eassumption.
  - eapply stamped_within_insert_member; [| eassumption].
    eapply stamped_within_insert_workspace; eassumption.
  - apply stamped_within_update; assumption.
  - eapply stamped_within_insert_workspace; eassumption.
Qed.

Section Monotone.

Variable hashSync : string -> string -> string.
Variable compareSync : string -> string -> bool.

Lemma handle_stamped e st r req wid row :
  workspaces (db st) !! wid = Some row ->
  (updated_at row ≤ now_iso e)%string ->
  stamped_within (now_iso e) wid row
    (db (state (handle hashSync compareSync e st r req))).
Proof.
  apply stamped_change with (uid := session_uid req), handle_change.
Qed.

Lemma step_stamped e st a wid row :
  workspaces (db st) !! wid = Some row ->
  (updated_at row ≤ now_iso e)%string ->
  stamped_within (now_iso e) wid row (db (step hashSync compareSync e st a)).
Proof.
  intros Hw Hle. destruct a as [r req | s w | s w | s arg]; cbn [step].
  - apply handle_stamped; assumption.
  - apply stamped_within_same; assumption.
  - apply stamped_within_same; assumption.
  - unfold on_workspace_update.
    repeat case_match; simplify_eq; apply stamped_within_same; assumption.
Qed.

(** Along a run whose clock readings never go back, the stored [updated_at]
    of a workspace never decreases. *)
Theorem updated_at_monotone_along_run trace :
  forall st wid row t,
    workspaces (db st) !! wid = Some row ->
    (updated_at row ≤ t)%string ->
    clock_ordered t trace ->
    exists row',
      workspaces (db (exec hashSync compareSync st trace)) !! wid = Some row' /\
      (updated_at row ≤ updated_at row')%string.
Proof.
  induction trace as [| [e a] rest IH]; intros st wid row t Hw Hle Hclock;
    cbn [exec].
  - exists row. split; [exact Hw | reflexivity].
  - destruct Hclock as [Ht Hrest].
    assert (Hnow : (updated_at row ≤ now_iso e)%string) by (etrans; eassumption).
    destruct (step_stamped e st a wid row Hw Hnow) as (row1 & Hw1 & H1 & H2).
    destruct (IH _ wid row1 (now_iso e) Hw1 H2 Hrest) as (row' & Hw' & H3).
    exists row'. split; [exact Hw' |]. etrans; eassumption.
Qed.

End Monotone.

Lemma initial_consistent : db_consistent (db initial) = true.
Proof. reflexivity. Qed.

(** *** Creation without storage failures *)

(** When no statement is hit by a storage failure, the database satisfies
    its foreign keys and the [id] is neither an array nor an object,
    [POST /api/workspaces] writes both rows or none: the second [INSERT]
    cannot fail after the first succeeded. *)
Lemma create_both_or_neither_when_calm e st req :
  calm e ->
  db_consistent (db st) = true ->
  plain_id req = true ->
  let r := post_api_workspaces e st req in
  state r = st \/
  exists wid w,
    workspaces (db st) !! wid = None /\
    workspaces (db (state r)) !! wid = Some w /\
    workspace_members (db (state r)) !! (session_uid req, wid) = Some "owner".
Proof.
  intros Hcalm Hc Hplain r. subst r.
  destruct (post_calm_cases e st req Hcalm Hc Hplain)
    as [Hsame | (bid & bname & key & d1 & d2 & Hkey & H1 & H2 & Heq)];
    [left; exact Hsame | right].
  rewrite Heq. cbn [with_db db].
  destruct (insert_workspace_inr _ _ _ _ _ _ _ _ Hkey H1)
    as (nm' & _ & Hnew & _ & Hws & _ & _ & Hm & _).
  destruct (insert_member_inr _ _ _ _ _ H2)
    as (key' & Hkey' & _ & Hm2 & _ & _ & Hws2 & _).
  rewrite Hkey in Hkey'. injection Hkey' as <-.
  exists key. eexists. split; [exact Hnew |].
  rewrite Hws2, Hws, Hm2. rewrite !lookup_insert_eq. split; reflexivity.
Qed.

(** Without that condition the two [INSERT]s come apart although nothing
    fails in the storage: an [id] that is an array of two values, next to a
    [name] that supplies none (an empty array or an object), fills both the
    [id] and the [name] parameter of the first [INSERT], which writes the
    workspace; the second [INSERT] then has one value too many, so the
    handler answers 500 [Failed to create workspace] while the row stays,
    without a membership. *)
Theorem create_splits_on_an_array_id e st req x y bx by_ wid wname :
  calm e ->
  requireAuth req = true ->
  prop "id" (body_or_empty (body req)) = Some (JArr [x; y]) ->
  scalar x = Some bx -> as_text bx = Some wid ->
  scalar y = Some by_ -> as_text by_ = Some wname ->
  (prop "name" (body_or_empty (body req)) = Some (JArr []) \/
   exists props, prop "name" (body_or_empty (body req)) = Some (JObj props)) ->
  is_Some (users (db st) !! session_uid req) ->
  workspaces (db st) !! wid = None ->
  let r := post_api_workspaces e st req in
  response r = Responded 500 (error_body "Failed to create workspace") /\
  workspaces (db (state r)) !! wid =
    Some {| name := wname; owner_id := session_uid req;
            diagram_json :=
              JSON.stringify
                (nullish_or (prop "diagram" (body_or_empty (body req))) (JObj []));
            created_at := sql_datetime e; updated_at := sql_datetime e |} /\
  workspace_members (db (state r)) = workspace_members (db st).
Proof.
  intros Hcalm Hauth Hid Hx Hwid Hy Hname Hnm [u Hu] Hfree r. subst r.
  unfold post_api_workspaces. rewrite Hauth, Hid. simpl negb. cbv iota.
  assert (Htn : truthy (prop "name" (body_or_empty (body req))) = true)
    by (destruct Hnm as [-> | [props ->]]; reflexivity).
  rewrite Htn. simpl negb. simpl orb. cbv iota.
  assert (Hb1 : bind 4 [nullish_or (Some (JArr [x; y])) JNull;
                        nullish_or (prop "name" (body_or_empty (body req))) JNull;
                        JNum (session_uid req);
                        JStr (JSON.stringify
                                (nullish_or (prop "diagram" (body_or_empty (body req)))
                                   (JObj [])))]
                = inr [bx; by_; BReal (session_uid req);
                       BText (JSON.stringify
                                (nullish_or (prop "diagram" (body_or_empty (body req)))
                                   (JObj [])))]).
  { destruct Hnm as [-> | [props ->]]; cbn [nullish_or];
      destruct x; cbn in Hx; try discriminate; injection Hx as <-;
      destruct y; cbn in Hy; try discriminate; injection Hy as <-;
      reflexivity. }
  rewrite Hb1. cbv iota. rewrite run_calm by exact Hcalm.
  unfold insert_workspace. rewrite Hname, Hwid, Hfree, Hu.
  assert (Hb2 : bind 3 [JNum (session_uid req); nullish_or (Some (JArr [x; y])) JNull;
                        JStr "owner"] = inl too_many).
  { cbn [nullish_or].
    destruct x; cbn in Hx; try discriminate;
      destruct y; cbn in Hy; try discriminate; reflexivity. }
  rewrite Hb2. cbn [respond response state with_db db workspaces workspace_members].
  split; [reflexivity |]. split; [apply lookup_insert_eq | reflexivity].
Qed.

(** *** Joining and leaving rooms *)

Lemma join_then_member st s id :
  s ∈ members_of (rooms (on_workspace_join st s (Some (JStr id)))) (room_of id).
Proof.
  unfold on_workspace_join, members_of. cbn [rooms template to_String].
  rewrite lookup_insert_eq. cbn [default]. set_solver.
Qed.

Lemma leave_then_not_member st s id :
  s ∉ members_of (rooms (on_workspace_leave st s (Some (JStr id)))) (room_of id).
Proof.
  unfold on_workspace_leave, members_of. cbn [rooms template to_String].
  rewrite lookup_insert_eq.
  change (s ∉ members_of (rooms st) (room_of id) ∖ {[s]}).
  intros [_ Hn]%elem_of_difference. apply Hn, elem_of_singleton. reflexivity.
Qed.

Lemma join_keeps_db st s w : db (on_workspace_join st s w) = db st.
Proof. reflexivity. Qed.

Lemma leave_keeps_db st s w : db (on_workspace_leave st s w) = db st.
Proof. reflexivity. Qed.

(** *** A sign-up scenario *)

(** After [signup("a@x.com", "pw")] the session names the new user; a login
    with a wrong password is refused with 401 and leaves the session as it
    was. *)
Example signup_then_failed_login :
  let creds pw := JObj [("email", JStr "a@x.com"); ("password", JStr pw)] in
  let r1 := post_api_auth_signup Sample.toy_hash Sample.noon initial
              (Sample.anonymous (creds "pw")) in
  let logged_in b :=
    {| session_userId := cookie r1; body := Some b; params_id := EmptyString |} in
  let r2 := post_api_auth_login Sample.toy_compare Sample.noon (state r1)
              (logged_in (creds "wrong")) in
  response r1 = Responded 200 (JObj [("id", JNum 1); ("email", JStr "a@x.com")]) /\
  response (get_api_session Sample.noon (state r1) (logged_in JNull)) =
    Responded 200 (JObj [("user", JObj [("id", JNum 1); ("email", JStr "a@x.com")])]) /\
  response r2 = Responded 401 (error_body "Invalid credentials") /\
  cookie r2 = cookie r1 /\
  response (get_api_session Sample.noon (state r2) (logged_in JNull)) =
    Responded 200 (JObj [("user", JObj [("id", JNum 1); ("email", JStr "a@x.com")])]).
Proof. vm_compute. repeat split. Qed.

(** * Further properties of the server *)

(** ** Accounts *)

Lemma select_user_by_email_Some d e uid u :
  select_user_by_email d e = Some (uid, u) ->
  users d !! uid = Some u /\ email u = e.
Proof.
  unfold select_user_by_email.
  destruct (list_find _ _) as [[i r] |] eqn:Hfind; [| discriminate].
  cbn. intros [= ->].
  apply list_find_Some in Hfind as (Hi & Hp & _).
  split; [| exact Hp].
  apply elem_of_map_to_list, list_elem_of_lookup. exists i. exact Hi.
Qed.

Lemma select_user_by_email_None d e :
  select_user_by_email d e = None <->
  forall uid u, users d !! uid = Some u -> email u <> e.
Proof.
  unfold select_user_by_email. split.
  - destruct (list_find _ _) as [[i r] |] eqn:Hfind; [discriminate |].
    intros _ uid u Hu.
    apply list_find_None in Hfind. rewrite Forall_forall in Hfind.
    apply (Hfind (uid, u)). apply elem_of_map_to_list. exact Hu.
  - intros Hall.
    destruct (list_find _ _) as [[i [uid u]] |] eqn:Hfind; [| reflexivity].
    apply list_find_Some in Hfind as (Hi & Hp & _).
    exfalso. apply (Hall uid u); [| exact Hp].
    apply elem_of_map_to_list, list_elem_of_lookup. exists i. exact Hi.
Qed.

(** The row an [INSERT INTO users] wrote is the one a lookup by its email
    finds. *)
Lemma select_inserted_user em e hash now d d' uid :
  as_text em = Some e ->
  insert_user em hash now d = inr (d', uid) ->
  select_user_by_email d' e =
  Some (uid, {| email := e; password_hash := hash; user_created_at := now |}).
Proof.
  intros Hem. unfold insert_user. rewrite Hem.
  destruct (select_user_by_email d e) as [? |] eqn:Hnone; [discriminate |].
  intros [= <- <-].
  rewrite select_user_by_email_None in Hnone.
  set (d' := {| users := _; users_seq := _; workspaces := _;
                workspaces_null := _; workspace_members := _ |}).
  destruct (select_user_by_email d' e) as [[uid' u'] |] eqn:Hsel.
  - apply select_user_by_email_Some in Hsel as [Hu He].
    subst d'. cbn [users] in Hu. rewrite lookup_insert in Hu.
    destruct (decide (users_seq d + 1 = uid')) as [<- | Hne].
    + injection Hu as <-. reflexivity.
    + exfalso. exact (Hnone _ _ Hu He).
  - exfalso. rewrite select_user_by_email_None in Hsel.
    apply (Hsel (users_seq d + 1)
             {| email := e; password_hash := hash; user_created_at := now |});
      [| reflexivity].
    subst d'. cbn [users]. apply lookup_insert_eq.
Qed.

Section Accounts.

Variable hashSync : string -> string -> string.
Variable compareSync : string -> string -> bool.

(** What a successful sign-up is, read off the handler: the email supplied
    one value, not NULL, and the password is a string. *)
Lemma signup_success e st req payload :
  response (post_api_auth_signup hashSync e st req) = Responded 200 payload ->
  let email := prop "email" (body_or_empty (body req)) in
  exists bem em pw d' uid,
    truthy email = true /\
    supplied (nullish_or email JNull) = Some [bem] /\
    as_text bem = Some em /\
    prop "password" (body_or_empty (body req)) = Some (JStr pw) /\
    pw <> EmptyString /\
    insert_user bem (hashSync pw (salt e)) (sql_datetime e) (db st) = inr (d', uid) /\
    post_api_auth_signup hashSync e st req =
      {| state := with_db st d'; cookie := Some uid;
         response :=
           Responded 200 (JObj (object [("id", Some (JNum uid)); ("email", email)]));
         emitted := [] |}.
Proof.
  intros H email. revert H. unfold post_api_auth_signup. fold email.
  destruct (negb (truthy email)
            || negb (truthy (prop "password" (body_or_empty (body req))))) eqn:Ht;
    [discriminate |].
  apply orb_false_elim in Ht as [Hte Htp].
  apply negb_false_iff in Hte. apply negb_false_iff in Htp.
  destruct (prop "password" (body_or_empty (body req))) as [[| ? | ? | pw | ? | ?] |];
    try discriminate.
  destruct (bind 2 _) as [err | l] eqn:Hb;
    [destruct (includes _ _); discriminate |].
  apply bind_with_hash in Hb as (bem & Hsup & ->).
  unfold run. destruct (fault e 0);
    [destruct (includes _ _); discriminate |].
  destruct (insert_user bem _ _ (db st)) as [err | [d' uid]] eqn:Hins;
    [destruct (includes _ _); discriminate |].
  assert (Hem : exists em, as_text bem = Some em).
  { unfold insert_user in Hins. destruct (as_text bem); [eauto | discriminate]. }
  destruct Hem as [em Hem].
  intros _. exists bem, em, pw, d', uid.
  split; [exact Hte |]. split; [exact Hsup |]. split; [exact Hem |].
  split; [reflexivity |]. split; [exact (truthy_str_inv _ Htp) |].
  split; [exact Hins | reflexivity].
Qed.

(** A second sign-up with an email that a sign-up has just registered is
    refused with 409 [Email already exists]; nothing is written and the
    session stays as it was. *)
Theorem signup_twice_conflicts e1 e2 st req1 req2 payload pw2 :
  response (post_api_auth_signup hashSync e1 st req1) = Responded 200 payload ->
  prop "email" (body_or_empty (body req2)) = prop "email" (body_or_empty (body req1)) ->
  prop "password" (body_or_empty (body req2)) = Some (JStr pw2) ->
  pw2 <> EmptyString ->
  fault e2 0 = None ->
  post_api_auth_signup hashSync e2
    (state (post_api_auth_signup hashSync e1 st req1)) req2 =
  respond (state (post_api_auth_signup hashSync e1 st req1)) req2 409
    (error_body "Email already exists").
Proof.
  intros Hok Hsame Hpw Hpw0 Hf.
  destruct (signup_success e1 st req1 payload Hok)
    as (bem & em & pw & d' & uid & Hte & Hsup & Hem & _ & _ & Hins & Heq).
  rewrite Heq. cbn [state].
  unfold post_api_auth_signup at 1.
  rewrite Hsame, Hte, Hpw.
  rewrite (truthy_nonempty _ Hpw0).
  simpl negb. simpl orb. cbv iota.
  rewrite (bind_with_hash_single _ _ bem Hsup). cbv iota.
  unfold run. rewrite Hf.
  cbn [with_db db]. unfold insert_user at 1. rewrite Hem.
  rewrite (select_inserted_user _ _ _ _ _ _ _ Hem Hins).
  reflexivity.
Qed.


End Accounts.

(** ** Round trips through the store *)

Lemma nullish_or_truthy v d : truthy (Some v) = true -> nullish_or (Some v) d = v.
Proof. destruct v; simpl; intros H; try reflexivity. discriminate. Qed.


Lemma select_member_row d wid uid w role :
  workspaces d !! wid = Some w ->
  workspace_members d !! (uid, wid) = Some role ->
  select_workspace_of_member d wid uid = Some w.
Proof.
  intros Hw Hm. unfold select_workspace_of_member. rewrite Hw, Hm. reflexivity.
Qed.

(** Reading a workspace whose row and membership are known. *)
Lemma get_known_row e st req w role :
  calm e ->
  requireAuth req = true ->
  workspaces (db st) !! params_id req = Some w ->
  workspace_members (db st) !! (session_uid req, params_id req) = Some role ->
  forall v, diagram_json w = JSON.stringify v ->
  get_api_workspaces_id e st req =
  respond st req 200
    (JObj [("id", JStr (params_id req)); ("name", JStr (name w));
           ("diagram", v); ("updatedAt", JStr (updated_at w))]).
Proof.
  intros Hcalm Hauth Hw Hm v Hv.
  unfold get_api_workspaces_id. rewrite Hauth. simpl negb. cbv iota.
  rewrite run_calm by exact Hcalm.
  rewrite (select_member_row _ _ _ _ _ Hw Hm), Hv, JsonText.parse_stringify.
  reflexivity.
Qed.

(** A document written by a successful [PUT] is the document a later [GET]
    by any member returns, value for value, together with the [updatedAt]
    the [PUT] answered. *)
Theorem put_then_get_round_trip e st req payload v e' req' :
  response (put_api_workspaces_id e st req) = Responded 200 payload ->
  prop "diagram" (body_or_empty (body req)) = Some v ->
  truthy (Some v) = true ->
  calm e' ->
  requireAuth req' = true ->
  params_id req' = params_id req ->
  is_Some (workspace_members (db st) !! (session_uid req', params_id req)) ->
  exists nm,
    response (get_api_workspaces_id e' (state (put_api_workspaces_id e st req)) req') =
    Responded 200
      (JObj [("id", JStr (params_id req)); ("name", JStr nm);
             ("diagram", v); ("updatedAt", JStr (now_iso e))]) /\
    prop "updatedAt" payload = Some (JStr (now_iso e)).
Proof.
  intros Hok Hd Hv Hcalm Hauth Hid [role Hm].
  destruct (put_success e st req payload Hok) as (w & bname & Hsel & _ & Heq).
  apply member_select in Hsel as [Hw _].
  rewrite Heq in Hok. cbn [response] in Hok. injection Hok as <-.
  rewrite Heq. cbn [state]. rewrite Hd, Hv, (nullish_or_truthy _ _ Hv). cbv iota.
  pose (d' := update_workspace bname (BText (JSON.stringify v)) (now_iso e)
                (params_id req) (db st)).
  fold d'.
  assert (Hw' : workspaces d' !! params_id req' =
                Some {| name := coalesce bname (name w); owner_id := owner_id w;
                        diagram_json := JSON.stringify v;
                        created_at := created_at w; updated_at := now_iso e |}).
  { subst d'. rewrite Hid, (update_workspace_lookup _ _ _ _ _ _ _ Hw).
    destruct (decide (params_id req = params_id req)); [| contradiction].
    reflexivity. }
  assert (Hm' : workspace_members d' !! (session_uid req', params_id req') = Some role).
  { subst d'. rewrite Hid.
    destruct (update_workspace_frame bname (BText (JSON.stringify v)) (now_iso e)
                (params_id req) (db st)) as (_ & _ & ->).
    exact Hm. }
  exists (coalesce bname (name w)).
  rewrite (get_known_row e' (with_db st d') req' _ role Hcalm Hauth Hw' Hm' v eq_refl).
  rewrite Hid. split; reflexivity.
Qed.

(** A workspace that a create has just written under a string id is what
    its creator reads back: the id sent, the name as the store holds it (the
    name sent when that is a string), the document sent (the empty object
    when it was missing or [null]) and the creation time as [updatedAt]. *)
Theorem create_then_get_round_trip e st req payload e' req' :
  response (post_api_workspaces e st req) = Responded 200 payload ->
  calm e' ->
  session_userId req' = session_userId req ->
  prop "id" (body_or_empty (body req)) = Some (JStr (params_id req')) ->
  exists bname wname,
    supplied (nullish_or (prop "name" (body_or_empty (body req))) JNull)
      = Some [bname] /\
    as_text bname = Some wname /\
    response (get_api_workspaces_id e' (state (post_api_workspaces e st req)) req') =
    Responded 200
      (JObj [("id", JStr (params_id req'));
             ("name", JStr wname);
             ("diagram",
              nullish_or (prop "diagram" (body_or_empty (body req))) (JObj []));
             ("updatedAt", JStr (sql_datetime e))]).
Proof.
  intros Hok Hcalm Hsess Hid.
  assert (Hauth : requireAuth req' = true).
  { unfold requireAuth. rewrite Hsess. revert Hok. unfold post_api_workspaces.
    unfold requireAuth. destruct (session_userId req) as [uid |]; [| discriminate].
    destruct (negb (uid =? 0)%Z); [reflexivity | discriminate]. }
  assert (Huid : session_uid req' = session_uid req)
    by (unfold session_uid; rewrite Hsess; reflexivity).
  destruct (post_success e st req payload Hok)
    as (bid & bname & wid & d1 & d2 & Hsid & Hsname & Hwid & H1 & H2 & Heq).
  rewrite Hid in Hsid. cbn in Hsid. injection Hsid as <-.
  cbn in Hwid. injection Hwid as <-.
  rewrite Heq. cbn [state respond].
  destruct (insert_workspace_inr (BText (params_id req')) _ _ _ _ _ _ _ eq_refl H1)
    as (wname & Hwname & _ & _ & Hws & _ & _ & Hmem & _).
  destruct (insert_member_inr _ _ _ _ _ H2)
    as (key & Hkey & _ & Hmem2 & _ & _ & Hws2 & _).
  cbn in Hkey. injection Hkey as <-.
  set (row := {| name := wname; owner_id := session_uid req;
                 diagram_json :=
                   JSON.stringify
                     (nullish_or (prop "diagram" (body_or_empty (body req))) (JObj []));
                 created_at := sql_datetime e; updated_at := sql_datetime e |}) in *.
  assert (Hw' : workspaces (db (with_db st d2)) !! params_id req' = Some row).
  { cbn [with_db db]. rewrite Hws2, Hws. apply lookup_insert_eq. }
  assert (Hm' : workspace_members (db (with_db st d2))
                  !! (session_uid req', params_id req') = Some "owner").
  { cbn [with_db db]. rewrite Hmem2, Huid. apply lookup_insert_eq. }
  exists bname, wname. split; [exact Hsname |]. split; [exact Hwname |].
  rewrite (get_known_row e' (with_db st d2) req' row "owner" Hcalm Hauth Hw' Hm'
             _ eq_refl).
  reflexivity.
Qed.

(** ... and it is among the workspaces its creator is listed. *)
Theorem create_then_listed e st req payload e' req' wid :
  response (post_api_workspaces e st req) = Responded 200 payload ->
  fault e' 0 = None ->
  session_userId req' = session_userId req ->
  prop "id" (body_or_empty (body req)) = Some (JStr wid) ->
  exists rows bname wname,
    response (get_api_workspaces e' (state (post_api_workspaces e st req)) req') =
      Responded 200 (JArr rows) /\
    supplied (nullish_or (prop "name" (body_or_empty (body req))) JNull)
      = Some [bname] /\
    as_text bname = Some wname /\
    JObj [("id", JStr wid); ("name", JStr wname);
          ("updated_at", JStr (sql_datetime e))] ∈ rows.
Proof.
  intros Hok Hf Hsess Hid.
  assert (Hauth : requireAuth req' = true).
  { unfold requireAuth. rewrite Hsess. revert Hok. unfold post_api_workspaces.
    unfold requireAuth. destruct (session_userId req) as [uid |]; [| discriminate].
    destruct (negb (uid =? 0)%Z); [reflexivity | discriminate]. }
  assert (Huid : session_uid req' = session_uid req)
    by (unfold session_uid; rewrite Hsess; reflexivity).
  destruct (post_success e st req payload Hok)
    as (bid & bname & wid' & d1 & d2 & Hsid & Hsname & Hwid & H1 & H2 & Heq).
  rewrite Hid in Hsid. cbn in Hsid. injection Hsid as <-.
  cbn in Hwid. injection Hwid as <-.
  rewrite Heq. cbn [state respond].
  destruct (insert_workspace_inr (BText wid) _ _ _ _ _ _ _ eq_refl H1)
    as (wname & Hwname & _ & _ & Hws & _ & _ & Hmem & _).
  destruct (insert_member_inr _ _ _ _ _ H2)
    as (key & Hkey & _ & Hmem2 & _ & _ & Hws2 & _).
  cbn in Hkey. injection Hkey as <-.
  rewrite (list_workspaces_rows e' (with_db st d2) req' Hf Hauth).
  eexists _, bname, wname. split; [reflexivity |].
  split; [exact Hsname |]. split; [exact Hwname |].
  apply list_elem_of_fmap.
  exists (wid, {| name := wname; owner_id := session_uid req;
                  diagram_json :=
                    JSON.stringify
                      (nullish_or (prop "diagram" (body_or_empty (body req))) (JObj []));
                  created_at := sql_datetime e; updated_at := sql_datetime e |}).
  split; [reflexivity |].
  apply (proj2 (proj2 (select_workspaces_of_spec _ _))).
  cbn [with_db db]. split.
  - rewrite Hws2, Hws. apply lookup_insert_eq.
  - rewrite Hmem2, Huid, lookup_insert_eq. eexists; reflexivity.
Qed.

(** ** Listing, the session gate and refusals *)

(** [GET /api/workspaces] answers 200 with one element per workspace the
    caller is a member of, no workspace twice, in descending order of the
    stored [updated_at] text; nothing is written. *)
Theorem list_returns_member_workspaces e st req :
  fault e 0 = None ->
  requireAuth req = true ->
  exists rows,
    get_api_workspaces e st req =
      respond st req 200 (JArr (workspace_summary <$> rows)) /\
    Sorted newer_first rows /\
    NoDup rows /\
    forall wid w,
      (wid, w) ∈ rows <->
      workspaces (db st) !! wid = Some w /\
      is_Some (workspace_members (db st) !! (session_uid req, wid)).
Proof.
  intros Hf Hauth. exists (select_workspaces_of (db st) (session_uid req)).
  split; [apply list_workspaces_rows; assumption |].
  apply select_workspaces_of_spec.
Qed.

(** Without a session user, each of the four workspace routes answers 401
    [Unauthorized]; the database and the rooms are untouched and no event is
    sent. *)
Theorem workspace_routes_require_session e st req :
  requireAuth req = false ->
  get_api_workspaces e st req = unauthorized st req /\
  post_api_workspaces e st req = unauthorized st req /\
  get_api_workspaces_id e st req = unauthorized st req /\
  put_api_workspaces_id e st req = unauthorized st req.
Proof.
  intros H.
  unfold get_api_workspaces, post_api_workspaces, get_api_workspaces_id,
    put_api_workspaces_id.
  rewrite H. repeat split.
Qed.

(** A [PUT] by a user without a membership row for the workspace, whether
    the workspace exists or not, answers 404 [Not found] before any write:
    the state is as before and no event is sent. *)
Theorem put_by_non_member_writes_nothing e st req :
  requireAuth req = true ->
  fault e 0 = None ->
  workspace_members (db st) !! (session_uid req, params_id req) = None ->
  put_api_workspaces_id e st req = respond st req 404 (error_body "Not found").
Proof.
  intros Hauth Hf Hm.
  unfold put_api_workspaces_id, run. rewrite Hauth, Hf. simpl negb. cbv iota.
  unfold select_workspace_of_member. rewrite Hm.
  destruct (workspaces (db st) !! params_id req); reflexivity.
Qed.

(** A create whose [id] or [name] is missing or falsy (absent, [null],
    [false], [0], the empty string) answers 400 and writes nothing. *)
Theorem create_requires_id_and_name e st req :
  requireAuth req = true ->
  truthy (prop "id" (body_or_empty (body req))) = false \/
  truthy (prop "name" (body_or_empty (body req))) = false ->
  post_api_workspaces e st req = respond st req 400 (error_body "id and name required").
Proof.
  intros Hauth H. unfold post_api_workspaces. rewrite Hauth. simpl negb. cbv iota.
  destruct H as [-> | ->]; [reflexivity |].
  rewrite orb_true_r. reflexivity.
Qed.

(** Sign-up and login without a truthy [email] and [password] answer 400;
    no user is written, no password is hashed or compared and the session
    stays as it was. *)
Theorem credentials_are_required hashSync compareSync e st req :
  truthy (prop "email" (body_or_empty (body req))) = false \/
  truthy (prop "password" (body_or_empty (body req))) = false ->
  post_api_auth_signup hashSync e st req =
    respond st req 400 (error_body "Email and password required") /\
  post_api_auth_login compareSync e st req =
    respond st req 400 (error_body "Email and password required").
Proof.
  intros H. unfold post_api_auth_signup, post_api_auth_login.
  destruct H as [-> | ->]; [split; reflexivity |].
  rewrite orb_true_r. split; reflexivity.
Qed.

(** After a logout the session names no user: the workspace routes answer
    401 and [GET /api/session] answers [{user: null}]. *)
Theorem logout_ends_session e st req b id :
  let after := {| session_userId := cookie (post_api_auth_logout st req);
                  body := b; params_id := id |} in
  state (post_api_auth_logout st req) = st /\
  get_api_workspaces e st after = unauthorized st after /\
  post_api_workspaces e st after = unauthorized st after /\
  get_api_workspaces_id e st after = unauthorized st after /\
  put_api_workspaces_id e st after = unauthorized st after /\
  response (get_api_session e st after) = Responded 200 (JObj [("user", JNull)]).
Proof. repeat split. Qed.

(** ** What a request can do to the database *)

Lemma insert_user_inr em hash now d d' uid :
  insert_user em hash now d = inr (d', uid) ->
  exists e,
    as_text em = Some e /\
    select_user_by_email d e = None /\
    uid = users_seq d + 1 /\
    users d' = <[uid := {| email := e; password_hash := hash;
                           user_created_at := now |}]> (users d) /\
    users_seq d' = uid /\
    workspaces d' = workspaces d /\
    workspaces_null d' = workspaces_null d /\
    workspace_members d' = workspace_members d.
Proof.
  unfold insert_user.
  destruct (as_text em) as [e |]; [| discriminate].
  destruct (select_user_by_email d e) eqn:Hnone; [discriminate |].
  intros [= <- <-]. exists e. repeat split. exact Hnone.
Qed.

Lemma owner_only_change e uid d d' :
  db_change e uid d d' -> owner_only d -> owner_only d'.
Proof.
  intros Hch Hown.
  destruct Hch as [d0 [| em hash dU new_id Hu | wid nm v d1 d2 H1 H2
                       | nm diagram wid Hb] | wid nm v d1 H1].
  - exact Hown.
  - apply insert_user_inr in Hu as (em' & _ & _ & _ & _ & _ & Hws & _ & Hm).
    intros u w role Hrow. rewrite Hm in Hrow. rewrite Hws. exact (Hown _ _ _ Hrow).
  - destruct (insert_member_inr _ _ _ _ _ H2)
      as (key & Hkey & _ & Hm2 & _ & _ & Hws2 & _).
    destruct (insert_workspace_inr _ _ _ _ _ _ _ _ Hkey H1)
      as (nm' & _ & Hnew & _ & Hws & _ & _ & Hm & _).
    intros u w role Hrow. rewrite Hm2, Hm in Hrow. rewrite Hws2, Hws.
    rewrite lookup_insert in Hrow.
    destruct (decide ((uid, key) = (u, w))) as [[= <- <-] | Hne].
    + injection Hrow as <-. split; [reflexivity |].
      eexists. rewrite lookup_insert_eq. split; reflexivity.
    + destruct (Hown _ _ _ Hrow) as (Hrole & row & Hw & Ho).
      split; [exact Hrole |]. exists row. split; [| exact Ho].
      rewrite lookup_insert_ne; [exact Hw |]. intros ->. congruence.
  - intros u w role Hrow.
    destruct (update_workspace_frame nm diagram (now_iso e) wid d) as (_ & _ & Hm).
    rewrite Hm in Hrow.
    destruct (Hown _ _ _ Hrow) as (Hrole & row & Hw & Ho).
    split; [exact Hrole |].
    destruct (workspaces d !! wid) as [old |] eqn:Hold;
      [| unfold update_workspace; rewrite Hold; eauto].
    rewrite (update_workspace_lookup _ _ _ _ _ _ _ Hold).
    destruct (decide (wid = w)) as [-> | Hne]; [| eauto].
    rewrite Hold in Hw. injection Hw as ->.
    eexists. split; [reflexivity | exact Ho].
  - intros u w role Hrow.
    destruct (as_text wid) as [key |] eqn:Hkey.
    + destruct (insert_workspace_inr _ _ _ _ _ _ _ _ Hkey H1)
        as (nm' & _ & Hnew & _ & Hws & _ & _ & Hm & _).
      rewrite Hm in Hrow.
      destruct (Hown _ _ _ Hrow) as (Hrole & row & Hw & Ho).
      split; [exact Hrole |]. exists row. split; [| exact Ho].
      rewrite Hws, lookup_insert_ne; [exact Hw |]. intros ->. congruence.
    + destruct (insert_workspace_null _ _ _ _ _ _ _ Hkey H1)
        as (nm' & _ & _ & Hws & _ & _ & Hm & _).
      rewrite Hm in Hrow. rewrite Hws. exact (Hown _ _ _ Hrow).
Qed.

Lemma users_fresh_change e uid d d' :
  db_change e uid d d' -> users_fresh d -> users_fresh d'.
Proof.
  intros Hch (Hseq & Hids & Huniq).
  destruct Hch as [d0 [| em hash dU new_id Hu | wid nm v d1 d2 H1 H2
                       | nm diagram wid Hb] | wid nm v d1 H1].
  - exact (conj Hseq (conj Hids Huniq)).
  - apply insert_user_inr in Hu as (em' & _ & Hnone & -> & Hus & Hs & _).
    rewrite select_user_by_email_None in Hnone.
    unfold users_fresh. rewrite Hus, Hs. split; [lia |]. split.
    + intros u row Hrow. rewrite lookup_insert in Hrow.
      destruct (decide (users_seq d + 1 = u)) as [<- | Hne]; [lia |].
      specialize (Hids _ _ Hrow). lia.
    + intros u1 r1 u2 r2 H1 H2 He. rewrite lookup_insert in H1, H2.
      destruct (decide (users_seq d + 1 = u1)) as [<- | Hn1];
        destruct (decide (users_seq d + 1 = u2)) as [<- | Hn2]; try reflexivity.
      * injection H1 as <-. cbn [email] in He. exfalso. exact (Hnone _ _ H2 (eq_sym He)).
      * injection H2 as <-. cbn [email] in He. exfalso. exact (Hnone _ _ H1 He).
      * exact (Huniq _ _ _ _ H1 H2 He).
  - destruct (insert_member_inr _ _ _ _ _ H2) as (key & Hkey & _ & _ & Hu2 & Hs2 & _).
    destruct (insert_workspace_inr _ _ _ _ _ _ _ _ Hkey H1)
      as (nm' & _ & _ & _ & _ & Hu & Hs & _).
    unfold users_fresh. rewrite Hu2, Hs2, Hu, Hs. exact (conj Hseq (conj Hids Huniq)).
  - destruct (update_workspace_frame nm diagram (now_iso e) wid d) as (Hu & Hs & _).
    unfold users_fresh. rewrite Hu, Hs. exact (conj Hseq (conj Hids Huniq)).
  - assert (Hus : users d1 = users d /\ users_seq d1 = users_seq d).
    { destruct (as_text wid) as [key |] eqn:Hkey.
      - destruct (insert_workspace_inr _ _ _ _ _ _ _ _ Hkey H1)
          as (nm' & _ & _ & _ & _ & Hu & Hs & _). auto.
      - destruct (insert_workspace_null _ _ _ _ _ _ _ Hkey H1)
          as (nm' & _ & _ & _ & Hu & Hs & _). auto. }
    destruct Hus as [Hu Hs].
    unfold users_fresh. rewrite Hu, Hs. exact (conj Hseq (conj Hids Huniq)).
Qed.

Lemma extends_refl d : extends d d.
Proof.
  split; [reflexivity |]. split; [reflexivity |]. split; [reflexivity |].
  intros wid w Hw. eauto.
Qed.

Lemma extends_trans d1 d2 d3 : extends d1 d2 -> extends d2 d3 -> extends d1 d3.
Proof.
  intros (Hu1 & Hm1 & Hn1 & Hw1) (Hu2 & Hm2 & Hn2 & Hw2).
  split; [etrans; eassumption |]. split; [etrans; eassumption |].
  split; [etrans; eassumption |].
  intros wid w Hw. destruct (Hw1 _ _ Hw) as (w' & Hw' & Ho & Hc).
  destruct (Hw2 _ _ Hw') as (w'' & Hw'' & Ho' & Hc').
  exists w''. split; [exact Hw'' |]. split; congruence.
Qed.

Lemma extends_insert_workspace wid nm owner diagram now d d1 :
  insert_workspace wid nm owner diagram now d = inr d1 -> extends d d1.
Proof.
  intros H1. destruct (as_text wid) as [key |] eqn:Hkey.
  - destruct (insert_workspace_inr _ _ _ _ _ _ _ _ Hkey H1)
      as (nm' & _ & Hnew & _ & Hws & Hu & _ & Hm & Hn).
    split; [rewrite Hu; reflexivity |]. split; [rewrite Hm; reflexivity |].
    split; [rewrite Hn; reflexivity |].
    intros w row Hrow. exists row. split; [| split; reflexivity].
    rewrite Hws, lookup_insert_ne; [exact Hrow |]. intros ->. congruence.
  - destruct (insert_workspace_null _ _ _ _ _ _ _ Hkey H1)
      as (nm' & _ & _ & Hws & Hu & _ & Hm & Hn).
    split; [rewrite Hu; reflexivity |]. split; [rewrite Hm; reflexivity |].
    split; [rewrite Hn; apply suffix_cons_r; reflexivity |].
    intros w row Hrow. exists row. rewrite Hws. auto.
Qed.

Lemma extends_change e uid d d' :
  db_change e uid d d' -> users_fresh d -> extends d d'.
Proof.
  intros Hch (Hseq & Hids & _).
  destruct Hch as [d0 [| em hash dU new_id Hu | wid nm v d1 d2 H1 H2
                       | nm diagram wid Hb] | wid nm v d1 H1].
  - apply extends_refl.
  - apply insert_user_inr in Hu as (em' & _ & _ & -> & Hus & _ & Hws & Hn & Hm).
    split; [| split; [rewrite Hm; reflexivity |
                      split; [rewrite Hn; reflexivity | rewrite Hws; eauto]]].
    rewrite Hus. apply insert_subseteq.
    destruct (users d !! (users_seq d + 1)) as [u |] eqn:Hu; [| reflexivity].
    specialize (Hids _ _ Hu). lia.
  - eapply extends_trans; [exact (extends_insert_workspace _ _ _ _ _ _ _ H1) |].
    destruct (insert_member_inr _ _ _ _ _ H2)
      as (key & Hkey & Hfree & Hm2 & Hu2 & _ & Hws2 & Hn2).
    split; [rewrite Hu2; reflexivity |]. split.
    { rewrite Hm2. apply insert_subseteq. exact Hfree. }
    split; [rewrite Hn2; reflexivity |].
    intros w row Hrow. exists row. rewrite Hws2. auto.
  - destruct (update_workspace_frame nm diagram (now_iso e) wid d) as (Hu & _ & Hm).
    split; [rewrite Hu; reflexivity |]. split; [rewrite Hm; reflexivity |].
    split; [rewrite update_workspace_null; reflexivity |].
    intros w row Hrow.
    destruct (workspaces d !! wid) as [old |] eqn:Hold;
      [| unfold update_workspace; rewrite Hold; eauto].
    rewrite (update_workspace_lookup _ _ _ _ _ _ _ Hold).
    destruct (decide (wid = w)) as [-> | Hne]; [| eauto].
    rewrite Hold in Hrow. injection Hrow as ->.
    eexists. split; [reflexivity |]. split; reflexivity.
  - exact (extends_insert_workspace _ _ _ _ _ _ _ H1).
Qed.

(** A request that writes no workspace without its membership keeps every
    workspace with the membership row of its owner. *)
Lemma owner_is_member_write e uid d d' :
  db_write e uid d d' -> owner_is_member d -> owner_is_member d'.
Proof.
  intros Hch Hown.
  destruct Hch as [| em hash d' new_id Hu | wid nm v d1 d2 H1 H2 | nm diagram wid Hb].
  - exact Hown.
  - apply insert_user_inr in Hu as (em' & _ & _ & _ & _ & _ & Hws & _ & Hm).
    intros w row Hrow. rewrite Hws in Hrow. rewrite Hm. exact (Hown _ _ Hrow).
  - destruct (insert_member_inr _ _ _ _ _ H2)
      as (key & Hkey & _ & Hm2 & _ & _ & Hws2 & _).
    destruct (insert_workspace_inr _ _ _ _ _ _ _ _ Hkey H1)
      as (nm' & _ & Hnew & _ & Hws & _ & _ & Hm & _).
    intros w row Hrow. rewrite Hws2, Hws, lookup_insert in Hrow. rewrite Hm2, Hm.
    destruct (decide (key = w)) as [<- | Hne].
    + injection Hrow as <-. cbn [owner_id]. apply lookup_insert_eq.
    + rewrite lookup_insert_ne by congruence. exact (Hown _ _ Hrow).
  - intros w row Hrow.
    destruct (update_workspace_frame nm diagram (now_iso e) wid d) as (_ & _ & Hm).
    rewrite Hm.
    destruct (workspaces d !! wid) as [old |] eqn:Hold;
      [| unfold update_workspace in Hrow; rewrite Hold in Hrow; exact (Hown _ _ Hrow)].
    rewrite (update_workspace_lookup _ _ _ _ _ _ _ Hold) in Hrow.
    destruct (decide (wid = w)) as [-> | Hne]; [| exact (Hown _ _ Hrow)].
    injection Hrow as <-. cbn [owner_id]. exact (Hown _ _ Hold).
Qed.

Section Reachable.

Variable hashSync : string -> string -> string.
Variable compareSync : string -> string -> bool.

Lemma exec_keeps trace :
  forall st,
    owner_only (db st) -> users_fresh (db st) ->
    owner_only (db (exec hashSync compareSync st trace)) /\
    users_fresh (db (exec hashSync compareSync st trace)) /\
    extends (db st) (db (exec hashSync compareSync st trace)).
Proof.
  induction trace as [| [e a] rest IH]; intros st Hown Hfresh; cbn [exec].
  - split; [exact Hown |]. split; [exact Hfresh | apply extends_refl].
  - destruct (step_change hashSync compareSync e st a) as [uid Hch].
    destruct (IH _ (owner_only_change _ _ _ _ Hch Hown)
                   (users_fresh_change _ _ _ _ Hch Hfresh)) as (H1 & H2 & H3).
    split; [exact H1 |]. split; [exact H2 |].
    eapply extends_trans; [| exact H3].
    exact (extends_change _ _ _ _ Hch Hfresh).
Qed.

Lemma initial_owner_only : owner_only (db initial).
Proof. intros uid wid role H. cbn in H. rewrite lookup_empty in H. discriminate. Qed.

Lemma initial_users_fresh : users_fresh (db initial).
Proof.
  split; [cbn; lia |]. split.
  - intros uid u H. cbn in H. rewrite lookup_empty in H. discriminate.
  - intros u1 r1 u2 r2 H. cbn in H. rewrite lookup_empty in H. discriminate.
Qed.

(** In every state the server reaches from the empty database, each
    membership row is the [owner] row of the user who created the workspace:
    no request gives a second user access. *)
Theorem reachable_memberships_are_owners trace :
  owner_only (db (exec hashSync compareSync initial trace)).
Proof. apply exec_keeps; [apply initial_owner_only | apply initial_users_fresh]. Qed.

(** In every reachable state the user ids lie between 1 and the
    [AUTOINCREMENT] counter and no two users have the same email. *)
Theorem reachable_users_fresh trace :
  users_fresh (db (exec hashSync compareSync initial trace)).
Proof. apply exec_keeps; [apply initial_owner_only | apply initial_users_fresh]. Qed.

(** No request deletes: whatever happens after a reachable state, its
    users and membership rows are still there unchanged and each of its
    workspaces still exists with the same owner and creation time. *)
Theorem nothing_is_deleted before after :
  extends (db (exec hashSync compareSync initial before))
          (db (exec hashSync compareSync
                 (exec hashSync compareSync initial before) after)).
Proof.
  destruct (exec_keeps before initial initial_owner_only initial_users_fresh)
    as (Hown & Hfresh & _).
  apply exec_keeps; assumption.
Qed.

(** Every reachable database satisfies the foreign keys of the schema and
    holds JSON text in every [diagram_json]. *)
Theorem reachable_consistent trace :
  db_consistent (db (exec hashSync compareSync initial trace)) = true.
Proof. apply exec_consistent. reflexivity. Qed.

(** In a reachable state, a user who did not create a workspace gets 404
    [Not found] from both [GET] and [PUT] on it. *)
Theorem only_the_creator_has_access trace e req w :
  let st := exec hashSync compareSync initial trace in
  requireAuth req = true ->
  fault e 0 = None ->
  workspaces (db st) !! params_id req = Some w ->
  session_uid req <> owner_id w ->
  get_api_workspaces_id e st req = respond st req 404 (error_body "Not found") /\
  put_api_workspaces_id e st req = respond st req 404 (error_body "Not found").
Proof.
  intros st Hauth Hf Hw Hne.
  assert (Hm : workspace_members (db st) !! (session_uid req, params_id req) = None).
  { destruct (workspace_members (db st) !! (session_uid req, params_id req))
      as [role |] eqn:Hm; [| reflexivity].
    destruct (exec_keeps trace initial initial_owner_only initial_users_fresh)
      as (Hown & _).
    destruct (Hown _ _ _ Hm) as (_ & w' & Hw' & Ho).
    fold st in Hw'. congruence. }
  split.
  - unfold get_api_workspaces_id, run. rewrite Hauth, Hf. simpl negb. cbv iota.
    unfold select_workspace_of_member. rewrite Hw, Hm. reflexivity.
  - unfold put_api_workspaces_id, run. rewrite Hauth, Hf. simpl negb. cbv iota.
    unfold select_workspace_of_member. rewrite Hw, Hm. reflexivity.
Qed.

Lemma exec_owner_is_member trace :
  Forall (fun ea => calm ea.1 /\ plain_create ea.2 = true) trace ->
  forall st,
    db_consistent (db st) = true -> owner_is_member (db st) ->
    owner_is_member (db (exec hashSync compareSync st trace)).
Proof.
  induction 1 as [| [e a] rest [Hcalm Hplain] Hrest IH]; intros st Hc Hown; cbn [exec].
  - exact Hown.
  - destruct (step_write hashSync compareSync e st a Hcalm Hc Hplain) as [uid Hch].
    apply IH.
    + apply step_consistent. exact Hc.
    + exact (owner_is_member_write _ _ _ _ Hch Hown).
Qed.

(** Along a run without storage failures in which no create names its
    workspace by an array or an object, every workspace has its owner's
    membership row, so its creator reads it with 200. *)
Theorem creator_keeps_access trace e req w :
  let st := exec hashSync compareSync initial trace in
  Forall (fun ea => calm ea.1 /\ plain_create ea.2 = true) trace ->
  calm e ->
  requireAuth req = true ->
  workspaces (db st) !! params_id req = Some w ->
  session_uid req = owner_id w ->
  exists diagram,
    JSON.parse (diagram_json w) = Some diagram /\
    get_api_workspaces_id e st req =
    respond st req 200
      (JObj [("id", JStr (params_id req)); ("name", JStr (name w));
             ("diagram", diagram); ("updatedAt", JStr (updated_at w))]).
Proof.
  intros st Hcalms Hcalm Hauth Hw Huid.
  assert (Hm : workspace_members (db st) !! (session_uid req, params_id req)
               = Some "owner").
  { rewrite Huid. apply (exec_owner_is_member trace Hcalms initial); [reflexivity | | exact Hw].
    intros wid row H. cbn in H. rewrite lookup_empty in H. discriminate. }
  destruct (workspace_has_owner_and_json _ _ _
              (exec_consistent hashSync compareSync trace initial initial_consistent) Hw)
    as [_ [diagram Hd]].
  exists diagram. split; [exact Hd |].
  unfold get_api_workspaces_id. rewrite Hauth. simpl negb. cbv iota.
  rewrite run_calm by exact Hcalm.
  unfold select_workspace_of_member. fold st. rewrite Hw, Hm, Hd. reflexivity.
Qed.

End Reachable.

(** ** Rooms and events *)

Lemma received_outside_room e st req s :
  s ∉ members_of (rooms st) (room_of (params_id req)) ->
  received s (emitted (put_api_workspaces_id e st req)) = [].
Proof.
  intros Hs. unfold put_api_workspaces_id, unauthorized, respond, throw.
  repeat (case_match; cbn [emitted]; try reflexivity).
  all: rewrite received_io_to_emit.
  all: destruct (decide (s ∈ members_of (rooms st) (room_of (params_id req))));
    [contradiction | reflexivity].
Qed.

(** Only [PUT] sends events from the HTTP side, and only to the room of its
    workspace: whatever the request, a connection outside that room receives
    nothing from it, and no other route sends anything. *)
Theorem events_stay_in_the_room hashSync compareSync e st r req s :
  s ∉ members_of (rooms st) (room_of (params_id req)) ->
  received s (emitted (handle hashSync compareSync e st r req)) = [].
Proof.
  intros Hs. destruct r; cbn [handle];
    try apply (received_outside_room e st req s Hs).
  - unfold post_api_auth_signup, respond, throw.
    repeat (case_match; cbn [emitted]; try reflexivity).
  - unfold post_api_auth_login, respond, throw.
    repeat (case_match; cbn [emitted]; try reflexivity).
  - reflexivity.
  - unfold get_api_session, respond, throw.
    repeat (case_match; cbn [emitted]; try reflexivity).
  - unfold get_api_workspaces, unauthorized, respond, throw.
    repeat (case_match; cbn [emitted]; try reflexivity).
  - unfold post_api_workspaces, unauthorized, respond, throw.
    repeat (case_match; cbn [emitted]; try reflexivity).
  - unfold get_api_workspaces_id, unauthorized, respond, throw.
    repeat (case_match; cbn [emitted]; try reflexivity).
Qed.

(** A connection that has joined the room of a workspace (no session and no
    membership is asked for) receives exactly one [workspace:update] for each
    successful [PUT] on it, carrying the name and the diagram as the request
    supplied them and the [updatedAt] of the response; once it has left, it
    receives nothing. *)
Theorem join_and_leave_decide_delivery e st s req payload :
  let joined := on_workspace_join st s (Some (JStr (params_id req))) in
  let gone := on_workspace_leave st s (Some (JStr (params_id req))) in
  response (put_api_workspaces_id e joined req) = Responded 200 payload ->
  (exists ev,
     received s (emitted (put_api_workspaces_id e joined req)) = [ev] /\
     event ev = "workspace:update" /\
     prop "name" (data ev) = prop "name" (body_or_empty (body req)) /\
     prop "diagram" (data ev) = prop "diagram" (body_or_empty (body req)) /\
     prop "updatedAt" (data ev) = prop "updatedAt" payload) /\
  received s (emitted (put_api_workspaces_id e gone req)) = [].
Proof.
  intros joined gone Hok. split.
  - destruct (put_success e joined req payload Hok) as (w & bname & _ & _ & Heq).
    rewrite Heq in Hok. cbn [response] in Hok. injection Hok as <-.
    rewrite Heq. cbn [emitted]. rewrite received_io_to_emit.
    destruct (decide (s ∈ members_of (rooms joined) (room_of (params_id req))))
      as [_ | Hn]; [| exfalso; apply Hn, join_then_member].
    eexists. split; [reflexivity |]. cbn [event data].
    destruct (update_event_fields (params_id req)
                (prop "name" (body_or_empty (body req)))
                (prop "diagram" (body_or_empty (body req))) (now_iso e))
      as (_ & Hn & Hd & Hat).
    split; [reflexivity |]. split; [exact Hn |]. split; [exact Hd |].
    rewrite Hat. reflexivity.
  - apply received_outside_room, leave_then_not_member.
Qed.

(** The relay listener checks nothing about its sender: whatever object it
    is sent, it forwards the [id] and [patch] properties of it, and only
    those, once to every connection in the room named by [id] except the
    sender, and leaves the server state alone; sent [null] or nothing, it
    throws. *)
Theorem relay_edge_cases st sender :
  on_workspace_update st sender None = None /\
  on_workspace_update st sender (Some JNull) = None /\
  forall a, a <> JNull ->
    exists ds,
      on_workspace_update st sender (Some a) = Some (st, ds) /\
      forall s,
        received s ds =
        if decide (s ∈ members_of (rooms st) (room_of (template (prop "id" a)))
                   /\ s <> sender)
        then [{| dest := s; event := "workspace:patch";
                 data := JObj (object [("id", prop "id" a); ("patch", prop "patch" a)]) |}]
        else [].
Proof.
  split; [reflexivity |]. split; [reflexivity |].
  intros a Ha. eexists. split.
  - destruct a; [contradiction | reflexivity ..].
  - intros s. apply received_socket_to_emit.
Qed.

(** ** Login on string credentials *)

(** With [email] and [password] non-empty strings, login has three
    outcomes: the statement fails and the exception leaves the handler; the
    email is registered and bcrypt accepts the password, and the reply is 200
    with the user's id and email and the session bound to that id; or the
    fixed 401 reply, the same for an unknown email and for a wrong password,
    with the session untouched.  The server state never changes. *)
Theorem login_on_strings compareSync e st req em pw :
  prop "email" (body_or_empty (body req)) = Some (JStr em) ->
  em <> EmptyString ->
  prop "password" (body_or_empty (body req)) = Some (JStr pw) ->
  pw <> EmptyString ->
  post_api_auth_login compareSync e st req =
  match fault e 0 with
  | Some err => throw st req err
  | None =>
      match select_user_by_email (db st) em with
      | Some (uid, user) =>
          if compareSync pw (password_hash user)
          then {| state := st; cookie := Some uid;
                  response :=
                    Responded 200 (JObj [("id", JNum uid); ("email", JStr em)]);
                  emitted := [] |}
          else respond st req 401 (error_body "Invalid credentials")
      | None => respond st req 401 (error_body "Invalid credentials")
      end
  end.
Proof.
  intros Hem Hem0 Hpw Hpw0.
  unfold post_api_auth_login. rewrite Hem, Hpw.
  rewrite (truthy_nonempty _ Hem0), (truthy_nonempty _ Hpw0).
  simpl negb. simpl orb. cbv iota.
  bind_now. unfold run.
  destruct (fault e 0); [reflexivity |].
  destruct (select_user_by_email (db st) em) as [[uid user] |] eqn:Hsel;
    [| reflexivity].
  apply select_user_by_email_Some in Hsel as [_ <-].
  destruct (compareSync pw (password_hash user)); reflexivity.
Qed.

Lemma login_on_strings_witness :
  let req := Sample.anonymous (Story.credentials "b@x.com" "hunter2") in
  cookie (post_api_auth_login Sample.toy_compare Sample.noon Story.reached req) = Some 2 /\
  response (post_api_auth_login Sample.toy_compare Sample.noon Story.reached req) =
    Responded 200 (JObj [("id", JNum 2); ("email", JStr "b@x.com")]).
Proof.
  intros req.
  rewrite (login_on_strings Sample.toy_compare Sample.noon Story.reached req
             "b@x.com" "hunter2" eq_refl ltac:(discriminate) eq_refl
             ltac:(discriminate)).
  vm_compute. split; reflexivity.
Defined.

(** ** Runs on the sample deployment *)

Lemma calm_noon : calm Sample.noon.
Proof. intros k. reflexivity. Defined.

Lemma calm_next_day : calm Story.next_day.
Proof. intros k. reflexivity. Defined.

Lemma signup_twice_conflicts_witness :
  let req1 := Sample.anonymous (Story.credentials "c@x.com" "first") in
  let req2 := Sample.anonymous (Story.credentials "c@x.com" "second") in
  let st1 := state (post_api_auth_signup Sample.toy_hash Sample.noon Story.reached req1) in
  response (post_api_auth_signup Sample.toy_hash Sample.noon Story.reached req1) =
    Responded 200 (JObj [("id", JNum 3); ("email", JStr "c@x.com")]) /\
  post_api_auth_signup Sample.toy_hash Story.next_day st1 req2 =
    respond st1 req2 409 (error_body "Email already exists").
Proof.
  intros req1 req2 st1.
  assert (Hok : response (post_api_auth_signup Sample.toy_hash Sample.noon
                            Story.reached req1) =
                Responded 200 (JObj [("id", JNum 3); ("email", JStr "c@x.com")]))
    by (vm_compute; reflexivity).
  split; [exact Hok |].
  exact (signup_twice_conflicts Sample.toy_hash Sample.noon Story.next_day
           Story.reached req1 req2 _ "second" Hok eq_refl eq_refl
           ltac:(discriminate) eq_refl).
Defined.


Lemma put_then_get_round_trip_witness :
  let put := Sample.request_of 1 "w1" (JObj [("diagram", Story.draft)]) in
  let get := Sample.request_of 1 "w1" JNull in
  let payload := JObj [("ok", JBool true); ("updatedAt", JStr "2025-06-03T09:00:00.000Z")] in
  response (put_api_workspaces_id Story.next_day Sample.live put) = Responded 200 payload /\
  exists nm,
    response (get_api_workspaces_id Sample.noon
                (state (put_api_workspaces_id Story.next_day Sample.live put)) get) =
    Responded 200
      (JObj [("id", JStr "w1"); ("name", JStr nm); ("diagram", Story.draft);
             ("updatedAt", JStr "2025-06-03T09:00:00.000Z")]) /\
    prop "updatedAt" payload = Some (JStr "2025-06-03T09:00:00.000Z").
Proof.
  intros put get payload.
  assert (Hok : response (put_api_workspaces_id Story.next_day Sample.live put) =
                Responded 200 payload) by (vm_compute; reflexivity).
  split; [exact Hok |].
  refine (put_then_get_round_trip Story.next_day Sample.live put payload Story.draft
            Sample.noon get Hok eq_refl eq_refl calm_noon eq_refl eq_refl _).
  exists "owner". vm_compute. reflexivity.
Defined.

Lemma create_then_get_round_trip_witness :
  let create := Sample.request_of 2 EmptyString
                  (JObj [("id", JStr "w2"); ("name", JStr "Plans")]) in
  let get := Sample.request_of 2 "w2" JNull in
  response (post_api_workspaces Sample.noon Sample.live create) =
    Responded 200 (JObj [("id", JStr "w2"); ("name", JStr "Plans")]) /\
  exists bname wname,
    supplied (nullish_or (prop "name" (body_or_empty (body create))) JNull)
      = Some [bname] /\
    as_text bname = Some wname /\
    response (get_api_workspaces_id Story.next_day
                (state (post_api_workspaces Sample.noon Sample.live create)) get) =
    Responded 200
      (JObj [("id", JStr "w2"); ("name", JStr wname); ("diagram", JObj []);
             ("updatedAt", JStr "2025-06-02 12:00:00")]).
Proof.
  intros create get.
  assert (Hok : response (post_api_workspaces Sample.noon Sample.live create) =
                Responded 200 (JObj [("id", JStr "w2"); ("name", JStr "Plans")]))
    by (vm_compute; reflexivity).
  split; [exact Hok |].
  exact (create_then_get_round_trip Sample.noon Sample.live create _ Story.next_day get
           Hok calm_next_day eq_refl eq_refl).
Defined.

Lemma create_then_listed_witness :
  let create := Sample.request_of 2 EmptyString
                  (JObj [("id", JStr "w2"); ("name", JStr "Plans")]) in
  let list := Sample.request_of 2 EmptyString JNull in
  response (post_api_workspaces Sample.noon Sample.live create) =
    Responded 200 (JObj [("id", JStr "w2"); ("name", JStr "Plans")]) /\
  exists rows bname wname,
    response (get_api_workspaces Story.next_day
                (state (post_api_workspaces Sample.noon Sample.live create)) list) =
      Responded 200 (JArr rows) /\
    supplied (nullish_or (prop "name" (body_or_empty (body create))) JNull)
      = Some [bname] /\
    as_text bname = Some wname /\
    JObj [("id", JStr "w2"); ("name", JStr wname);
          ("updated_at", JStr (sql_datetime Sample.noon))] ∈ rows.
Proof.
  intros create list.
  assert (Hok : response (post_api_workspaces Sample.noon Sample.live create) =
                Responded 200 (JObj [("id", JStr "w2"); ("name", JStr "Plans")]))
    by (vm_compute; reflexivity).
  split; [exact Hok |].
  exact (create_then_listed Sample.noon Sample.live create _ Story.next_day list "w2"
           Hok eq_refl eq_refl eq_refl).
Defined.

Lemma list_returns_member_workspaces_witness :
  let req := Sample.request_of 1 EmptyString JNull in
  fault Sample.noon 0 = None /\
  requireAuth req = true /\
  exists rows,
    get_api_workspaces Sample.noon Sample.live req =
      respond Sample.live req 200 (JArr (workspace_summary <$> rows)) /\
    Sorted newer_first rows /\
    NoDup rows /\
    forall wid w,
      (wid, w) ∈ rows <->
      workspaces (db Sample.live) !! wid = Some w /\
      is_Some (workspace_members (db Sample.live) !! (session_uid req, wid)).
Proof.
  intros req. split; [reflexivity |]. split; [reflexivity |].
  exact (list_returns_member_workspaces Sample.noon Sample.live req eq_refl eq_refl).
Defined.

Lemma workspace_routes_require_session_witness :
  let req := Sample.anonymous (JObj [("id", JStr "w9"); ("name", JStr "Mine")]) in
  requireAuth req = false /\
  post_api_workspaces Sample.noon Sample.live req = unauthorized Sample.live req.
Proof.
  intros req. split; [reflexivity |].
  exact (proj1 (proj2 (workspace_routes_require_session Sample.noon Sample.live req
                         eq_refl))).
Defined.

Lemma put_by_non_member_writes_nothing_witness :
  let req := Sample.request_of 2 "w1" (JObj [("name", JStr "Taken")]) in
  workspace_members (db Sample.live) !! (session_uid req, params_id req) = None /\
  put_api_workspaces_id Sample.noon Sample.live req =
    respond Sample.live req 404 (error_body "Not found").
Proof.
  intros req.
  assert (Hm : workspace_members (db Sample.live) !! (session_uid req, params_id req)
               = None) by (vm_compute; reflexivity).
  split; [exact Hm |].
  exact (put_by_non_member_writes_nothing Sample.noon Sample.live req eq_refl eq_refl Hm).
Defined.

Lemma create_requires_id_and_name_witness :
  let req := Sample.request_of 1 EmptyString
               (JObj [("id", JStr "w3"); ("name", JStr EmptyString)]) in
  truthy (prop "name" (body_or_empty (body req))) = false /\
  post_api_workspaces Sample.noon Sample.live req =
    respond Sample.live req 400 (error_body "id and name required").
Proof.
  intros req. split; [reflexivity |].
  exact (create_requires_id_and_name Sample.noon Sample.live req eq_refl
           (or_intror eq_refl)).
Defined.

Lemma credentials_are_required_witness :
  let req := Sample.anonymous (JObj [("email", JStr "a@x.com")]) in
  truthy (prop "password" (body_or_empty (body req))) = false /\
  post_api_auth_signup Sample.toy_hash Sample.noon Sample.live req =
    respond Sample.live req 400 (error_body "Email and password required") /\
  post_api_auth_login Sample.toy_compare Sample.noon Sample.live req =
    respond Sample.live req 400 (error_body "Email and password required").
Proof.
  intros req. split; [reflexivity |].
  exact (credentials_are_required Sample.toy_hash Sample.toy_compare Sample.noon
           Sample.live req (or_intror eq_refl)).
Defined.

Lemma only_the_creator_has_access_witness :
  let req := Sample.request_of 2 "w1" (JObj [("name", JStr "Taken")]) in
  workspaces (db Story.reached) !! "w1" =
    Some {| name := "Shop"; owner_id := 1;
            diagram_json := JSON.stringify Story.draft;
            created_at := "2025-06-02 12:00:00"; updated_at := "2025-06-02 12:00:00" |} /\
  get_api_workspaces_id Sample.noon Story.reached req =
    respond Story.reached req 404 (error_body "Not found") /\
  put_api_workspaces_id Sample.noon Story.reached req =
    respond Story.reached req 404 (error_body "Not found").
Proof.
  intros req.
  assert (Hw : workspaces (db Story.reached) !! "w1" =
               Some {| name := "Shop"; owner_id := 1;
                       diagram_json := JSON.stringify Story.draft;
                       created_at := "2025-06-02 12:00:00";
                       updated_at := "2025-06-02 12:00:00" |})
    by (vm_compute; reflexivity).
  split; [exact Hw |].
  exact (only_the_creator_has_access Sample.toy_hash Sample.toy_compare Story.events
           Sample.noon req _ eq_refl eq_refl Hw ltac:(discriminate)).
Defined.

Lemma creator_keeps_access_witness :
  let req := Sample.request_of 1 "w1" JNull in
  Forall (fun ea => calm ea.1 /\ plain_create ea.2 = true) Story.events /\
  exists diagram,
    JSON.parse (JSON.stringify Story.draft) = Some diagram /\
    get_api_workspaces_id Story.next_day Story.reached req =
    respond Story.reached req 200
      (JObj [("id", JStr "w1"); ("name", JStr "Shop");
             ("diagram", diagram); ("updatedAt", JStr "2025-06-02 12:00:00")]).
Proof.
  intros req.
  assert (Hcalms : Forall (fun ea => calm ea.1 /\ plain_create ea.2 = true)
                      Story.events)
    by (repeat constructor; exact calm_noon).
  assert (Hw : workspaces (db Story.reached) !! "w1" =
               Some {| name := "Shop"; owner_id := 1;
                       diagram_json := JSON.stringify Story.draft;
                       created_at := "2025-06-02 12:00:00";
                       updated_at := "2025-06-02 12:00:00" |})
    by (vm_compute; reflexivity).
  split; [exact Hcalms |].
  exact (creator_keeps_access Sample.toy_hash Sample.toy_compare Story.events
           Story.next_day req _ Hcalms calm_next_day eq_refl Hw eq_refl).
Defined.

Lemma events_stay_in_the_room_witness :
  let req := Sample.request_of 1 "w1" (JObj [("name", JStr "Store")]) in
  ("sockZ" ∉ members_of (rooms Sample.live) (room_of (params_id req))) /\
  received "sockZ"
    (emitted (handle Sample.toy_hash Sample.toy_compare Sample.noon Sample.live
                WorkspacePut req)) = [].
Proof.
  intros req.
  assert (Hout : "sockZ" ∉ members_of (rooms Sample.live) (room_of (params_id req))).
  { apply (bool_decide_unpack _). vm_compute. exact I. }
  split; [exact Hout |].
  exact (events_stay_in_the_room Sample.toy_hash Sample.toy_compare Sample.noon
           Sample.live WorkspacePut req "sockZ" Hout).
Defined.

Lemma join_and_leave_decide_delivery_witness :
  let req := Sample.request_of 1 "w1" (JObj [("diagram", Story.draft)]) in
  let joined := on_workspace_join Sample.live "sockC" (Some (JStr "w1")) in
  let gone := on_workspace_leave Sample.live "sockA" (Some (JStr "w1")) in
  let payload := JObj [("ok", JBool true); ("updatedAt", JStr "2025-06-02T12:00:00.000Z")] in
  response (put_api_workspaces_id Sample.noon joined req) = Responded 200 payload /\
  (exists ev,
     received "sockC" (emitted (put_api_workspaces_id Sample.noon joined req)) = [ev] /\
     event ev = "workspace:update" /\
     prop "name" (data ev) = None /\
     prop "diagram" (data ev) = Some Story.draft /\
     prop "updatedAt" (data ev) = prop "updatedAt" payload).
Proof.
  intros req joined gone payload.
  assert (Hok : response (put_api_workspaces_id Sample.noon joined req) =
                Responded 200 payload) by (vm_compute; reflexivity).
  split; [exact Hok |].
  exact (proj1 (join_and_leave_decide_delivery Sample.noon Sample.live "sockC" req
                  payload Hok)).
Defined.

Lemma updated_at_monotone_along_run_witness :
  workspaces (db Sample.live) !! "w1" = Some Sample.shop /\
  clock_ordered (updated_at Sample.shop) Story.edits /\
  exists row',
    workspaces (db (exec Sample.toy_hash Sample.toy_compare Sample.live Story.edits))
      !! "w1" = Some row' /\
    (updated_at Sample.shop ≤ updated_at row')%string.
Proof.
  assert (Hw : workspaces (db Sample.live) !! "w1" = Some Sample.shop)
    by (vm_compute; reflexivity).
  assert (Hclock : clock_ordered (updated_at Sample.shop) Story.edits).
  { cbn [clock_ordered Story.edits]. repeat split; vm_compute; exact I. }
  split; [exact Hw |]. split; [exact Hclock |].
  refine (updated_at_monotone_along_run Sample.toy_hash Sample.toy_compare Story.edits
            Sample.live "w1" Sample.shop (updated_at Sample.shop) Hw _ Hclock).
  vm_compute. exact I.
Defined.

Lemma create_both_or_neither_when_calm_witness :
  let req := Sample.request_of 2 EmptyString
               (JObj [("id", JStr "w2"); ("name", JStr "Plans")]) in
  let r := post_api_workspaces Sample.noon Sample.live req in
  db_consistent (db Sample.live) = true /\
  plain_id req = true /\
  (state r = Sample.live \/
   exists wid w,
     workspaces (db Sample.live) !! wid = None /\
     workspaces (db (state r)) !! wid = Some w /\
     workspace_members (db (state r)) !! (session_uid req, wid) = Some "owner").
Proof.
  intros req r.
  assert (Hdb : db_consistent (db Sample.live) = true) by (vm_compute; reflexivity).
  split; [exact Hdb |]. split; [reflexivity |].
  exact (create_both_or_neither_when_calm Sample.noon Sample.live req calm_noon Hdb
           eq_refl).
Defined.

(** * The storage provider of the page *)

Module Provider.

Import Browser.

(** ** Objects and the [Map] *)

Lemma lookup_set_prop k v o : lookup k (set_prop k v o) = v.
Proof.
  induction o as [|[k' v'] o IH]; simpl.
  - now rewrite String.eqb_refl.
  - destruct (String.eqb k k') eqn:E; simpl.
    + now rewrite String.eqb_refl.
    + rewrite E. exact IH.
Qed.

Lemma lookup_set_prop_other k k' v o :
  k <> k' -> lookup k (set_prop k' v o) = lookup k o.
Proof.
  intros Hne. induction o as [|[k0 v0] o IH]; simpl.
  - destruct (String.eqb k k') eqn:E; [apply String.eqb_eq in E; contradiction | reflexivity].
  - destruct (String.eqb k' k0) eqn:E; simpl.
    + apply String.eqb_eq in E. subst k0.
      destruct (String.eqb k k') eqn:E'; [apply String.eqb_eq in E'; contradiction | reflexivity].
    + destruct (String.eqb k k0); [reflexivity | exact IH].
Qed.

Lemma Map_get_set k d m : Map_get k (Map_set k d m) = Some d.
Proof.
  induction m as [|[k' d'] m IH]; simpl.
  - now rewrite decide_True.
  - destruct (decide (k = k')); simpl.
    + now rewrite decide_True.
    + now rewrite decide_False.
Qed.

Lemma Map_get_set_other k k' d m :
  k <> k' -> Map_get k (Map_set k' d m) = Map_get k m.
Proof.
  intros Hne. induction m as [|[k0 d0] m IH]; simpl.
  - now rewrite decide_False.
  - destruct (decide (k' = k0)) as [->|]; simpl.
    + now rewrite !decide_False.
    + destruct (decide (k = k0)); [reflexivity | exact IH].
Qed.

Lemma Map_get_delete k m : Map_get k (Map_delete k m) = None.
Proof.
  unfold Map_delete. induction m as [|[k' d'] m IH]; [reflexivity|].
  rewrite filter_cons. simpl. destruct (decide (k' <> k)); simpl.
  - rewrite decide_False by congruence. exact IH.
  - exact IH.
Qed.

Lemma Map_get_delete_other k k' m :
  k <> k' -> Map_get k (Map_delete k' m) = Map_get k m.
Proof.
  intros Hne. unfold Map_delete. induction m as [|[k0 d0] m IH]; [reflexivity|].
  rewrite filter_cons. simpl. destruct (decide (k0 <> k')); simpl.
  - destruct (decide (k = k0)); [reflexivity | exact IH].
  - rewrite decide_False by (intros ->; tauto). exact IH.
Qed.

(** ** Arrays of items *)

Lemma id_is_cases i t :
  id_is i t = Thrown TypeError \/ exists b, id_is i t = Ok b.
Proof.
  unfold id_is. destruct t; simpl; eauto.
Qed.

Lemma property_not_updatedAt c : property c <> "updatedAt".
Proof. destruct c; discriminate. Qed.

Lemma property_not_id c : "id" <> property c.
Proof. destruct c; discriminate. Qed.

Lemma property_not_name c : "name" <> property c.
Proof. destruct c; discriminate. Qed.

Lemma find_after_append i l item :
  some (id_is i) l = Ok false ->
  id_is i item = Ok true ->
  find (id_is i) (l ++ [item]) = Ok item.
Proof.
  intros Hl Hi. induction l as [|t l IH]; simpl in *.
  - now rewrite Hi.
  - destruct (id_is i t) as [[|]|e|]; simpl in *; try discriminate. now apply IH.
Qed.

Lemma filter_out_spec i l :
  Forall (fun t => exists b, id_is i t = Ok b) l ->
  filter_out (id_is i) l = Ok (filter (fun t => id_is i t = Ok false) l).
Proof.
  induction 1 as [|t l [b Hb] _ IH]; [reflexivity|].
  simpl. rewrite Hb. simpl. rewrite IH. simpl. rewrite filter_cons.
  destruct b.
  - rewrite decide_False by (rewrite Hb; discriminate). reflexivity.
  - rewrite decide_True by exact Hb. reflexivity.
Qed.

Lemma find_none i l :
  Forall (fun t => id_is i t = Ok false) l -> find (id_is i) l = Ok VUndefined.
Proof.
  induction 1 as [|t l Ht _ IH]; [reflexivity|]. simpl. rewrite Ht. exact IH.
Qed.

Lemma some_none i l :
  Forall (fun t => id_is i t = Ok false) l -> some (id_is i) l = Ok false.
Proof.
  induction 1 as [|t l Ht _ IH]; [reflexivity|]. simpl. rewrite Ht. exact IH.
Qed.

Lemma id_is_object i t : id_is i t = Ok true -> exists o, t = VObj o /\ lookup "id" o = VStr i.
Proof.
  unfold id_is. destruct t as [| | | | | | |o]; simpl; try discriminate.
  destruct (lookup "id" o) as [| | | |x| | |] eqn:E; try discriminate.
  intros [= Hx]. apply String.eqb_eq in Hx. subst. eauto.
Qed.

Lemma same_id_id_is i table t : id_is i table = Ok true -> same_id table t = id_is i t.
Proof.
  intros H. apply id_is_object in H as (o & -> & Ho).
  unfold same_id, id_is. destruct t as [| | | | | | |o']; simpl; try reflexivity;
    rewrite ?Ho; try reflexivity.
  destruct (lookup "id" o'); reflexivity.
Qed.

Lemma some_ext p q l : (forall t, p t = q t) -> some p l = some q l.
Proof.
  intros H. induction l as [|t l IH]; [reflexivity|]. simpl. rewrite H.
  destruct (q t) as [[|]|e|]; simpl; [reflexivity | exact IH | reflexivity..].
Qed.

Lemma map_where_ext p q f l : (forall t, p t = q t) -> map_where p f l = map_where q f l.
Proof.
  intros H. induction l as [|t l IH]; [reflexivity|]. simpl. now rewrite H, IH.
Qed.

Lemma some_decides i l :
  Forall (fun t => exists b, id_is i t = Ok b) l ->
  exists b, some (id_is i) l = Ok b.
Proof.
  induction 1 as [|t l [b Hb] _ [b' IH]]; simpl; [eauto|].
  rewrite Hb. simpl. destruct b; eauto.
Qed.

(** Replacing every item with the id by [table]. *)
Lemma replace_spec i table l :
  id_is i table = Ok true ->
  Forall (fun t => exists b, id_is i t = Ok b) l ->
  exists l',
    map_where (id_is i) (fun _ => Ok table) l = Ok l' /\
    Forall (fun t => exists b, id_is i t = Ok b) l' /\
    (forall t, t ∈ l' -> id_is i t = Ok true -> t = table) /\
    some (id_is i) l' = some (id_is i) l /\
    (some (id_is i) l = Ok true -> find (id_is i) l' = Ok table).
Proof.
  intros Hi. induction 1 as [|t l [b Hb] _ (l' & E & Hall & Honly & Hsome & Hfind)].
  - exists []. repeat split; try constructor; try discriminate.
    intros t Ht. now apply elem_of_nil in Ht.
  - simpl. rewrite Hb. simpl. destruct b; simpl; rewrite E; simpl.
    + exists (table :: l'). split; [reflexivity|]. split; [constructor; eauto|].
      split.
      { intros x Hx Hid. apply elem_of_cons in Hx as [->|Hx]; [reflexivity|].
        now apply Honly. }
      simpl. rewrite Hi. simpl. auto.
    + exists (t :: l'). split; [reflexivity|]. split; [constructor; eauto|].
      split.
      { intros x Hx Hid. apply elem_of_cons in Hx as [->|Hx]; [congruence|].
        now apply Honly. }
      simpl. rewrite Hb. simpl. auto.
Qed.

Lemma replace_again i table l :
  Forall (fun t => exists b, id_is i t = Ok b) l ->
  (forall t, t ∈ l -> id_is i t = Ok true -> t = table) ->
  map_where (id_is i) (fun _ => Ok table) l = Ok l.
Proof.
  induction 1 as [|t l [b Hb] _ IH]; intros Honly; [reflexivity|].
  simpl. rewrite Hb. simpl. rewrite IH.
  - destruct b; simpl; [|reflexivity].
    assert (t = table) as -> by (apply Honly; [apply list_elem_of_here | exact Hb]).
    reflexivity.
  - intros x Hx. apply Honly. now apply list_elem_of_further.
Qed.

Lemma some_found i l :
  Forall (fun t => exists b, id_is i t = Ok b) l ->
  Exists (fun t => id_is i t = Ok true) l ->
  some (id_is i) l = Ok true.
Proof.
  induction 1 as [|t l [b Hb] _ IH]; intros Hex; [now apply Exists_nil in Hex|].
  simpl. rewrite Hb. simpl. destruct b; [reflexivity|].
  apply Exists_cons in Hex as [Hex|Hex]; [congruence | now apply IH].
Qed.

Lemma holder_none c id ds :
  Forall (lacks c id) ds -> holder c id ds = Ok None.
Proof.
  induction 1 as [|dg ds (l & Hl & Hno) _ IH]; [reflexivity|].
  simpl. rewrite Hl. simpl. rewrite (some_none _ _ Hno). exact IH.
Qed.

Lemma holder_first c id pre dg post l :
  Forall (lacks c id) pre ->
  or_empty (lookup (property c) dg) = VArr l ->
  some (id_is id) l = Ok true ->
  holder c id (pre ++ dg :: post) = Ok (Some dg).
Proof.
  intros Hpre Hl Hsome. induction Hpre as [|d0 pre (l0 & Hl0 & Hno) _ IH]; simpl.
  - rewrite Hl. simpl. now rewrite Hsome.
  - rewrite Hl0. simpl. rewrite (some_none _ _ Hno). exact IH.
Qed.

Lemma update_spec id attributes l :
  Forall (fun t => exists b, id_is id t = Ok b) l ->
  exists l',
    map_where (id_is id)
      (fun t => o ← own_props t; Ok (VObj (merge o attributes))) l = Ok l' /\
    Forall2 (updated id attributes) l l'.
Proof.
  induction 1 as [|t l [b Hb] _ (l' & E & HR)].
  - exists []. split; [reflexivity | constructor].
  - simpl. rewrite Hb. simpl. destruct b.
    + destruct (id_is_object _ _ Hb) as (o & -> & Ho). simpl. rewrite E. simpl.
      eexists. split; [reflexivity|]. constructor; [|exact HR].
      unfold updated. rewrite Hb. eauto.
    + simpl. rewrite E. simpl. eexists. split; [reflexivity|].
      constructor; [|exact HR]. unfold updated. now rewrite Hb.
Qed.

Lemma lookup_merge_other k a b :
  k ∉ b.*1 -> lookup k (merge a b) = lookup k a.
Proof.
  unfold merge. revert a. induction b as [|[k' v] b IH]; intros a Hk; [reflexivity|].
  simpl. rewrite fmap_cons, not_elem_of_cons in Hk. destruct Hk as [Hne Hk].
  rewrite IH by exact Hk. now apply lookup_set_prop_other.
Qed.

Section Cache.

Context {W : Type}.
Variable api : call -> W -> result value * W.
Variable new_Date : value -> option Z.

Ltac run_page :=
  unfold mbind, mret, M_bind, M_ret, result_bind, result_ret, lift, try_catch,
    await, cache_get, cache_set, cache_delete, cache_values; simpl.

Lemma getCachedOrFetch_hit id (s : @page W) d :
  Map_get (KStr id) (diagrams s) = Some d ->
  getCachedOrFetch api new_Date id s = (Ok (Some d), s).
Proof.
  intros H. unfold getCachedOrFetch. run_page. now rewrite H.
Qed.

Lemma requireDiagram_hit id (s : @page W) d :
  Map_get (KStr id) (diagrams s) = Some d ->
  requireDiagram api new_Date id s = (Ok d, s).
Proof.
  intros H. unfold requireDiagram. run_page.
  now rewrite (getCachedOrFetch_hit _ _ _ H).
Qed.

Lemma normalizeDiagramDates_object o :
  normalizeDiagramDates new_Date (VObj o) =
  Ok (set_prop "updatedAt" (VDate (new_Date (lookup "updatedAt" o)))
        (set_prop "createdAt" (VDate (new_Date (lookup "createdAt" o))) o)).
Proof. reflexivity. Qed.

(** What a miss does: one GET; the answer is cached when it carries a
    document, and forgotten otherwise. *)
Lemma getCachedOrFetch_miss id (s : @page W) :
  Map_get (KStr id) (diagrams s) = None ->
  let c := getWorkspace (KStr id) in
  let after d :=
    {| diagrams := d; world := (api c (world s)).2; sent := (sent s ++ [c])%list |} in
  getCachedOrFetch api new_Date id s =
  match (api c (world s)).1 with
  | Ok res =>
      match get_prop "diagram" res ≫= normalizeDiagramDates new_Date with
      | Ok d => (Ok (Some d), after (Map_set (KStr id) d (diagrams s)))
      | Thrown _ => (Ok None, after (diagrams s))
      | Beyond => (Beyond, after (diagrams s))
      end
  | Thrown _ => (Ok None, after (diagrams s))
  | Beyond => (Beyond, after (diagrams s))
  end.
Proof.
  intros H. cbv zeta. unfold getCachedOrFetch. run_page. rewrite H.
  destruct (api (getWorkspace (KStr id)) (world s)) as [[res|e|] w']; simpl; try reflexivity.
  destruct (get_prop "diagram" res) as [dg|e|]; simpl; try reflexivity.
  destruct (normalizeDiagramDates new_Date dg) as [d|e|]; reflexivity.
Qed.

(** All that [getCachedOrFetch] can do. *)
Lemma getCachedOrFetch_cases id (s : @page W) :
  let c := getWorkspace (KStr id) in
  (exists d, Map_get (KStr id) (diagrams s) = Some d /\
             getCachedOrFetch api new_Date id s = (Ok (Some d), s)) \/
  (Map_get (KStr id) (diagrams s) = None /\
   exists r ds,
     getCachedOrFetch api new_Date id s =
       (r, {| diagrams := ds; world := (api c (world s)).2;
              sent := (sent s ++ [c])%list |}) /\
     ((exists d, r = Ok (Some d) /\ ds = Map_set (KStr id) d (diagrams s)) \/
      ((r = Ok None \/ r = Beyond) /\ ds = diagrams s))).
Proof.
  cbv zeta. destruct (Map_get (KStr id) (diagrams s)) as [d|] eqn:Hget.
  - left. exists d. split; [reflexivity | exact (getCachedOrFetch_hit _ _ _ Hget)].
  - right. split; [reflexivity|]. rewrite (getCachedOrFetch_miss _ _ Hget).
    destruct (api (getWorkspace (KStr id)) (world s)) as [[res|e|] w']; simpl;
      try (do 2 eexists; split; [reflexivity | right; auto]).
    destruct (get_prop "diagram" res ≫= normalizeDiagramDates new_Date) as [d|e|];
      do 2 eexists; (split; [reflexivity|]); [left; eauto | right; auto..].
Qed.

(** A diagram is fetched once. *)
Theorem diagram_is_fetched_once id (s : @page W) :
  let '(r, s1) := getDiagram api new_Date id s in
  (sent s1 = sent s \/ sent s1 = (sent s ++ [getWorkspace (KStr id)])%list) /\
  match r with
  | Ok (Some d) =>
      Map_get (KStr id) (diagrams s1) = Some d /\
      getDiagram api new_Date id s1 = (Ok (Some d), s1)
  | Ok None =>
      diagrams s1 = diagrams s /\ Map_get (KStr id) (diagrams s1) = None
  | Thrown _ => False
  | Beyond => diagrams s1 = diagrams s
  end.
Proof.
  unfold getDiagram.
  destruct (getCachedOrFetch_cases id s)
    as [(d & Hget & ->)|(Hget & r & ds & -> & [(d & -> & ->)|([->| ->] & ->)])].
  - split; [now left|]. split; [exact Hget | exact (getCachedOrFetch_hit _ _ _ Hget)].
  - split; [now right|]. split; [apply Map_get_set|].
    apply getCachedOrFetch_hit. apply Map_get_set.
  - split; [now right|]. split; [reflexivity | exact Hget].
  - split; [now right | reflexivity].
Qed.

(** [persist] on a cached diagram: one PUT of the whole document. *)
Lemma persist_hit k (s : @page W) d :
  Map_get k (diagrams s) = Some d ->
  let c := updateWorkspace k (document_body d) in
  persist api k s =
  ((fun _ => tt) <$> (api c (world s)).1,
   {| diagrams := diagrams s; world := (api c (world s)).2;
      sent := (sent s ++ [c])%list |}).
Proof.
  intros H. cbv zeta. unfold persist. run_page. rewrite H. simpl.
  destruct (api (updateWorkspace k (document_body d)) (world s)) as [[v|e|] w'];
    reflexivity.
Qed.

(** Writing a new version of the diagram into the cache and persisting it. *)
Lemma store_and_persist k d1 (s : @page W) :
  let c := updateWorkspace k (document_body d1) in
  (cache_set k d1;; persist api k) s =
  ((fun _ => tt) <$> (api c (world s)).1,
   {| diagrams := Map_set k d1 (diagrams s); world := (api c (world s)).2;
      sent := (sent s ++ [c])%list |}).
Proof.
  cbv zeta. unfold mbind at 1. unfold M_bind, cache_set. simpl.
  rewrite (persist_hit k _ d1) by (simpl; apply Map_get_set). reflexivity.
Qed.

Lemma touched_updatedAt now d : lookup "updatedAt" (touched now d) = VDate (Some now).
Proof. apply lookup_set_prop. Qed.

Lemma touched_other now d k : k <> "updatedAt" -> lookup k (touched now d) = lookup k d.
Proof. intros H. now apply lookup_set_prop_other. Qed.

(** An edit of a cached diagram either fails before it touches anything, or
    replaces one collection and persists. *)
Lemma perform_shape ed diagramId now (s : @page W) d :
  Map_get (KStr diagramId) (diagrams s) = Some d ->
  (exists r, perform api new_Date ed diagramId now s = (r, s) /\ r <> Ok tt) \/
  (exists l',
     perform api new_Date ed diagramId now s =
     (cache_set (KStr diagramId)
        (touched now (set_prop (property (target ed)) (VArr l') d));;
      persist api (KStr diagramId)) s).
Proof.
  intros H.
  remember (perform api new_Date ed diagramId now s) as res eqn:E.
  destruct ed as [c item|table|c id|c]; unfold perform, target in *.
  - unfold addItem in E. unfold mbind at 1 in E. unfold M_bind in E.
    rewrite (requireDiagram_hit _ _ _ H) in E.
    unfold mbind at 1 in E. unfold M_bind, lift in E.
    destruct (iterable (or_empty (lookup (property c) d))) as [l|e|]; subst res;
      [|left; eexists; split; [reflexivity | discriminate]..].
    right. eexists. reflexivity.
  - unfold putTable in E. unfold mbind at 1 in E. unfold M_bind in E.
    rewrite (requireDiagram_hit _ _ _ H) in E.
    unfold mbind at 1 in E. unfold M_bind, lift in E.
    destruct (array_of (or_empty (lookup "tables" d))) as [l|e|];
      [|subst res; left; eexists; split; [reflexivity | discriminate]..].
    unfold mbind at 1 in E. unfold M_bind in E.
    destruct (some (same_id table) l) as [b|e|];
      [|subst res; left; eexists; split; [reflexivity | discriminate]..].
    unfold mbind at 1 in E. unfold M_bind in E.
    match type of E with
    | context [match ?next with Ok _ => _ | Thrown _ => _ | Beyond => _ end] =>
        destruct next as [l'|e|]
    end; subst res; [|left; eexists; split; [reflexivity | discriminate]..].
    right. eexists. reflexivity.
  - unfold deleteItem in E. unfold mbind at 1 in E. unfold M_bind in E.
    rewrite (requireDiagram_hit _ _ _ H) in E.
    unfold mbind at 1 in E. unfold M_bind, lift in E.
    destruct (array_of (or_empty (lookup (property c) d))) as [l|e|];
      [|subst res; left; eexists; split; [reflexivity | discriminate]..].
    unfold mbind at 1 in E. unfold M_bind in E.
    destruct (filter_out (id_is id) l) as [l'|e|]; subst res;
      [|left; eexists; split; [reflexivity | discriminate]..].
    right. eexists. reflexivity.
  - unfold deleteDiagramItems in E. unfold mbind at 1 in E. unfold M_bind in E.
    rewrite (requireDiagram_hit _ _ _ H) in E. subst res.
    right. eexists. reflexivity.
Qed.

(** Every edit of a cached diagram sends the whole document once, and
    keeps the change whatever the answer. *)
Theorem edit_sends_the_whole_document ed diagramId now (s : @page W) d :
  Map_get (KStr diagramId) (diagrams s) = Some d ->
  let '(r, s1) := perform api new_Date ed diagramId now s in
  (s1 = s /\ r <> Ok tt) \/
  exists d1,
    let c := updateWorkspace (KStr diagramId) (document_body d1) in
    lookup "updatedAt" d1 = VDate (Some now) /\
    (forall k, k <> "updatedAt" -> k <> property (target ed) ->
               lookup k d1 = lookup k d) /\
    s1 = {| diagrams := Map_set (KStr diagramId) d1 (diagrams s);
            world := (api c (world s)).2; sent := (sent s ++ [c])%list |} /\
    r = (fun _ => tt) <$> (api c (world s)).1.
Proof.
  intros H.
  destruct (perform_shape ed diagramId now s d H) as [(r & -> & Hr)|(l' & ->)].
  - left. split; [reflexivity | exact Hr].
  - rewrite store_and_persist. right. eexists. cbv zeta.
    split; [apply touched_updatedAt|]. split; [|split; reflexivity].
    intros k Hk Hc. rewrite touched_other by exact Hk.
    now apply lookup_set_prop_other.
Qed.

Lemma getItem_hit c i diagramId (s : @page W) d :
  Map_get (KStr diagramId) (diagrams s) = Some d ->
  getItem api new_Date c i diagramId s =
  (array_of (or_empty (lookup (property c) d)) ≫= find (id_is i), s).
Proof.
  intros H. unfold getItem. unfold mbind at 1. unfold M_bind.
  rewrite (requireDiagram_hit _ _ _ H).
  unfold mbind at 1. unfold M_bind, lift.
  destruct (array_of (or_empty (lookup (property c) d))) as [l|e|]; reflexivity.
Qed.

Lemma listItems_hit c diagramId (s : @page W) d :
  Map_get (KStr diagramId) (diagrams s) = Some d ->
  listItems api new_Date c diagramId s = (Ok (or_empty (lookup (property c) d)), s).
Proof.
  intros H. unfold listItems. unfold mbind at 1. unfold M_bind.
  now rewrite (requireDiagram_hit _ _ _ H).
Qed.

Lemma lookup_written c now l d :
  or_empty (lookup (property c) (touched now (set_prop (property c) (VArr l) d))) =
  VArr l.
Proof.
  rewrite touched_other by apply property_not_updatedAt.
  now rewrite lookup_set_prop.
Qed.

Lemma addItem_hit c diagramId item now (s : @page W) d l :
  Map_get (KStr diagramId) (diagrams s) = Some d ->
  or_empty (lookup (property c) d) = VArr l ->
  let d1 := touched now (set_prop (property c) (VArr (l ++ [item])) d) in
  let put := updateWorkspace (KStr diagramId) (document_body d1) in
  addItem api new_Date c diagramId item now s =
  ((fun _ => tt) <$> (api put (world s)).1,
   {| diagrams := Map_set (KStr diagramId) d1 (diagrams s);
      world := (api put (world s)).2; sent := (sent s ++ [put])%list |}).
Proof.
  intros H Hl. cbv zeta. unfold addItem. unfold mbind at 1. unfold M_bind.
  rewrite (requireDiagram_hit _ _ _ H).
  unfold mbind at 1. unfold M_bind, lift. rewrite Hl. simpl iterable. cbv iota.
  apply store_and_persist.
Qed.

Lemma deleteItem_hit c diagramId i now (s : @page W) d l :
  Map_get (KStr diagramId) (diagrams s) = Some d ->
  or_empty (lookup (property c) d) = VArr l ->
  Forall (fun t => exists b, id_is i t = Ok b) l ->
  let d1 :=
    touched now
      (set_prop (property c) (VArr (filter (fun t => id_is i t = Ok false) l)) d) in
  let put := updateWorkspace (KStr diagramId) (document_body d1) in
  deleteItem api new_Date c i diagramId now s =
  ((fun _ => tt) <$> (api put (world s)).1,
   {| diagrams := Map_set (KStr diagramId) d1 (diagrams s);
      world := (api put (world s)).2; sent := (sent s ++ [put])%list |}).
Proof.
  intros H Hl Hall. cbv zeta. unfold deleteItem. unfold mbind at 1. unfold M_bind.
  rewrite (requireDiagram_hit _ _ _ H).
  unfold mbind at 1. unfold M_bind, lift. rewrite Hl. simpl array_of. cbv iota.
  unfold mbind at 1. unfold M_bind. rewrite (filter_out_spec _ _ Hall).
  apply store_and_persist.
Qed.

(** An item that was added is found again. *)
Lemma added_item_is_found c diagramId item i now (s : @page W) d l :
  Map_get (KStr diagramId) (diagrams s) = Some d ->
  or_empty (lookup (property c) d) = VArr l ->
  some (id_is i) l = Ok false ->
  id_is i item = Ok true ->
  let s1 := (addItem api new_Date c diagramId item now s).2 in
  getItem api new_Date c i diagramId s1 = (Ok item, s1) /\
  listItems api new_Date c diagramId s1 = (Ok (VArr (l ++ [item])%list), s1).
Proof.
  intros H Hl Hno Hi. cbv zeta.
  rewrite (addItem_hit _ _ _ _ _ _ _ H Hl). simpl snd.
  set (d1 := touched now (set_prop (property c) (VArr (l ++ [item])) d)).
  match goal with |- context [getItem _ _ _ _ _ ?s1] => set (s1' := s1) end.
  assert (Hget : Map_get (KStr diagramId) (diagrams s1') = Some d1)
    by (simpl; apply Map_get_set).
  rewrite (getItem_hit _ _ _ _ _ Hget), (listItems_hit _ _ _ _ Hget).
  unfold d1. rewrite lookup_written. simpl.
  now rewrite (find_after_append _ _ _ Hno Hi).
Qed.

(** An item that was deleted is gone, the others stay in order. *)
Lemma deleted_item_is_gone c diagramId i now (s : @page W) d l :
  Map_get (KStr diagramId) (diagrams s) = Some d ->
  or_empty (lookup (property c) d) = VArr l ->
  Forall (fun t => exists b, id_is i t = Ok b) l ->
  let s1 := (deleteItem api new_Date c i diagramId now s).2 in
  getItem api new_Date c i diagramId s1 = (Ok VUndefined, s1) /\
  listItems api new_Date c diagramId s1 =
    (Ok (VArr (filter (fun t => id_is i t = Ok false) l)), s1).
Proof.
  intros H Hl Hall. cbv zeta.
  rewrite (deleteItem_hit _ _ _ _ _ _ _ H Hl Hall). simpl snd.
  set (l' := filter (fun t => id_is i t = Ok false) l).
  set (d1 := touched now (set_prop (property c) (VArr l') d)).
  match goal with |- context [getItem _ _ _ _ _ ?s1] => set (s1' := s1) end.
  assert (Hget : Map_get (KStr diagramId) (diagrams s1') = Some d1)
    by (simpl; apply Map_get_set).
  rewrite (getItem_hit _ _ _ _ _ Hget), (listItems_hit _ _ _ _ Hget).
  unfold d1. rewrite lookup_written. simpl.
  split; [|reflexivity].
  rewrite find_none; [reflexivity|].
  unfold l'. apply Forall_forall. intros t Ht.
  now apply list_elem_of_filter in Ht as [Ht _].
Qed.

Lemma filter_keeps_all i l item :
  Forall (fun t => id_is i t = Ok false) l ->
  id_is i item = Ok true ->
  filter (fun t => id_is i t = Ok false) (l ++ [item])%list = l.
Proof.
  intros Hl Hi. rewrite filter_app.
  rewrite (filter_cons (fun t => id_is i t = Ok false) item []).
  rewrite decide_False by (rewrite Hi; discriminate). rewrite filter_nil, app_nil_r.
  induction Hl as [|t l Ht _ IH]; [reflexivity|].
  rewrite filter_cons, decide_True by exact Ht. now rewrite IH.
Qed.

(** An item that is added is found and listed; deleting it again gives
    the collection back. *)
Theorem item_round_trip c diagramId item i now now' (s : @page W) d l :
  Map_get (KStr diagramId) (diagrams s) = Some d ->
  or_empty (lookup (property c) d) = VArr l ->
  Forall (fun t => id_is i t = Ok false) l ->
  id_is i item = Ok true ->
  let s1 := (addItem api new_Date c diagramId item now s).2 in
  let s2 := (deleteItem api new_Date c i diagramId now' s1).2 in
  getItem api new_Date c i diagramId s1 = (Ok item, s1) /\
  getItem api new_Date c i diagramId s2 = (Ok VUndefined, s2) /\
  (listed_as_stored c = true ->
   listItems api new_Date c diagramId s1 = (Ok (VArr (l ++ [item])%list), s1) /\
   listItems api new_Date c diagramId s2 = (Ok (VArr l), s2)).
Proof.
  intros H Hl Hno Hi.
  destruct (added_item_is_found c diagramId item i now s d l H Hl
              (some_none _ _ Hno) Hi) as [Hg1 Hl1].
  cbv zeta in *. split; [exact Hg1|].
  rewrite (addItem_hit _ _ _ _ _ _ _ H Hl) in *. cbn [snd] in *.
  set (d1 := touched now (set_prop (property c) (VArr (l ++ [item])%list) d)) in *.
  match goal with |- context [deleteItem _ _ _ _ _ _ ?st] => set (s1 := st) in * end.
  assert (Hget1 : Map_get (KStr diagramId) (diagrams s1) = Some d1)
    by (simpl; apply Map_get_set).
  assert (Hcoll1 : or_empty (lookup (property c) d1) = VArr (l ++ [item])%list)
    by (unfold d1; apply lookup_written).
  assert (Hall1 : Forall (fun t => exists b, id_is i t = Ok b) (l ++ [item])%list).
  { apply Forall_app. split; [|constructor; [exists true; exact Hi | constructor]].
    eapply Forall_impl; [exact Hno|]. intros t Ht. exists false. exact Ht. }
  destruct (deleted_item_is_gone c diagramId i now' s1 d1 (l ++ [item])%list Hget1
              Hcoll1 Hall1) as [Hg2 Hl2].
  cbv zeta in *. rewrite (filter_keeps_all _ _ _ Hno Hi) in Hl2.
  split; [exact Hg2|]. intros _. split; assumption.
Qed.

(** What [putTable] writes: a list where the table stands for every item
    with its id. *)
Lemma putTable_hit diagramId table i now (s : @page W) d l :
  Map_get (KStr diagramId) (diagrams s) = Some d ->
  or_empty (lookup "tables" d) = VArr l ->
  Forall (fun t => exists b, id_is i t = Ok b) l ->
  id_is i table = Ok true ->
  exists l',
    Forall (fun t => exists b, id_is i t = Ok b) l' /\
    (forall t, t ∈ l' -> id_is i t = Ok true -> t = table) /\
    find (id_is i) l' = Ok table /\
    some (id_is i) l' = Ok true /\
    let d1 := touched now (set_prop "tables" (VArr l') d) in
    let c := updateWorkspace (KStr diagramId) (document_body d1) in
    putTable api new_Date diagramId table now s =
    ((fun _ => tt) <$> (api c (world s)).1,
     {| diagrams := Map_set (KStr diagramId) d1 (diagrams s);
        world := (api c (world s)).2; sent := (sent s ++ [c])%list |}).
Proof.
  intros H Hl Hall Hi.
  destruct (some_decides _ _ Hall) as [b Hb].
  destruct (replace_spec _ _ _ Hi Hall) as (l1 & E & Hall1 & Honly1 & Hsome1 & Hfind1).
  assert (Hput : forall l',
    (if b then map_where (same_id table) (fun _ => Ok table) l
     else l0 ← iterable (or_empty (lookup "tables" d)); Ok (l0 ++ [table])%list) = Ok l' ->
    let d1 := touched now (set_prop "tables" (VArr l') d) in
    let c := updateWorkspace (KStr diagramId) (document_body d1) in
    putTable api new_Date diagramId table now s =
    ((fun _ => tt) <$> (api c (world s)).1,
     {| diagrams := Map_set (KStr diagramId) d1 (diagrams s);
        world := (api c (world s)).2; sent := (sent s ++ [c])%list |})).
  { intros l' El'. cbv zeta. unfold putTable. unfold mbind at 1. unfold M_bind.
    rewrite (requireDiagram_hit _ _ _ H).
    unfold mbind at 1. unfold M_bind, lift. rewrite Hl. simpl array_of. cbv iota.
    unfold mbind at 1. unfold M_bind.
    rewrite (some_ext _ _ l (fun t => same_id_id_is i table t Hi)), Hb.
    unfold mbind at 1. unfold M_bind. rewrite Hl in El'. rewrite El'.
    apply store_and_persist. }
  destruct b.
  - exists l1. split; [exact Hall1|]. split; [exact Honly1|].
    split; [now apply Hfind1|]. split; [congruence|].
    apply Hput. now rewrite (map_where_ext _ _ _ l (fun t => same_id_id_is i table t Hi)).
  - exists (l ++ [table])%list.
    split; [apply Forall_app; split; [exact Hall | repeat constructor; eauto]|].
    assert (Hnone : Forall (fun t => id_is i t = Ok false) l).
    { clear -Hall Hb. induction Hall as [|t l [b Ht] _ IH]; [constructor|].
      simpl in Hb. rewrite Ht in Hb. simpl in Hb. destruct b; [discriminate|].
      constructor; [exact Ht | now apply IH]. }
    split.
    { intros t Ht Hid. apply elem_of_app in Ht as [Ht|Ht].
      - rewrite Forall_forall in Hnone. specialize (Hnone _ Ht). congruence.
      - now apply list_elem_of_singleton in Ht. }
    split; [now apply find_after_append|].
    split.
    { clear -Hnone Hi. induction Hnone as [|t l Ht _ IH]; simpl.
      - now rewrite Hi.
      - rewrite Ht. exact IH. }
    apply Hput. now rewrite Hl.
Qed.

(** A table that was put is found, and putting it again changes nothing. *)
Theorem put_table_then_get diagramId table i now now' (s : @page W) d l :
  Map_get (KStr diagramId) (diagrams s) = Some d ->
  or_empty (lookup "tables" d) = VArr l ->
  Forall (fun t => exists b, id_is i t = Ok b) l ->
  id_is i table = Ok true ->
  let s1 := (putTable api new_Date diagramId table now s).2 in
  let s2 := (putTable api new_Date diagramId table now' s1).2 in
  getTable api new_Date i diagramId s1 = (Ok table, s1) /\
  (listTables api new_Date diagramId s2).1 = (listTables api new_Date diagramId s1).1.
Proof.
  intros H Hl Hall Hi. cbv zeta.
  destruct (putTable_hit _ _ _ now _ _ _ H Hl Hall Hi)
    as (l1 & Hall1 & Honly1 & Hfind1 & Hsome1 & E1).
  cbv zeta in E1. rewrite E1. simpl snd.
  set (d1 := touched now (set_prop "tables" (VArr l1) d)) in *.
  match goal with |- context [getTable _ _ _ _ ?s1] => set (s1' := s1) end.
  assert (Hget : Map_get (KStr diagramId) (diagrams s1') = Some d1)
    by (simpl; apply Map_get_set).
  assert (Hl1 : or_empty (lookup "tables" d1) = VArr l1)
    by (unfold d1; apply (lookup_written Tables)).
  split.
  - unfold getTable. rewrite (getItem_hit _ _ _ _ _ Hget).
    change (property Tables) with "tables". rewrite Hl1. simpl. now rewrite Hfind1.
  - destruct (putTable_hit _ _ _ now' _ _ _ Hget Hl1 Hall1 Hi)
      as (l2 & Hall2 & Honly2 & Hfind2 & Hsome2 & E2).
    (* the second list is the first *)
    assert (l2 = l1) as ->.
    { cbv zeta in E2.
      assert (E2' := E2). unfold putTable in E2'. unfold mbind at 1 in E2'.
      unfold M_bind in E2'. rewrite (requireDiagram_hit _ _ _ Hget) in E2'.
      unfold mbind at 1 in E2'. unfold M_bind, lift in E2'. rewrite Hl1 in E2'.
      simpl array_of in E2'. cbv iota in E2'.
      unfold mbind at 1 in E2'. unfold M_bind in E2'.
      rewrite (some_ext _ _ l1 (fun t => same_id_id_is i table t Hi)), Hsome1 in E2'.
      unfold mbind at 1 in E2'. unfold M_bind in E2'.
      rewrite (map_where_ext _ _ _ l1 (fun t => same_id_id_is i table t Hi)) in E2'.
      rewrite (replace_again _ _ _ Hall1 Honly1) in E2'.
      rewrite store_and_persist in E2'.
      apply (f_equal (fun p => Map_get (KStr diagramId) (diagrams p.2))) in E2'.
      simpl in E2'. rewrite !Map_get_set in E2'.
      apply (f_equal (fun o => option_map (lookup "tables") o)) in E2'. simpl in E2'.
      rewrite !touched_other, !lookup_set_prop in E2' by discriminate.
      congruence. }
    cbv zeta in E2. rewrite E2. simpl snd.
    set (d2 := touched now' (set_prop "tables" (VArr l1) d1)).
    match goal with |- context [listTables _ _ _ ?s2] => set (s2' := s2) end.
    assert (Hget2 : Map_get (KStr diagramId) (diagrams s2') = Some d2)
      by (simpl; apply Map_get_set).
    unfold listTables.
    rewrite (listItems_hit _ _ _ _ Hget2), (listItems_hit _ _ _ _ Hget). simpl.
    unfold d2. change "tables" with (property Tables).
    rewrite lookup_written. fold d1. change (property Tables) with "tables".
    now rewrite Hl1.
Qed.

(** Updating an item that no cached diagram holds does nothing. *)
Theorem update_of_unknown_item_does_nothing c id attributes now (s : @page W) :
  Forall (lacks c id) (Map_values (diagrams s)) ->
  updateItem api c id attributes now s = (Ok tt, s).
Proof.
  intros H. unfold updateItem. unfold mbind at 1. unfold M_bind, cache_values.
  unfold mbind at 1. unfold M_bind, lift. now rewrite (holder_none _ _ _ H).
Qed.

(** An update changes the first cached diagram that holds the item and
    persists it under the diagram's own id. *)
Theorem update_changes_the_first_holder c id attributes now (s : @page W)
  pre k0 dg post l k :
  diagrams s = (pre ++ (k0, dg) :: post)%list ->
  Forall (lacks c id) (Map_values pre) ->
  or_empty (lookup (property c) dg) = VArr l ->
  Forall (fun t => exists b, id_is id t = Ok b) l ->
  Exists (fun t => id_is id t = Ok true) l ->
  lookup "id" dg = VStr k ->
  exists l',
    Forall2 (updated id attributes) l l' /\
    let d1 := touched now (set_prop (property c) (VArr l') dg) in
    let put := updateWorkspace (KStr k) (document_body d1) in
    updateItem api c id attributes now s =
    ((fun _ => tt) <$> (api put (world s)).1,
     {| diagrams := Map_set (KStr k) d1 (diagrams s);
        world := (api put (world s)).2; sent := (sent s ++ [put])%list |}).
Proof.
  intros Hs Hpre Hl Hall Hex Hk.
  destruct (update_spec id attributes l Hall) as (l' & E & HR).
  exists l'. split; [exact HR|]. cbv zeta.
  unfold updateItem. unfold mbind at 1. unfold M_bind, cache_values.
  unfold mbind at 1. unfold M_bind, lift.
  rewrite Hs. unfold Map_values. rewrite fmap_app, fmap_cons. simpl snd.
  rewrite (holder_first _ _ _ _ _ _ Hpre Hl (some_found _ _ Hall Hex)).
  unfold mbind at 1. unfold M_bind. rewrite Hl. simpl array_of. cbv iota.
  unfold mbind at 1. unfold M_bind. rewrite E.
  unfold mbind at 1. unfold M_bind.
  assert (Hid : lookup "id" (set_prop (property c) (VArr l') dg) = VStr k).
  { rewrite lookup_set_prop_other; [exact Hk | apply property_not_id]. }
  rewrite Hid. simpl key_of. cbv iota.
  rewrite store_and_persist. simpl. now rewrite Hs.
Qed.

(** ** Diagrams *)

(** [addDiagram] on an object: cached at once, created on the server, and
    written over the stored one when the create is refused. *)
Lemma addDiagram_object o (s : @page W) k :
  let d :=
    set_prop "updatedAt" (VDate (new_Date (lookup "updatedAt" o)))
      (set_prop "createdAt" (VDate (new_Date (lookup "createdAt" o))) o) in
  key_of (lookup "id" d) = Ok k ->
  let create := createWorkspace (lookup "id" d) (lookup "name" d) (VObj d) in
  let update := updateWorkspace k (document_body d) in
  addDiagram api new_Date (VObj o) s =
  match (api create (world s)).1 with
  | Ok _ =>
      (Ok tt,
       {| diagrams := Map_set k d (diagrams s); world := (api create (world s)).2;
          sent := (sent s ++ [create])%list |})
  | Thrown _ =>
      ((fun _ => tt) <$> (api update (api create (world s)).2).1,
       {| diagrams := Map_set k d (diagrams s);
          world := (api update (api create (world s)).2).2;
          sent := (sent s ++ [create; update])%list |})
  | Beyond =>
      (Beyond,
       {| diagrams := Map_set k d (diagrams s); world := (api create (world s)).2;
          sent := (sent s ++ [create])%list |})
  end.
Proof.
  intros d Hk create update. unfold addDiagram.
  unfold mbind at 1. unfold M_bind, lift.
  rewrite normalizeDiagramDates_object. fold d.
  unfold mbind at 1. unfold M_bind. rewrite Hk.
  unfold mbind at 1. unfold M_bind, cache_set, try_catch.
  unfold mbind, M_bind, await, mret, M_ret. cbn [world diagrams sent fst snd].
  fold create update.
  destruct (api create (world s)) as [[v|e|] w1];
    cbn [fst snd world diagrams sent]; try reflexivity.
  destruct (api update w1) as [[v|e'|] w2]; cbn [fst snd fmap result_fmap];
    rewrite <- app_assoc; reflexivity.
Qed.

(** [updateDiagram] stores the changed diagram under the id it has after
    the change. *)
Theorem diagram_update_is_stored_under_its_own_id id attributes now (s : @page W) d0 k :
  Map_get (KStr id) (diagrams s) = Some d0 ->
  lookup "id" (merge d0 attributes) = VStr k ->
  let d := touched now (merge d0 attributes) in
  let c := updateWorkspace (KStr k) (document_body d) in
  updateDiagram api new_Date id attributes now s =
    ((fun _ => tt) <$> (api c (world s)).1,
     {| diagrams := Map_set (KStr k) d (diagrams s);
        world := (api c (world s)).2; sent := (sent s ++ [c])%list |}) /\
  (k <> id -> Map_get (KStr id) (Map_set (KStr k) d (diagrams s)) = Some d0) /\
  (forall p, p <> "updatedAt" -> p ∉ attributes.*1 -> lookup p d = lookup p d0).
Proof.
  intros Hget Hk d c. split; [|split].
  - unfold updateDiagram. unfold mbind at 1. unfold M_bind.
    rewrite (getCachedOrFetch_hit _ _ _ Hget). fold d.
    assert (Hid : lookup "id" d = VStr k)
      by (unfold d; now rewrite touched_other by discriminate).
    unfold mbind at 1. unfold M_bind, lift. rewrite Hid. cbn [key_of].
    apply store_and_persist.
  - intros Hne. rewrite Map_get_set_other by congruence. exact Hget.
  - intros p Hp Hnot. unfold d. rewrite touched_other by exact Hp.
    now apply lookup_merge_other.
Qed.

Lemma Map_get_set_kept k k' d d' m :
  Map_get k m = None -> Map_get k' m = Some d' ->
  Map_get k' (Map_set k d m) = Some d'.
Proof.
  intros Hk Hk'. rewrite Map_get_set_other; [exact Hk'|]. congruence.
Qed.

(** What the loop of [listDiagrams] keeps: it only reads from the server,
    forgets nothing, and returns cached diagrams. *)
Lemma listDiagrams_loop_reads ws : forall results (s : @page W),
  Forall (fun d => exists k, Map_get k (diagrams s) = Some d) results ->
  let '(r, s1) := listDiagrams_loop api new_Date ws results s in
  (exists ks, sent s1 = (sent s ++ (getWorkspace <$> ks))%list) /\
  (forall k d, Map_get k (diagrams s) = Some d -> Map_get k (diagrams s1) = Some d) /\
  match r with
  | Ok out => Forall (fun d => exists k, Map_get k (diagrams s1) = Some d) out
  | _ => True
  end.
Proof.
  induction ws as [|w ws IH]; intros results s Hres.
  - simpl. split; [exists []; simpl; now rewrite app_nil_r|]. split; [auto | exact Hres].
  - cbn [listDiagrams_loop]. unfold mbind at 1. unfold M_bind, lift.
    destruct (get_prop "id" w) as [idv|e|];
      [|split; [exists []; simpl; now rewrite app_nil_r | split; auto]..].
    unfold mbind at 1. unfold M_bind.
    destruct (key_of idv) as [k|e|];
      [|split; [exists []; simpl; now rewrite app_nil_r | split; auto]..].
    unfold mbind at 1. unfold M_bind, cache_get.
    destruct (Map_get k (diagrams s)) as [d|] eqn:Hk.
    + apply IH. apply Forall_app. split; [exact Hres|]. repeat constructor. eauto.
    + unfold mbind at 1. unfold M_bind, try_catch.
      unfold mbind at 1. unfold M_bind, await.
      destruct (api (getWorkspace k) (world s)) as [[full|e|] w1]; cbn [fst snd].
      * unfold mbind at 1. unfold M_bind, lift.
        destruct (get_prop "diagram" full) as [dg|e|].
        -- unfold mbind at 1. unfold M_bind.
           destruct (normalizeDiagramDates new_Date dg) as [d|e|].
           ++ unfold mbind at 1. unfold M_bind, cache_set. cbn [mret M_ret].
              match goal with
              | |- context [listDiagrams_loop _ _ ws ?res ?st] =>
                  specialize (IH res st)
              end.
              cbn [diagrams world sent] in IH.
              destruct (listDiagrams_loop api new_Date ws _ _) as [r s1].
              destruct IH as ((ks & Hs) & Hkeep & Hout).
              { apply Forall_app. split.
                - eapply Forall_impl; [exact Hres|].
                  intros d' (k' & Hd'). exists k'.
                  now apply Map_get_set_kept.
                - repeat constructor. exists k. apply Map_get_set. }
              split; [exists (k :: ks); rewrite Hs, <- app_assoc; reflexivity|].
              split; [|exact Hout].
              intros k' d' Hd'. apply Hkeep. now apply Map_get_set_kept.
           ++ cbn [mret M_ret].
              match goal with
              | |- context [listDiagrams_loop _ _ ws ?res ?st] =>
                  specialize (IH res st)
              end.
              cbn [diagrams world sent] in IH.
              destruct (listDiagrams_loop api new_Date ws _ _) as [r s1].
              destruct IH as ((ks & Hs) & Hkeep & Hout); [exact Hres|].
              split; [exists (k :: ks); rewrite Hs, <- app_assoc; reflexivity|].
              split; assumption.
           ++ split; [exists [k]; reflexivity | split; auto].
        -- cbn [mret M_ret].
           match goal with
           | |- context [listDiagrams_loop _ _ ws ?res ?st] =>
               specialize (IH res st)
           end.
           cbn [diagrams world sent] in IH.
           destruct (listDiagrams_loop api new_Date ws _ _) as [r s1].
           destruct IH as ((ks & Hs) & Hkeep & Hout); [exact Hres|].
           split; [exists (k :: ks); rewrite Hs, <- app_assoc; reflexivity|].
           split; assumption.
        -- split; [exists [k]; reflexivity | split; auto].
      * cbn [mret M_ret].
        match goal with
        | |- context [listDiagrams_loop _ _ ws ?res ?st] =>
            specialize (IH res st)
        end.
        cbn [diagrams world sent] in IH.
        destruct (listDiagrams_loop api new_Date ws _ _) as [r s1].
        destruct IH as ((ks & Hs) & Hkeep & Hout); [exact Hres|].
        split; [exists (k :: ks); rewrite Hs, <- app_assoc; reflexivity|].
        split; assumption.
      * split; [exists [k]; reflexivity | split; auto].
Qed.

(** Listing the diagrams only reads from the server and forgets nothing. *)
Theorem listing_only_reads (s : @page W) :
  let '(r, s1) := listDiagrams api new_Date s in
  (exists ks, sent s1 = (sent s ++ listWorkspaces :: (getWorkspace <$> ks))%list) /\
  (forall k d, Map_get k (diagrams s) = Some d -> Map_get k (diagrams s1) = Some d) /\
  match r with
  | Ok out => Forall (fun d => exists k, Map_get k (diagrams s1) = Some d) out
  | _ => True
  end.
Proof.
  unfold listDiagrams. unfold mbind at 1. unfold M_bind, await.
  destruct (api listWorkspaces (world s)) as [[list|e|] w1]; cbn [fst snd];
    [|split; [exists []; reflexivity | split; auto]..].
  unfold mbind at 1. unfold M_bind, lift.
  destruct (iterable list) as [ws|e|];
    [|split; [exists []; reflexivity | split; auto]..].
  match goal with
  | |- context [listDiagrams_loop _ _ ws [] ?st] =>
      pose proof (listDiagrams_loop_reads ws [] st (Forall_nil_2 _)) as H
  end.
  destruct (listDiagrams_loop api new_Date ws [] _) as [r s1].
  cbn [diagrams sent] in H. destruct H as ((ks & Hs) & Hkeep & Hout).
  split; [exists ks; rewrite Hs, <- app_assoc; reflexivity|].
  split; assumption.
Qed.

(** ** Events from the server *)

(** Applying an event of the server never writes back to the server. *)
Theorem server_update_is_not_written_back diagramId payload (s : @page W) :
  let '(r, s1) := onUpdate api new_Date diagramId payload s in
  (sent s1 = sent s \/
   sent s1 = (sent s ++ [getWorkspace (KStr diagramId)])%list) /\
  (get_prop_opt "id" payload <> VStr diagramId -> r = Ok tt /\ s1 = s).
Proof.
  unfold onUpdate.
  destruct (negb (truthy (get_prop_opt "id" payload)) ||
            negb match get_prop_opt "id" payload with
                 | VStr s0 => String.eqb s0 diagramId
                 | _ => false
                 end) eqn:Hskip.
  { simpl. split; [now left | auto]. }
  apply orb_false_elim in Hskip as [_ Hid]. apply negb_false_iff in Hid.
  destruct (get_prop_opt "id" payload) as [| | | |pid| | |] eqn:Hpid; try discriminate.
  apply String.eqb_eq in Hid. subst pid.
  unfold applyServerWorkspaceUpdate. unfold mbind at 1. unfold M_bind.
  destruct (getCachedOrFetch_cases diagramId s)
    as [(d & Hget & ->)|(Hget & r & ds & -> & Hr)].
  - simpl.
    destruct (truthy (get_prop_opt "diagram" payload)).
    + unfold mbind, M_bind, lift, cache_set.
      destruct (normalizeDiagramDates new_Date (get_prop_opt "diagram" payload));
        simpl; (split; [now left | congruence]).
    + unfold cache_set. simpl. split; [now left | congruence].
  - destruct r as [[current|]|e|]; simpl.
    + destruct (truthy (get_prop_opt "diagram" payload)).
      * unfold mbind, M_bind, lift, cache_set.
        destruct (normalizeDiagramDates new_Date (get_prop_opt "diagram" payload));
          simpl; (split; [now right | congruence]).
      * unfold cache_set. simpl. split; [now right | congruence].
    + destruct (truthy (get_prop_opt "diagram" payload)); simpl.
      * unfold mbind, M_bind, lift, cache_set.
        destruct (normalizeDiagramDates new_Date (get_prop_opt "diagram" payload));
          simpl; (split; [now right | congruence]).
      * split; [now right | congruence].
    + split; [now right | congruence].
    + split; [now right | congruence].
Qed.

(** An event that carries a document replaces the cached one. *)
Theorem server_update_replaces_document diagramId payload (s : @page W) doc r0 s0 :
  diagramId <> "" ->
  get_prop_opt "id" payload = VStr diagramId ->
  get_prop_opt "diagram" payload = VObj doc ->
  getCachedOrFetch api new_Date diagramId s = (Ok r0, s0) ->
  onUpdate api new_Date diagramId payload s =
  (Ok tt,
   {| diagrams :=
        Map_set (KStr diagramId)
          (set_prop "updatedAt" (VDate (new_Date (lookup "updatedAt" doc)))
             (set_prop "createdAt" (VDate (new_Date (lookup "createdAt" doc))) doc))
          (diagrams s0);
      world := world s0; sent := sent s0 |}).
Proof.
  intros Hne Hid Hdoc Hfetch. unfold onUpdate. rewrite Hid. simpl.
  rewrite String.eqb_refl.
  destruct (String.eqb diagramId "") eqn:E; [apply String.eqb_eq in E; contradiction|].
  simpl. unfold applyServerWorkspaceUpdate. unfold mbind at 1. unfold M_bind.
  rewrite Hfetch, Hdoc. simpl. rewrite andb_false_r.
  unfold mbind, M_bind, lift, cache_set. reflexivity.
Qed.

(** An event without a document patches the name and the time of the
    cached diagram. *)
Theorem server_update_without_document_patches diagramId payload (s : @page W) current :
  diagramId <> "" ->
  get_prop_opt "id" payload = VStr diagramId ->
  truthy (get_prop_opt "diagram" payload) = false ->
  Map_get (KStr diagramId) (diagrams s) = Some current ->
  exists d,
    onUpdate api new_Date diagramId payload s =
    (Ok tt, {| diagrams := Map_set (KStr diagramId) d (diagrams s);
               world := world s; sent := sent s |}) /\
    lookup "name" d =
      match get_prop_opt "name" payload with
      | VUndefined => lookup "name" current
      | name => name
      end /\
    lookup "updatedAt" d =
      match get_prop_opt "updatedAt" payload with
      | VUndefined => lookup "updatedAt" current
      | t => VDate (new_Date t)
      end /\
    forall k, k <> "name" -> k <> "updatedAt" -> lookup k d = lookup k current.
Proof.
  intros Hne Hid Hdoc Hget. unfold onUpdate. rewrite Hid. simpl.
  rewrite String.eqb_refl.
  destruct (String.eqb diagramId "") eqn:E; [apply String.eqb_eq in E; contradiction|].
  simpl. unfold applyServerWorkspaceUpdate. unfold mbind at 1. unfold M_bind.
  rewrite (getCachedOrFetch_hit _ _ _ Hget), Hdoc. simpl.
  unfold cache_set. eexists. split; [reflexivity|].
  destruct (get_prop_opt "name" payload) eqn:En;
    destruct (get_prop_opt "updatedAt" payload) eqn:Eu;
    repeat split;
    rewrite ?lookup_set_prop, ?lookup_set_prop_other, ?lookup_set_prop by discriminate;
    try reflexivity;
    intros k Hk1 Hk2;
    rewrite ?lookup_set_prop_other by assumption; reflexivity.
Qed.

End Cache.

(** ** The theorems on the sample page *)

Lemma edit_sends_the_whole_document_witness :
  let s := Desk.page_of Desk.alice [(KStr "w1", Desk.shop)] in
  let '(r, s1) :=
    perform Desk.api Desk.toy_Date (Add Tables Desk.customers) "w1" 9 s in
  (s1 = s /\ r <> Ok tt) \/
  exists d1,
    let c := updateWorkspace (KStr "w1") (document_body d1) in
    lookup "updatedAt" d1 = VDate (Some 9) /\
    (forall k, k <> "updatedAt" -> k <> property (target (Add Tables Desk.customers)) ->
               lookup k d1 = lookup k Desk.shop) /\
    s1 = {| diagrams := Map_set (KStr "w1") d1 (diagrams s);
            world := (Desk.api c (world s)).2; sent := (sent s ++ [c])%list |} /\
    r = (fun _ => tt) <$> (Desk.api c (world s)).1.
Proof.
  intros s.
  exact (edit_sends_the_whole_document Desk.api Desk.toy_Date
           (Add Tables Desk.customers) "w1" 9 s Desk.shop eq_refl).
Defined.

Lemma item_round_trip_witness :
  let s := Desk.page_of Desk.alice [(KStr "w1", Desk.shop)] in
  let s1 := (addItem Desk.api Desk.toy_Date Tables "w1" Desk.customers 9 s).2 in
  let s2 := (deleteItem Desk.api Desk.toy_Date Tables "t2" "w1" 10 s1).2 in
  getItem Desk.api Desk.toy_Date Tables "t2" "w1" s1 = (Ok Desk.customers, s1) /\
  getItem Desk.api Desk.toy_Date Tables "t2" "w1" s2 = (Ok VUndefined, s2) /\
  (listed_as_stored Tables = true ->
   listItems Desk.api Desk.toy_Date Tables "w1" s1 =
     (Ok (VArr ([Desk.orders] ++ [Desk.customers])%list), s1) /\
   listItems Desk.api Desk.toy_Date Tables "w1" s2 = (Ok (VArr [Desk.orders]), s2)).
Proof.
  intros s.
  assert (Hno : Forall (fun t => id_is "t2" t = Ok false) [Desk.orders])
    by (constructor; [reflexivity | constructor]).
  exact (item_round_trip Desk.api Desk.toy_Date Tables "w1" Desk.customers "t2" 9 10
           s Desk.shop [Desk.orders] eq_refl eq_refl Hno eq_refl).
Defined.

Lemma put_table_then_get_witness :
  let s := Desk.page_of Desk.alice [(KStr "w1", Desk.shop)] in
  let s1 := (putTable Desk.api Desk.toy_Date "w1" Desk.purchases 9 s).2 in
  let s2 := (putTable Desk.api Desk.toy_Date "w1" Desk.purchases 10 s1).2 in
  getTable Desk.api Desk.toy_Date "t1" "w1" s1 = (Ok Desk.purchases, s1) /\
  (listTables Desk.api Desk.toy_Date "w1" s2).1 =
  (listTables Desk.api Desk.toy_Date "w1" s1).1.
Proof.
  intros s.
  assert (Hall : Forall (fun t => exists b, id_is "t1" t = Ok b) [Desk.orders])
    by (constructor; [exists true; reflexivity | constructor]).
  exact (put_table_then_get Desk.api Desk.toy_Date "w1" Desk.purchases "t1" 9 10 s
           Desk.shop [Desk.orders] eq_refl eq_refl Hall eq_refl).
Defined.

Lemma update_changes_the_first_holder_witness :
  let s := Desk.page_of Desk.alice [(KStr "w2", Desk.plans); (KStr "w1", Desk.shop)] in
  let attributes := [("name", VStr "purchases")] in
  exists l',
    Forall2 (updated "t1" attributes) [Desk.orders] l' /\
    let d1 := touched 9 (set_prop (property Tables) (VArr l') Desk.shop) in
    let c := updateWorkspace (KStr "w1") (document_body d1) in
    updateItem Desk.api Tables "t1" attributes 9 s =
    ((fun _ => tt) <$> (Desk.api c (world s)).1,
     {| diagrams := Map_set (KStr "w1") d1 (diagrams s);
        world := (Desk.api c (world s)).2; sent := (sent s ++ [c])%list |}).
Proof.
  intros s attributes.
  assert (Hpre : Forall (lacks Tables "t1") (Map_values [(KStr "w2", Desk.plans)])).
  { constructor; [|constructor]. exists []. split; [reflexivity | constructor]. }
  assert (Hall : Forall (fun t => exists b, id_is "t1" t = Ok b) [Desk.orders])
    by (constructor; [exists true; reflexivity | constructor]).
  assert (Hex : Exists (fun t => id_is "t1" t = Ok true) [Desk.orders])
    by (constructor; reflexivity).
  exact (update_changes_the_first_holder Desk.api Tables "t1" attributes 9 s
           [(KStr "w2", Desk.plans)] (KStr "w1") Desk.shop [] [Desk.orders] "w1"
           eq_refl Hpre eq_refl Hall Hex eq_refl).
Defined.

Lemma update_of_unknown_item_does_nothing_witness :
  let s := Desk.page_of Desk.alice [(KStr "w2", Desk.plans)] in
  updateItem Desk.api Tables "t1" [("name", VStr "purchases")] 9 s = (Ok tt, s).
Proof.
  intros s.
  assert (Hpre : Forall (lacks Tables "t1") (Map_values (diagrams s))).
  { constructor; [|constructor]. exists []. split; [reflexivity | constructor]. }
  exact (update_of_unknown_item_does_nothing Desk.api Tables "t1"
           [("name", VStr "purchases")] 9 s Hpre).
Defined.

Lemma diagram_update_is_stored_under_its_own_id_witness :
  let s := Desk.page_of Desk.alice [(KStr "w1", Desk.shop)] in
  let attributes := [("id", VStr "w9")] in
  let d := touched 9 (merge Desk.shop attributes) in
  let c := updateWorkspace (KStr "w9") (document_body d) in
  updateDiagram Desk.api Desk.toy_Date "w1" attributes 9 s =
    ((fun _ => tt) <$> (Desk.api c (world s)).1,
     {| diagrams := Map_set (KStr "w9") d (diagrams s);
        world := (Desk.api c (world s)).2; sent := (sent s ++ [c])%list |}) /\
  ("w9" <> "w1" -> Map_get (KStr "w1") (Map_set (KStr "w9") d (diagrams s)) = Some Desk.shop) /\
  (forall p, p <> "updatedAt" -> p ∉ attributes.*1 -> lookup p d = lookup p Desk.shop).
Proof.
  intros s attributes.
  exact (diagram_update_is_stored_under_its_own_id Desk.api Desk.toy_Date "w1"
           attributes 9 s Desk.shop "w9" eq_refl eq_refl).
Defined.

Lemma server_update_without_document_patches_witness :
  let s := Desk.page_of Desk.alice [(KStr "w1", Desk.shop)] in
  let payload :=
    VObj [("id", VStr "w1"); ("name", VStr "Store"); ("updatedAt", VNum 1748865600000)] in
  exists d,
    onUpdate Desk.api Desk.toy_Date "w1" payload s =
    (Ok tt, {| diagrams := Map_set (KStr "w1") d (diagrams s);
               world := world s; sent := sent s |}) /\
    lookup "name" d =
      match get_prop_opt "name" payload with
      | VUndefined => lookup "name" Desk.shop
      | name => name
      end /\
    lookup "updatedAt" d =
      match get_prop_opt "updatedAt" payload with
      | VUndefined => lookup "updatedAt" Desk.shop
      | t => VDate (Desk.toy_Date t)
      end /\
    forall k, k <> "name" -> k <> "updatedAt" -> lookup k d = lookup k Desk.shop.
Proof.
  intros s payload.
  assert (Hne : "w1" <> "") by discriminate.
  exact (server_update_without_document_patches Desk.api Desk.toy_Date "w1" payload s
           Desk.shop Hne eq_refl eq_refl eq_refl).
Defined.

End Provider.

(** * The page and the server together *)

Module Network.

Import Browser Wire.

(** ** Values on the wire *)

Lemma value_nested_ind (P : value -> Prop) :
  P VUndefined -> P VNull -> (forall b, P (VBool b)) -> (forall z, P (VNum z)) ->
  (forall s, P (VStr s)) -> (forall t, P (VDate t)) ->
  (forall items, Forall P items -> P (VArr items)) ->
  (forall props, Forall (fun kv => P kv.2) props -> P (VObj props)) ->
  forall v, P v.
Proof.
  intros Hu Hn Hb Hz Hs Hd Ha Ho. fix IH 1.
  intros [| | b | z | s | t | items | props];
    [exact Hu | exact Hn | apply Hb | apply Hz | apply Hs | apply Hd | |].
  - apply Ha.
    exact ((fix all (l : list value) : Forall P l :=
              match l with
              | [] => @List.Forall_nil _ P
              | x :: rest => @List.Forall_cons _ P x rest (IH x) (all rest)
              end) items).
  - apply Ho.
    exact ((fix all (l : list (string * value)) : Forall (fun kv => P kv.2) l :=
              match l with
              | [] => @List.Forall_nil _ _
              | kv :: rest =>
                  @List.Forall_cons _ (fun kv => P kv.2) kv rest (IH kv.2) (all rest)
              end) props).
Qed.

Lemma of_json_arr items : of_json (JArr items) = VArr (of_json_items items).
Proof.
  reflexivity.
Qed.

Lemma of_json_obj props : of_json (JObj props) = VObj (of_json_props props).
Proof.
  reflexivity.
Qed.

Lemma error_page_is_no_json x : JSON.parse ("<!DOCTYPE html>" +:+ x) = None.
Proof.
  unfold JSON.parse.
  change ("<!DOCTYPE html>" +:+ x) with (String "<" ("!DOCTYPE html>" +:+ x)).
  reflexivity.
Qed.

Section Wire.

Variable toISOString : Z -> string.

Lemma to_json_arr items :
  to_json toISOString (VArr items) = Some (JArr (to_json_items toISOString items)).
Proof.
  reflexivity.
Qed.

Lemma to_json_obj props :
  to_json toISOString (VObj props) = Some (JObj (to_json_props toISOString props)).
Proof.
  reflexivity.
Qed.

Lemma plain_arr items : plain (VArr items) = forallb plain items.
Proof.
  induction items as [|x items IH]; [reflexivity|].
  change (plain (VArr (x :: items))) with (plain x && plain (VArr items)).
  now rewrite IH.
Qed.

Lemma plain_obj props : plain (VObj props) = forallb (fun kv => plain kv.2) props.
Proof.
  induction props as [|[k x] props IH]; [reflexivity|].
  change (plain (VObj ((k, x) :: props))) with (plain x && plain (VObj props)).
  now rewrite IH.
Qed.

(** Plain data goes over the wire unchanged. *)
Lemma plain_round_trip v :
  plain v = true -> exists j, to_json toISOString v = Some j /\ of_json j = v.
Proof.
  induction v as [| | b | z | s | t | items IH | props IH] using value_nested_ind;
    intros Hp; try discriminate; try (eexists; split; reflexivity).
  - rewrite plain_arr in Hp. rewrite to_json_arr. eexists. split; [reflexivity|].
    rewrite of_json_arr. f_equal.
    induction IH as [|x items Hx _ IHl]; [reflexivity|].
    simpl in Hp. apply andb_prop in Hp as [Hpx Hp].
    destruct (Hx Hpx) as (j & Ej & Hj). simpl. rewrite Ej. simpl. rewrite Hj.
    f_equal. now apply IHl.
  - rewrite plain_obj in Hp. rewrite to_json_obj. eexists. split; [reflexivity|].
    rewrite of_json_obj. f_equal.
    induction IH as [|[k x] props Hx _ IHl]; [reflexivity|].
    simpl in Hp. apply andb_prop in Hp as [Hpx Hp].
    destruct (Hx Hpx) as (j & Ej & Hj). simpl in Ej |- *. rewrite Ej. simpl.
    rewrite Hj. f_equal. now apply IHl.
Qed.

(** A property that holds plain data reads the same after the document
    went through [JSON.stringify] and [JSON.parse]. *)
Lemma lookup_round_trip k o v :
  lookup k o = v -> plain v = true ->
  lookup k (of_json_props (to_json_props toISOString o)) = v.
Proof.
  intros Hl Hp. induction o as [|[k' x] o IH]; simpl in *.
  - subst v. discriminate.
  - destruct (String.eqb k k') eqn:E.
    + subst x. destruct (plain_round_trip v Hp) as (j & -> & Hj).
      simpl. now rewrite E, Hj.
    + destruct (to_json toISOString x); simpl; [rewrite E|]; now apply IH.
Qed.

Lemma to_json_is_some v : v <> VUndefined -> is_Some (to_json toISOString v).
Proof. destruct v as [| | | | |[t|]| |]; intros H; try (eexists; reflexivity). contradiction. Qed.

End Wire.

(** ** What [request] makes of the answers of the server *)

Section Answers.

Variable reason : Z -> string.
Variable detail : Z -> string.

Lemma request_json s payload :
  (200 <= s <= 299)%Z ->
  request (json_response reason s payload) = Ok (of_json payload).
Proof.
  intros Hs. unfold request, ok. simpl.
  replace ((200 <=? s) && (s <=? 299))%Z with true by (symmetry; apply andb_true_intro; split; lia).
  simpl. now rewrite JsonText.parse_stringify.
Qed.

Lemma request_not_ok s payload :
  ~ (200 <= s <= 299)%Z ->
  request (json_response reason s payload) =
  match payload with
  | JNull => Thrown TypeError
  | _ =>
      Thrown (Error (if JS.truthy (prop "error" payload)
                     then template (prop "error" payload)
                     else "HTTP " +:+ pretty s))
  end.
Proof.
  intros Hs. unfold request, ok, json_response. cbn [status text].
  replace ((200 <=? s) && (s <=? 299))%Z with false.
  2:{ symmetry. apply andb_false_iff. lia. }
  cbn [negb]. now rewrite JsonText.parse_stringify.
Qed.

Lemma request_refusal s msg :
  ~ (200 <= s <= 299)%Z -> msg <> "" ->
  request (json_response reason s (error_body msg)) = Thrown (Error msg).
Proof.
  intros Hs Hmsg. rewrite (request_not_ok _ _ Hs). simpl.
  destruct (String.eqb msg "") eqn:E; [apply String.eqb_eq in E; contradiction|].
  reflexivity.
Qed.

Lemma request_error_page s :
  ~ (200 <= s <= 299)%Z ->
  request (error_page reason detail s) =
  Thrown (Error (if String.eqb (reason s) "" then "HTTP " +:+ pretty s else reason s)).
Proof.
  intros Hs. unfold request, ok. cbn [status error_page].
  replace ((200 <=? s) && (s <=? 299))%Z with false.
  2:{ symmetry. apply andb_false_iff. lia. }
  cbn [negb]. unfold error_page. cbn [text statusText status].
  rewrite error_page_is_no_json. simpl.
  destruct (String.eqb (reason s) ""); reflexivity.
Qed.

End Answers.

(** ** The router and the body parser *)

Lemma route_of_workspace m id :
  url_safe id = true ->
  route_of m ("/api/workspaces/" +:+ id) =
  if String.eqb m "GET" then Some (WorkspaceGet, id)
  else if String.eqb m "PUT" then Some (WorkspacePut, id)
  else None.
Proof.
  intros Hid. unfold route_of.
  change ("/api/workspaces/" +:+ id)
    with (String "/" (String "a" (String "p" (String "i" (String "/"
           (String "w" (String "o" (String "r" (String "k" (String "s"
           (String "p" (String "a" (String "c" (String "e" (String "s"
           (String "/" id)))))))))))))))).
  cbn [String.eqb Ascii.eqb Bool.eqb JSON.strip_prefix].
  destruct id; [discriminate|]. cbn [String.eqb]. now rewrite Hid.
Qed.

Section Server.

Variable hashSync : string -> string -> string.
Variable compareSync : string -> string -> bool.

(** The server answers 200, or one of its refusals with a message. *)
Lemma handle_answers e st r req s payload :
  response (handle hashSync compareSync e st r req) = Responded s payload ->
  s = 200 \/
  ((400 <= s <= 500)%Z /\ exists msg, payload = error_body msg /\ msg <> "").
Proof.
  destruct r; simpl;
    unfold post_api_auth_signup, post_api_auth_login, post_api_auth_logout,
      get_api_session, get_api_workspaces, post_api_workspaces,
      get_api_workspaces_id, put_api_workspaces_id, unauthorized, respond, throw;
    repeat case_match; simpl; intros [= <- <-];
    solve [ left; reflexivity
          | right; split; [lia | eexists; split; [reflexivity | discriminate]] ].
Qed.

Variable toISOString : Z -> string.
Variable reason : Z -> string.
Variable detail : Z -> string.
Variable env_at : nat -> env.

Local Abbreviation serve := (serve toISOString hashSync compareSync reason detail env_at).
Local Abbreviation express := (express hashSync compareSync reason detail env_at).

(** A body that is an object and fits the limit arrives as it was sent. *)
Lemma express_json_object v props :
  to_json toISOString v = Some (JObj props) ->
  (N.of_nat (String.length (JSON.stringify (JObj props))) <= limit)%N ->
  express_json (body_of toISOString v) = inr (Some (JObj props)).
Proof.
  intros Hv Hsize. unfold express_json, body_of. rewrite Hv.
  change (JSON.stringify <$> Some (JObj props))
    with (Some (JSON.stringify (JObj props))). cbv beta iota.
  rewrite (proj2 (N.ltb_ge _ _) Hsize).
  now rewrite JsonText.parse_stringify.
Qed.

Lemma put_runs e st req row nm jd :
  calm e ->
  requireAuth req = true ->
  select_workspace_of_member (db st) (params_id req) (session_uid req) = Some row ->
  body req = Some (JObj [("name", JStr nm); ("diagram", JObj jd)]) ->
  put_api_workspaces_id e st req =
  {| state :=
       with_db st
         (update_workspace (BText nm) (BText (JSON.stringify (JObj jd)))
            (now_iso e) (params_id req) (db st));
     cookie := session_userId req;
     response :=
       Responded 200 (JObj [("ok", JBool true); ("updatedAt", JStr (now_iso e))]);
     emitted :=
       io_to_emit (rooms st) (room_of (params_id req)) "workspace:update"
         (update_event (params_id req) (Some (JStr nm)) (Some (JObj jd)) (now_iso e)) |}.
Proof.
  intros Hcalm Hauth Hsel Hbody. unfold put_api_workspaces_id.
  rewrite Hauth, Hbody. simpl negb. cbv iota.
  rewrite !(run_calm _ _ _ Hcalm), Hsel. simpl.
  rewrite (run_calm _ _ _ Hcalm). reflexivity.
Qed.

(** The whole way of a [persist]: from the page through [fetch], the
    middleware and the handler, and back. *)
Lemma serve_update (w : net) id uid row doc nm :
  url_safe id = true ->
  jar w = Some uid -> uid <> 0 ->
  select_workspace_of_member (db (app w)) id uid = Some row ->
  calm (env_at (served w)) ->
  lookup "name" doc = VStr nm ->
  let sent_body := JObj [("name", JStr nm); ("diagram", JObj (to_json_props toISOString doc))] in
  (N.of_nat (String.length (JSON.stringify sent_body)) <= limit)%N ->
  let now := now_iso (env_at (served w)) in
  serve (updateWorkspace (KStr id) (document_body doc)) w =
  (Ok (VObj [("ok", VBool true); ("updatedAt", VStr now)]),
   {| app :=
        with_db (app w)
          (update_workspace (BText nm)
             (BText (JSON.stringify (JObj (to_json_props toISOString doc))))
             now id (db (app w)));
      jar := Some uid;
      outbox :=
        (outbox w ++
         io_to_emit (rooms (app w)) (room_of id) "workspace:update"
           (update_event id (Some (JStr nm))
              (Some (JObj (to_json_props toISOString doc))) now))%list;
      served := S (served w) |}).
Proof.
  intros Hid Hjar Huid Hsel Hcalm Hname sent_body Hsize now.
  unfold Wire.serve, Wire.express. cbn [api method path body_text path_id].
  rewrite (route_of_workspace _ _ Hid). cbn [String.eqb Ascii.eqb Bool.eqb].
  assert (Hbody : to_json toISOString (document_body doc) = Some sent_body).
  { unfold document_body. rewrite Hname. reflexivity. }
  rewrite (express_json_object _ _ Hbody Hsize).
  cbn [handle].
  rewrite (put_runs _ _ _ row nm (to_json_props toISOString doc)); cbn [params_id session_uid session_userId body]; try assumption; try reflexivity.
  - cbn [response state cookie emitted]. rewrite request_json by lia.
    rewrite Hjar. reflexivity.
  - unfold requireAuth. cbn [session_userId]. rewrite Hjar.
    destruct (uid =? 0)%Z eqn:E; [apply Z.eqb_eq in E; contradiction | reflexivity].
  - unfold session_uid. cbn [session_userId]. rewrite Hjar. exact Hsel.
Qed.

(** One call, from [fetch] to the value or exception of the promise. *)
Lemma serve_answer c (w : net) r id b :
  route_of (method (api toISOString c)) (path (api toISOString c)) = Some (r, id) ->
  express_json (body_text (api toISOString c)) = inr b ->
  let rep :=
    handle hashSync compareSync (env_at (served w)) (app w) r
      {| session_userId := jar w; body := b; params_id := id |} in
  serve c w =
  (match response rep with
   | Responded s payload =>
       if (s =? 200)%Z then Ok (of_json payload)
       else Thrown (Error (template (prop "error" payload)))
   | Threw _ =>
       Thrown (Error (if String.eqb (reason 500) "" then "HTTP 500" else reason 500))
   end,
   {| app := state rep; jar := cookie rep;
      outbox := (outbox w ++ emitted rep)%list; served := S (served w) |}).
Proof.
  intros Hroute Hbody rep.
  unfold Wire.serve, Wire.express. rewrite Hroute, Hbody. fold rep.
  destruct (response rep) as [s payload|err] eqn:Hresp.
  - f_equal.
    destruct (handle_answers _ _ _ _ _ _ Hresp) as [->|(Hs & msg & -> & Hmsg)].
    + now rewrite request_json by lia.
    + rewrite request_refusal by (lia || assumption).
      destruct (s =? 200)%Z eqn:E; [apply Z.eqb_eq in E; lia|]. reflexivity.
  - f_equal. rewrite request_error_page by lia. reflexivity.
Qed.

(** What the server answers is what the caller of [api] gets. *)
Theorem answers_reach_the_caller c (w : net) r id b :
  route_of (method (api toISOString c)) (path (api toISOString c)) = Some (r, id) ->
  express_json (body_text (api toISOString c)) = inr b ->
  let rep :=
    handle hashSync compareSync (env_at (served w)) (app w) r
      {| session_userId := jar w; body := b; params_id := id |} in
  serve c w =
  (match response rep with
   | Responded s payload =>
       if (s =? 200)%Z then Ok (of_json payload)
       else Thrown (Error (template (prop "error" payload)))
   | Threw _ =>
       Thrown (Error (if String.eqb (reason 500) "" then "HTTP 500" else reason 500))
   end,
   {| app := state rep; jar := cookie rep;
      outbox := (outbox w ++ emitted rep)%list; served := S (served w) |}) /\
  (forall s payload,
     response rep = Responded s payload -> s <> 200 ->
     exists msg, payload = error_body msg /\ msg <> "" /\ (400 <= s)%Z).
Proof.
  intros Hroute Hbody rep. split.
  - exact (serve_answer c w r id b Hroute Hbody).
  - intros s payload Hresp Hs.
    destruct (handle_answers _ _ _ _ _ _ Hresp) as [->|(Hr & msg & -> & Hmsg)];
      [contradiction|].
    exists msg. repeat split; [exact Hmsg | lia].
Qed.

(** Reading a workspace of which the user is a member. *)
Lemma serve_get (w : net) id uid row role v :
  url_safe id = true ->
  jar w = Some uid -> uid <> 0 ->
  workspaces (db (app w)) !! id = Some row ->
  workspace_members (db (app w)) !! (uid, id) = Some role ->
  diagram_json row = JSON.stringify v ->
  calm (env_at (served w)) ->
  serve (getWorkspace (KStr id)) w =
  (Ok (VObj [("id", VStr id); ("name", VStr (name row)); ("diagram", of_json v);
             ("updatedAt", VStr (updated_at row))]),
   {| app := app w; jar := Some uid; outbox := outbox w; served := S (served w) |}).
Proof.
  intros Hid Hjar Huid Hrow Hmem Hjson Hcalm.
  assert (Hauth : requireAuth {| session_userId := jar w; body := None; params_id := id |} = true).
  { unfold requireAuth. cbn [session_userId]. rewrite Hjar.
    destruct (uid =? 0)%Z eqn:E; [apply Z.eqb_eq in E; contradiction | reflexivity]. }
  set (req := {| session_userId := jar w; body := None; params_id := id |}) in *.
  assert (Hmem' : workspace_members (db (app w)) !! (session_uid req, params_id req) = Some role).
  { unfold session_uid, req. cbn [session_userId params_id]. rewrite Hjar. exact Hmem. }
  rewrite (serve_answer _ w WorkspaceGet id None).
  - cbn [handle]. fold req.
    rewrite (get_known_row _ _ req row role Hcalm Hauth Hrow Hmem' v Hjson).
    unfold respond. cbn [response state cookie emitted Z.eqb Pos.eqb].
    rewrite app_nil_r. unfold req. cbn [session_userId params_id]. rewrite Hjar.
    reflexivity.
  - cbn [api method path path_id]. now rewrite (route_of_workspace _ _ Hid).
  - reflexivity.
Qed.


Variable new_Date : value -> option Z.

(** An edit made on one page reaches every page that shows the diagram. *)
Theorem edit_reaches_the_other_pages ed id now (sA : @page net) d uid row nm r sA1 d1 :
  Map_get (KStr id) (diagrams sA) = Some d ->
  lookup "name" d = VStr nm ->
  url_safe id = true ->
  jar (world sA) = Some uid -> uid <> 0 ->
  select_workspace_of_member (db (app (world sA))) id uid = Some row ->
  calm (env_at (served (world sA))) ->
  perform serve new_Date ed id now sA = (r, sA1) ->
  sent sA1 <> sent sA ->
  Map_get (KStr id) (diagrams sA1) = Some d1 ->
  (N.of_nat
     (String.length
        (JSON.stringify
           (JObj [("name", JStr nm);
                  ("diagram", JObj (to_json_props toISOString d1))]))) <= limit)%N ->
  r = Ok tt /\
  (exists row',
     workspaces (db (app (world sA1))) !! id = Some row' /\
     diagram_json row' = JSON.stringify (JObj (to_json_props toISOString d1))) /\
  forall sock, sock ∈ members_of (rooms (app (world sA))) (room_of id) ->
    exists ev,
      received sock (outbox (world sA1)) =
        (received sock (outbox (world sA)) ++
         [{| dest := sock; event := "workspace:update"; data := ev |}])%list /\
      forall (W' : Type) (api' : call -> W' -> result value * W')
             (new_Date' : value -> option Z) (sB : @page W') r0 s0,
        getCachedOrFetch api' new_Date' id sB = (Ok r0, s0) ->
        exists dB,
          Map_get (KStr id) (diagrams (onUpdate api' new_Date' id (of_json ev) sB).2)
            = Some dB /\
          forall k, k <> "createdAt" -> k <> "updatedAt" ->
                    plain (lookup k d1) = true -> lookup k dB = lookup k d1.
Proof.
  intros Hget Hname Hid Hjar Huid Hsel Hcalm Hrun Hsent Hget1 Hsize.
  destruct (Provider.perform_shape serve new_Date ed id now sA d Hget)
    as [(r' & E & _)|(l' & E)]; rewrite E in Hrun.
  { injection Hrun as _ <-. contradiction. }
  rewrite Provider.store_and_persist in Hrun.
  set (d' := touched now (set_prop (property (target ed)) (VArr l') d)) in *.
  assert (d1 = d') as ->.
  { injection Hrun as _ <-. simpl in Hget1. rewrite Provider.Map_get_set in Hget1.
    congruence. }
  assert (Hname' : lookup "name" d' = VStr nm).
  { unfold d'. rewrite Provider.touched_other by discriminate.
    rewrite Provider.lookup_set_prop_other; [exact Hname|].
    apply Provider.property_not_name. }
  rewrite (serve_update (world sA) id uid row d' nm Hid Hjar Huid Hsel Hcalm Hname' Hsize)
    in Hrun.
  injection Hrun as <- <-. cbn [world app outbox fst snd].
  split; [reflexivity|]. split.
  { apply member_select in Hsel as [Hrow _].
    unfold with_db, update_workspace. cbn [db]. rewrite Hrow. cbn [workspaces].
    rewrite lookup_insert_eq. eexists. split; reflexivity. }
  intros sock Hsock. eexists. split.
  { unfold received. rewrite filter_app. fold (received sock (outbox (world sA))).
    f_equal.
    change (filter (fun dl => dest dl = sock) ?l) with (received sock l).
    rewrite received_io_to_emit. now rewrite decide_True. }
  intros W' api' new_Date' sB r0 s0 Hfetch.
  assert (Hne : String.eqb id "" = false).
  { destruct id; [discriminate | reflexivity]. }
  unfold onUpdate, update_event. cbn [Server.object]. rewrite of_json_obj.
  cbn [of_json_props of_json get_prop_opt lookup String.eqb Ascii.eqb Bool.eqb truthy].
  rewrite String.eqb_refl, Hne. cbn [negb orb].
  unfold applyServerWorkspaceUpdate. unfold mbind at 1. unfold M_bind.
  rewrite Hfetch.
  change (of_json (JObj (to_json_props toISOString d')))
    with (VObj (of_json_props (to_json_props toISOString d'))).
  cbn [truthy negb andb]. rewrite andb_false_r.
  unfold mbind, M_bind, lift, cache_set.
  rewrite Provider.normalizeDiagramDates_object.
  cbn [snd diagrams]. rewrite Provider.Map_get_set. eexists. split; [reflexivity|].
  intros k Hk1 Hk2 Hplain.
  rewrite !Provider.lookup_set_prop_other by assumption.
  exact (lookup_round_trip toISOString k d' _ eq_refl Hplain).
Qed.

(** A diagram deleted on the page comes back from the server. *)
Theorem deleted_diagram_comes_back id (s : @page net) uid row role doc :
  url_safe id = true ->
  jar (world s) = Some uid -> uid <> 0 ->
  workspaces (db (app (world s))) !! id = Some row ->
  workspace_members (db (app (world s))) !! (uid, id) = Some role ->
  diagram_json row = JSON.stringify (JObj doc) ->
  calm (env_at (served (world s))) ->
  let s1 := (deleteDiagram id s).2 in
  Map_get (KStr id) (diagrams s1) = None /\
  sent s1 = sent s /\ world s1 = world s /\
  exists d,
    (getDiagram serve new_Date id s1).1 = Ok (Some d) /\
    forall k, k <> "createdAt" -> k <> "updatedAt" ->
              lookup k d = lookup k (of_json_props doc).
Proof.
  intros Hid Hjar Huid Hrow Hmem Hjson Hcalm. cbv zeta.
  unfold deleteDiagram, cache_delete. cbn [snd diagrams sent world].
  split; [apply Provider.Map_get_delete|]. do 2 (split; [reflexivity|]).
  unfold getDiagram.
  rewrite Provider.getCachedOrFetch_miss by (cbn [diagrams]; apply Provider.Map_get_delete).
  cbn [world].
  rewrite (serve_get (world s) id uid row role (JObj doc) Hid Hjar Huid Hrow Hmem Hjson Hcalm).
  cbn [fst snd get_prop lookup String.eqb Ascii.eqb Bool.eqb mbind result_bind].
  rewrite of_json_obj, Provider.normalizeDiagramDates_object. cbn [fst].
  eexists. split; [reflexivity|].
  intros k Hk1 Hk2. now rewrite !Provider.lookup_set_prop_other by assumption.
Qed.

Lemma truthy_nonempty_string x : x <> "" -> JS.truthy (Some (JStr x)) = true.
Proof.
  intros H. simpl. destruct (String.eqb x "") eqn:E; [|reflexivity].
  apply String.eqb_eq in E. contradiction.
Qed.

(** The sign-in button logs in when the email is already registered. *)
Theorem signIn_falls_back_to_login em pw (s : @page net) uid u :
  em <> "" -> pw <> "" ->
  select_user_by_email (db (app (world s))) em = Some (uid, u) ->
  uid <> 0 ->
  calm (env_at (served (world s))) ->
  calm (env_at (S (served (world s)))) ->
  calm (env_at (S (S (served (world s))))) ->
  (N.of_nat
     (String.length
        (JSON.stringify (JObj [("email", JStr em); ("password", JStr pw)]))) <= limit)%N ->
  let w := world s in
  signIn serve (Some em) (Some pw) s =
  if compareSync pw (password_hash u) then
    (Ok (Some (VObj [("id", VNum uid); ("email", VStr em)])),
     {| diagrams := diagrams s;
        world := {| app := app w; jar := Some uid; outbox := outbox w;
                    served := S (S (S (served w))) |};
        sent := (sent s ++ [signup em pw; login em pw; session])%list |})
  else
    (Thrown (Error "Invalid credentials"),
     {| diagrams := diagrams s;
        world := {| app := app w; jar := jar w; outbox := outbox w;
                    served := S (S (served w)) |};
        sent := (sent s ++ [signup em pw; login em pw])%list |}).
Proof.
  intros Hem Hpw Hsel Huid Hc0 Hc1 Hc2 Hsize. cbv zeta.
  remember (world s) as w eqn:Hw.
  destruct (select_user_by_email_Some _ _ _ _ Hsel) as [Hu Hemail].
  set (creds := JObj [("email", JStr em); ("password", JStr pw)]) in *.
  assert (Hbody : forall c, c = signup em pw \/ c = login em pw ->
            express_json (body_text (api toISOString c)) = inr (Some creds)).
  { intros c [->| ->]; cbn [api body_text];
      apply express_json_object; try exact Hsize; reflexivity. }
  assert (Hte : String.eqb em "" = false).
  { destruct (String.eqb em "") eqn:E; [apply String.eqb_eq in E; contradiction | reflexivity]. }
  assert (Htp : String.eqb pw "" = false).
  { destruct (String.eqb pw "") eqn:E; [apply String.eqb_eq in E; contradiction | reflexivity]. }
  (* sign-up is refused: the email is taken *)
  assert (Hsignup : serve (signup em pw) w =
            (Thrown (Error "Email already exists"),
             {| app := app w; jar := jar w; outbox := outbox w;
                served := S (served w) |})).
  { rewrite (serve_answer (signup em pw) w AuthSignup "" (Some creds) eq_refl (Hbody _ (or_introl eq_refl))).
    cbn [handle]. unfold post_api_auth_signup.
    cbn [body body_or_empty creds JS.truthy nullish_or prop assoc String.eqb Ascii.eqb Bool.eqb].
    unfold body_or_empty. cbn [JS.truthy nullish_or prop assoc String.eqb Ascii.eqb Bool.eqb].
    rewrite Hte, Htp. cbn [negb orb nullish_or]. bind_now. cbv iota.
    rewrite (run_calm _ _ _ Hc0). unfold insert_user. cbn [as_text]. rewrite Hsel.
    cbn [includes]. unfold respond.
    cbn [response state cookie emitted session_userId Z.eqb Pos.eqb template prop assoc error_body String.eqb Ascii.eqb Bool.eqb to_String].
    now rewrite app_nil_r. }
  set (w1 := {| app := app w; jar := jar w; outbox := outbox w;
                served := S (served w) |}) in *.
  (* login *)
  assert (Hlogin : serve (login em pw) w1 =
            if compareSync pw (password_hash u) then
              (Ok (VObj [("id", VNum uid); ("email", VStr em)]),
               {| app := app w; jar := Some uid; outbox := outbox w;
                  served := S (S (served w)) |})
            else
              (Thrown (Error "Invalid credentials"),
               {| app := app w; jar := jar w; outbox := outbox w;
                  served := S (S (served w)) |})).
  { rewrite (serve_answer (login em pw) w1 AuthLogin "" (Some creds) eq_refl (Hbody _ (or_intror eq_refl))).
    cbn [handle]. unfold post_api_auth_login.
    cbn [body]. unfold body_or_empty.
    cbn [creds JS.truthy nullish_or prop assoc String.eqb Ascii.eqb Bool.eqb].
    rewrite Hte, Htp. cbn [negb orb nullish_or w1 served app]. bind_now. cbv iota.
    rewrite (run_calm _ _ _ Hc1). rewrite Hsel.
    destruct (compareSync pw (password_hash u)); cbn [negb]; unfold respond;
      cbn [response state cookie emitted session_userId Z.eqb Pos.eqb template prop
           assoc error_body String.eqb Ascii.eqb Bool.eqb to_String jar outbox];
      rewrite app_nil_r, ?Hemail; reflexivity. }
  unfold signIn.
  destruct em as [|c0 em0]; [contradiction|]. destruct pw as [|p0 pw0]; [contradiction|].
  unfold mbind at 1. unfold M_bind, try_catch, await. unfold mbind at 1 2. unfold M_bind.
  rewrite <- Hw. rewrite Hsignup. cbn [fst snd world diagrams sent]. fold w1.
  rewrite Hlogin.
  destruct (compareSync (String p0 pw0) (password_hash u)); cbn [fst snd mret M_ret].
  - unfold mbind at 1. unfold M_bind, await. cbn [world diagrams sent].
    set (w2 := {| app := app w; jar := Some uid; outbox := outbox w;
                  served := S (S (served w)) |}).
    assert (Hsession : serve session w2 =
              (Ok (VObj [("user", VObj [("id", VNum uid); ("email", VStr (String c0 em0))])]),
               {| app := app w; jar := Some uid; outbox := outbox w;
                  served := S (S (S (served w))) |})).
    { rewrite (serve_answer session w2 SessionGet "" None eq_refl eq_refl).
      cbn [handle]. unfold get_api_session, requireAuth, session_uid.
      cbn [session_userId w2 jar default from_option app served]. unfold id.
      destruct (uid =? 0)%Z eqn:E; [apply Z.eqb_eq in E; contradiction|]. cbn [negb].
      rewrite (run_calm _ _ _ Hc2). unfold select_user_by_id. rewrite Hu.
      unfold respond.
      cbn [fmap option_fmap option_map Server.object response state cookie emitted
           session_userId Z.eqb Pos.eqb outbox].
      rewrite app_nil_r, Hemail. reflexivity. }
    rewrite Hsession. cbn [fst snd]. rewrite <- !app_assoc. reflexivity.
  - rewrite <- !app_assoc. reflexivity.
Qed.

Lemma requireAuth_jar (w : net) uid b id :
  jar w = Some uid -> uid <> 0 ->
  requireAuth {| session_userId := jar w; body := b; params_id := id |} = true.
Proof.
  intros Hjar Huid. unfold requireAuth. cbn [session_userId]. rewrite Hjar.
  destruct (uid =? 0)%Z eqn:E; [apply Z.eqb_eq in E; contradiction | reflexivity].
Qed.

Lemma nonempty_eqb x : x <> "" -> String.eqb x "" = false.
Proof.
  intros H. destruct (String.eqb x "") eqn:E; [apply String.eqb_eq in E; contradiction | reflexivity].
Qed.

(** A diagram that was added is there again after the page is reloaded. *)
Theorem added_diagram_survives_a_reload o (s : @page net) id nm uid :
  lookup "id" o = VStr id -> lookup "name" o = VStr nm -> nm <> "" ->
  url_safe id = true ->
  jar (world s) = Some uid -> uid <> 0 ->
  db_consistent (db (app (world s))) = true ->
  is_Some (users (db (app (world s))) !! uid) ->
  workspaces (db (app (world s))) !! id = None ->
  calm (env_at (served (world s))) ->
  calm (env_at (S (served (world s)))) ->
  let d :=
    set_prop "updatedAt" (VDate (new_Date (lookup "updatedAt" o)))
      (set_prop "createdAt" (VDate (new_Date (lookup "createdAt" o))) o) in
  (N.of_nat
     (String.length
        (JSON.stringify
           (JObj [("id", JStr id); ("name", JStr nm);
                  ("diagram", JObj (to_json_props toISOString d))]))) <= limit)%N ->
  let s1 := (addDiagram serve new_Date (VObj o) s).2 in
  let reloaded := {| diagrams := []; world := world s1; sent := [] |} in
  Map_get (KStr id) (diagrams s1) = Some d /\
  sent s1 = (sent s ++ [createWorkspace (VStr id) (VStr nm) (VObj d)])%list /\
  exists d2,
    (getDiagram serve new_Date id reloaded).1 = Ok (Some d2) /\
    forall k, k <> "createdAt" -> k <> "updatedAt" ->
              plain (lookup k o) = true -> lookup k d2 = lookup k o.
Proof.
  intros Hido Hnameo Hnm Hid Hjar Huid Hcons Huser Hfresh Hc0 Hc1 d Hsize.
  assert (Hidd : lookup "id" d = VStr id)
    by (unfold d; now rewrite !Provider.lookup_set_prop_other by discriminate).
  assert (Hnamed : lookup "name" d = VStr nm)
    by (unfold d; now rewrite !Provider.lookup_set_prop_other by discriminate).
  set (jd := JObj (to_json_props toISOString d)) in *.
  set (sent_body := JObj [("id", JStr id); ("name", JStr nm); ("diagram", jd)]) in *.
  remember (world s) as w eqn:Hw.
  set (req := {| session_userId := jar w; body := Some sent_body; params_id := "" |}).
  assert (Hne : id <> "") by (intros ->; discriminate).
  assert (Hsu : session_uid req = uid)
    by (unfold session_uid, req; cbn [session_userId]; now rewrite Hjar).
  (* the create is accepted *)
  assert (Hcreate :
    serve (createWorkspace (VStr id) (VStr nm) (VObj d)) w =
    (Ok (VObj [("id", VStr id); ("name", VStr nm)]),
     {| app :=
          with_db (app w)
            {| users := users (db (app w)); users_seq := users_seq (db (app w));
               workspaces :=
                 <[id := {| name := nm; owner_id := uid;
                            diagram_json := JSON.stringify jd;
                            created_at := sql_datetime (env_at (served w));
                            updated_at := sql_datetime (env_at (served w)) |}]>
                   (workspaces (db (app w)));
               workspaces_null := workspaces_null (db (app w));
               workspace_members :=
                 <[(uid, id) := "owner"]> (workspace_members (db (app w))) |};
        jar := Some uid; outbox := outbox w; served := S (served w) |})).
  { rewrite (serve_answer (createWorkspace (VStr id) (VStr nm) (VObj d)) w
               WorkspacesCreate "" (Some sent_body) eq_refl).
    2:{ cbn [api body_text]. apply express_json_object; [reflexivity | exact Hsize]. }
    cbn [handle]. fold req.
    rewrite (post_fresh _ _ req id nm); try assumption; try reflexivity;
      try (rewrite Hsu; assumption);
      try apply Hc0;
      try (apply requireAuth_jar with (uid := uid); assumption).
    unfold respond. cbn [response state cookie emitted Z.eqb Pos.eqb].
    rewrite app_nil_r, Hsu. unfold req. cbn [session_userId]. rewrite Hjar.
    reflexivity. }
  cbv zeta.
  rewrite (Provider.addDiagram_object serve new_Date o s (KStr id))
    by (fold d; now rewrite Hidd).
  fold d. rewrite Hidd, Hnamed, <- Hw, Hcreate. cbn [fst snd diagrams sent world].
  split; [apply Provider.Map_get_set|]. split; [reflexivity|].
  unfold getDiagram. rewrite Provider.getCachedOrFetch_miss by reflexivity.
  cbn [world].
  match goal with
  | |- context [serve (getWorkspace (KStr id)) ?x] => set (w1 := x)
  end.
  assert (Hc1' : calm (env_at (served w1))) by exact Hc1.
  rewrite (serve_get w1 id uid _ "owner" jd Hid eq_refl Huid
             (lookup_insert_eq _ _ _) (lookup_insert_eq _ _ _) eq_refl Hc1').
  cbn [fst snd get_prop lookup String.eqb Ascii.eqb Bool.eqb mbind result_bind name updated_at].
  unfold jd. rewrite of_json_obj, Provider.normalizeDiagramDates_object. cbn [fst].
  eexists. split; [reflexivity|].
  intros k Hk1 Hk2 Hplain.
  rewrite !Provider.lookup_set_prop_other by assumption.
  assert (Hkd : lookup k d = lookup k o)
    by (unfold d; now rewrite !Provider.lookup_set_prop_other by assumption).
  rewrite <- Hkd in *. exact (lookup_round_trip toISOString k d _ eq_refl Hplain).
Qed.

(** Adding a diagram whose workspace exists writes over the stored
    document. *)
Theorem addDiagram_overwrites_a_stored_workspace o (s : @page net) id nm uid row :
  lookup "id" o = VStr id -> lookup "name" o = VStr nm -> nm <> "" ->
  url_safe id = true ->
  jar (world s) = Some uid -> uid <> 0 ->
  select_workspace_of_member (db (app (world s))) id uid = Some row ->
  calm (env_at (served (world s))) ->
  calm (env_at (S (served (world s)))) ->
  let d :=
    set_prop "updatedAt" (VDate (new_Date (lookup "updatedAt" o)))
      (set_prop "createdAt" (VDate (new_Date (lookup "createdAt" o))) o) in
  let jd := JObj (to_json_props toISOString d) in
  (N.of_nat
     (String.length
        (JSON.stringify
           (JObj [("id", JStr id); ("name", JStr nm); ("diagram", jd)]))) <= limit)%N ->
  (N.of_nat
     (String.length
        (JSON.stringify (JObj [("name", JStr nm); ("diagram", jd)]))) <= limit)%N ->
  let create := createWorkspace (VStr id) (VStr nm) (VObj d) in
  let update := updateWorkspace (KStr id) (document_body d) in
  let out := addDiagram serve new_Date (VObj o) s in
  out.1 = Ok tt /\
  sent out.2 = (sent s ++ [create; update])%list /\
  workspaces (db (app (world out.2))) !! id =
    Some {| name := nm; owner_id := owner_id row;
            diagram_json := JSON.stringify jd;
            created_at := created_at row;
            updated_at := now_iso (env_at (S (served (world s)))) |}.
Proof.
  intros Hido Hnameo Hnm Hid Hjar Huid Hsel Hc0 Hc1 d jd Hsize1 Hsize2 create update.
  assert (Hidd : lookup "id" d = VStr id)
    by (unfold d; now rewrite !Provider.lookup_set_prop_other by discriminate).
  assert (Hnamed : lookup "name" d = VStr nm)
    by (unfold d; now rewrite !Provider.lookup_set_prop_other by discriminate).
  set (sent_body := JObj [("id", JStr id); ("name", JStr nm); ("diagram", jd)]) in *.
  remember (world s) as w eqn:Hw.
  set (req := {| session_userId := jar w; body := Some sent_body; params_id := "" |}).
  assert (Hne : id <> "") by (intros ->; discriminate).
  destruct (member_select _ _ _ _ Hsel) as [Hrow _].
  (* the create is refused: the id is taken *)
  assert (Hcreate :
    serve create w =
    (Thrown (Error "Workspace already exists"),
     {| app := app w; jar := jar w; outbox := outbox w; served := S (served w) |})).
  { unfold create.
    rewrite (serve_answer (createWorkspace (VStr id) (VStr nm) (VObj d)) w
               WorkspacesCreate "" (Some sent_body) eq_refl).
    2:{ cbn [api body_text]. apply express_json_object; [reflexivity | exact Hsize1]. }
    cbn [handle]. fold req.
    rewrite (post_taken _ _ req id nm row); try assumption; try reflexivity;
      try apply Hc0; try (apply requireAuth_jar with (uid := uid); assumption).
    unfold respond. cbn [response state cookie emitted Z.eqb Pos.eqb].
    rewrite app_nil_r. reflexivity. }
  set (w1 := {| app := app w; jar := jar w; outbox := outbox w; served := S (served w) |}) in *.
  assert (Hupdate := serve_update w1 id uid row d nm Hid Hjar Huid Hsel Hc1 Hnamed Hsize2).
  cbv zeta in Hupdate. cbv zeta.
  rewrite (Provider.addDiagram_object serve new_Date o s (KStr id))
    by (fold d; now rewrite Hidd).
  fold d. rewrite Hidd, Hnamed, <- Hw. fold create update.
  rewrite Hcreate. cbn [fst snd]. fold w1. unfold update. rewrite Hupdate.
  cbn [fst snd fmap result_fmap sent world app].
  split; [reflexivity|]. split; [reflexivity|].
  unfold with_db, update_workspace. cbn [db w1 app]. rewrite Hrow. cbn [workspaces].
  now rewrite lookup_insert_eq.
Qed.

End Server.

(** ** The theorems on the sample deployment *)

Lemma calm_desk k : calm (Desk.env_at k).
Proof. intros n. reflexivity. Defined.

Lemma answers_reach_the_caller_witness :
  let c := getWorkspace (KStr "w1") in
  let rep :=
    handle Sample.toy_hash Sample.toy_compare (Desk.env_at 0) Sample.live WorkspaceGet
      {| session_userId := Some 2; body := None; params_id := "w1" |} in
  Desk.api c Desk.bob =
  (match response rep with
   | Responded s payload =>
       if (s =? 200)%Z then Ok (of_json payload)
       else Thrown (Error (template (prop "error" payload)))
   | Threw _ =>
       Thrown (Error (if String.eqb (Desk.reason 500) "" then "HTTP 500"
                      else Desk.reason 500))
   end,
   {| app := state rep; jar := cookie rep;
      outbox := (outbox Desk.bob ++ emitted rep)%list; served := 1 |}) /\
  (forall s payload,
     response rep = Responded s payload -> s <> 200 ->
     exists msg, payload = error_body msg /\ msg <> "" /\ (400 <= s)%Z).
Proof.
  intros c rep.
  exact (answers_reach_the_caller Sample.toy_hash Sample.toy_compare Desk.toy_iso
           Desk.reason Desk.detail Desk.env_at c Desk.bob WorkspaceGet "w1" None
           eq_refl eq_refl).
Defined.

Lemma edit_reaches_the_other_pages_witness :
  let sA := Desk.page_of Desk.alice [(KStr "w1", Desk.shop)] in
  let out := perform Desk.api Desk.toy_Date (Add Tables Desk.customers) "w1" 9 sA in
  let d1 :=
    touched 9 (set_prop "tables" (VArr [Desk.orders; Desk.customers]) Desk.shop) in
  out.1 = Ok tt /\
  (exists row',
     workspaces (db (app (world out.2))) !! "w1" = Some row' /\
     diagram_json row' = JSON.stringify (JObj (to_json_props Desk.toy_iso d1))) /\
  forall sock, sock ∈ members_of (rooms (app (world sA))) (room_of "w1") ->
    exists ev,
      received sock (outbox (world out.2)) =
        (received sock (outbox (world sA)) ++
         [{| dest := sock; event := "workspace:update"; data := ev |}])%list /\
      forall (W' : Type) (api' : call -> W' -> result value * W')
             (new_Date' : value -> option Z) (sB : @page W') r0 s0,
        getCachedOrFetch api' new_Date' "w1" sB = (Ok r0, s0) ->
        exists dB,
          Map_get (KStr "w1")
            (diagrams (onUpdate api' new_Date' "w1" (of_json ev) sB).2) = Some dB /\
          forall k, k <> "createdAt" -> k <> "updatedAt" ->
                    plain (lookup k d1) = true -> lookup k dB = lookup k d1.
Proof.
  intros sA out d1.
  assert (Hsel : select_workspace_of_member (db (app (world sA))) "w1" 1 = Some Sample.shop)
    by (vm_compute; reflexivity).
  assert (Hrun : perform Desk.api Desk.toy_Date (Add Tables Desk.customers) "w1" 9 sA
                 = (out.1, out.2)) by (apply surjective_pairing).
  assert (Hsent : sent out.2 <> sent sA) by (vm_compute; discriminate).
  assert (Hget : Map_get (KStr "w1") (diagrams out.2) = Some d1)
    by (vm_compute; reflexivity).
  assert (Hsize :
    (N.of_nat
       (String.length
          (JSON.stringify
             (JObj [("name", JStr "Shop");
                    ("diagram", JObj (to_json_props Desk.toy_iso d1))]))) <= limit)%N)
    by (apply N.leb_le; vm_compute; reflexivity).
  assert (Huid : (1 <> 0)%Z) by discriminate.
  exact (edit_reaches_the_other_pages Sample.toy_hash Sample.toy_compare Desk.toy_iso
           Desk.reason Desk.detail Desk.env_at Desk.toy_Date
           (Add Tables Desk.customers) "w1" 9 sA Desk.shop 1 Sample.shop "Shop"
           out.1 out.2 d1 eq_refl eq_refl eq_refl eq_refl
           Huid Hsel (calm_desk _) Hrun Hsent Hget Hsize).
Defined.

Lemma deleted_diagram_comes_back_witness :
  let s := Desk.page_of Desk.alice [(KStr "w1", Desk.shop)] in
  let s1 := (deleteDiagram "w1" s).2 in
  Map_get (KStr "w1") (diagrams s1) = None /\
  sent s1 = sent s /\ world s1 = world s /\
  exists d,
    (getDiagram Desk.api Desk.toy_Date "w1" s1).1 = Ok (Some d) /\
    forall k, k <> "createdAt" -> k <> "updatedAt" ->
              lookup k d = lookup k (of_json_props []).
Proof.
  intros s.
  assert (Hrow : workspaces (db (app (world s))) !! "w1" = Some Sample.shop)
    by (vm_compute; reflexivity).
  assert (Hmem : workspace_members (db (app (world s))) !! (1, "w1") = Some "owner")
    by (vm_compute; reflexivity).
  assert (Huid : (1 <> 0)%Z) by discriminate.
  exact (deleted_diagram_comes_back Sample.toy_hash Sample.toy_compare Desk.toy_iso
           Desk.reason Desk.detail Desk.env_at Desk.toy_Date "w1" s 1 Sample.shop
           "owner" [] eq_refl eq_refl Huid Hrow Hmem eq_refl (calm_desk _)).
Defined.

Lemma signIn_falls_back_to_login_witness :
  let s := Desk.page_of Desk.visitor [] in
  signIn Desk.api (Some "a@x.com") (Some "pw") s =
  if Sample.toy_compare "pw" (password_hash Sample.alice) then
    (Ok (Some (VObj [("id", VNum 1); ("email", VStr "a@x.com")])),
     {| diagrams := [];
        world := {| app := Sample.live; jar := Some 1; outbox := []; served := 3 |};
        sent := ([] ++ [signup "a@x.com" "pw"; login "a@x.com" "pw"; session])%list |})
  else
    (Thrown (Error "Invalid credentials"),
     {| diagrams := [];
        world := {| app := Sample.live; jar := None; outbox := []; served := 2 |};
        sent := ([] ++ [signup "a@x.com" "pw"; login "a@x.com" "pw"])%list |}).
Proof.
  intros s.
  assert (Hem : "a@x.com" <> "") by discriminate.
  assert (Hpw : "pw" <> "") by discriminate.
  assert (Hsel : select_user_by_email (db (app (world s))) "a@x.com" = Some (1, Sample.alice))
    by (vm_compute; reflexivity).
  assert (Huid : (1 <> 0)%Z) by discriminate.
  assert (Hsize :
    (N.of_nat
       (String.length
          (JSON.stringify (JObj [("email", JStr "a@x.com"); ("password", JStr "pw")])))
     <= limit)%N) by (apply N.leb_le; vm_compute; reflexivity).
  exact (signIn_falls_back_to_login Sample.toy_hash Sample.toy_compare Desk.toy_iso
           Desk.reason Desk.detail Desk.env_at "a@x.com" "pw" s 1 Sample.alice
           Hem Hpw Hsel Huid (calm_desk _) (calm_desk _) (calm_desk _) Hsize).
Defined.

Lemma added_diagram_survives_a_reload_witness :
  let s := Desk.page_of Desk.alice [] in
  let d :=
    set_prop "updatedAt" (VDate (Desk.toy_Date (lookup "updatedAt" Desk.plans)))
      (set_prop "createdAt" (VDate (Desk.toy_Date (lookup "createdAt" Desk.plans)))
         Desk.plans) in
  let s1 := (addDiagram Desk.api Desk.toy_Date (VObj Desk.plans) s).2 in
  let reloaded := {| diagrams := []; world := world s1; sent := [] |} in
  Map_get (KStr "w2") (diagrams s1) = Some d /\
  sent s1 = (sent s ++ [createWorkspace (VStr "w2") (VStr "Plans") (VObj d)])%list /\
  exists d2,
    (getDiagram Desk.api Desk.toy_Date "w2" reloaded).1 = Ok (Some d2) /\
    forall k, k <> "createdAt" -> k <> "updatedAt" ->
              plain (lookup k Desk.plans) = true -> lookup k d2 = lookup k Desk.plans.
Proof.
  intros s d.
  assert (Hnm : "Plans" <> "") by discriminate.
  assert (Huid : (1 <> 0)%Z) by discriminate.
  assert (Hcons : db_consistent (db (app (world s))) = true) by (vm_compute; reflexivity).
  assert (Huser : is_Some (users (db (app (world s))) !! 1))
    by (exists Sample.alice; vm_compute; reflexivity).
  assert (Hfresh : workspaces (db (app (world s))) !! "w2" = None)
    by (vm_compute; reflexivity).
  assert (Hsize :
    (N.of_nat
       (String.length
          (JSON.stringify
             (JObj [("id", JStr "w2"); ("name", JStr "Plans");
                    ("diagram", JObj (to_json_props Desk.toy_iso d))]))) <= limit)%N)
    by (apply N.leb_le; vm_compute; reflexivity).
  exact (added_diagram_survives_a_reload Sample.toy_hash Sample.toy_compare Desk.toy_iso
           Desk.reason Desk.detail Desk.env_at Desk.toy_Date Desk.plans s "w2" "Plans" 1
           eq_refl eq_refl Hnm eq_refl eq_refl Huid Hcons Huser Hfresh
           (calm_desk _) (calm_desk _) Hsize).
Defined.

Lemma addDiagram_overwrites_a_stored_workspace_witness :
  let s := Desk.page_of Desk.alice [] in
  let d :=
    set_prop "updatedAt" (VDate (Desk.toy_Date (lookup "updatedAt" Desk.shop)))
      (set_prop "createdAt" (VDate (Desk.toy_Date (lookup "createdAt" Desk.shop)))
         Desk.shop) in
  let jd := JObj (to_json_props Desk.toy_iso d) in
  let create := createWorkspace (VStr "w1") (VStr "Shop") (VObj d) in
  let update := updateWorkspace (KStr "w1") (document_body d) in
  let out := addDiagram Desk.api Desk.toy_Date (VObj Desk.shop) s in
  out.1 = Ok tt /\
  sent out.2 = (sent s ++ [create; update])%list /\
  workspaces (db (app (world out.2))) !! "w1" =
    Some {| name := "Shop"; owner_id := owner_id Sample.shop;
            diagram_json := JSON.stringify jd;
            created_at := created_at Sample.shop;
            updated_at := now_iso (Desk.env_at 1) |}.
Proof.
  intros s d jd.
  assert (Hnm : "Shop" <> "") by discriminate.
  assert (Huid : (1 <> 0)%Z) by discriminate.
  assert (Hsel : select_workspace_of_member (db (app (world s))) "w1" 1 = Some Sample.shop)
    by (vm_compute; reflexivity).
  assert (Hsize1 :
    (N.of_nat
       (String.length
          (JSON.stringify
             (JObj [("id", JStr "w1"); ("name", JStr "Shop"); ("diagram", jd)])))
     <= limit)%N) by (apply N.leb_le; vm_compute; reflexivity).
  assert (Hsize2 :
    (N.of_nat
       (String.length
          (JSON.stringify (JObj [("name", JStr "Shop"); ("diagram", jd)])))
     <= limit)%N) by (apply N.leb_le; vm_compute; reflexivity).
  exact (addDiagram_overwrites_a_stored_workspace Sample.toy_hash Sample.toy_compare
           Desk.toy_iso Desk.reason Desk.detail Desk.env_at Desk.toy_Date Desk.shop s
           "w1" "Shop" 1 Sample.shop eq_refl eq_refl Hnm eq_refl eq_refl Huid Hsel
           (calm_desk _) (calm_desk _) Hsize1 Hsize2).
Defined.

End Network.

